(** * Data chat front end: stream consumer, request guard and chart options

    A shallow embedding of the data-chat view (the script of the page that
    imports [dataChatApi]: [loadDatasources], [handleSend],
    [processSSEEvent]) and of the chart component it mounts
    ([normalizeColumns], [renderChart], [buildOption], [buildBarOption],
    [buildLineOption], [buildPieOption]).

    The code is JavaScript working on values decoded by [JSON.parse], so the
    embedding starts with the fragment of the language these functions use:
    dynamically typed values, truthiness, [||], [??], [===], property reads
    that throw on [null] and [undefined], [String(v)] and [Object.keys]. *)

From Stdlib Require Import ZArith String Ascii List Bool Permutation Sorted Lia.
From stdpp Require Import base option list strings pretty.

#[local] Set Warnings "-register-all".
Local Open Scope Z_scope.
Local Open Scope string_scope.
Local Open Scope list_scope.

(** ** JavaScript values *)

Module JS.

(** A value as [JSON.parse] delivers it, plus [undefined] (what a read of an
    absent property gives).  Numbers are the integer-valued ones (the
    language holds them exactly, and prints them digit by digit, below 2^53
    in magnitude: see [safe_numbers]); an object is the list of its own
    properties in property order. *)
Inductive jsval : Type :=
| JUndefined
| JNull
| JBool (b : bool)
| JNum (n : Z)
| JStr (s : string)
| JArr (items : list jsval)
| JObj (props : list (string * jsval)).

(** [Boolean(v)], the test behind [if], [!], [||], [&&] and [? :]. *)
Definition truthy (v : jsval) : bool :=
  match v with
  | JUndefined | JNull => false
  | JBool b => b
  | JNum n => negb (n =? 0)%Z
  | JStr s => negb (String.eqb s "")
  | JArr _ | JObj _ => true
  end.

(** [v == null]: true of [null] and [undefined] only. *)
Definition nullish (v : jsval) : bool :=
  match v with
  | JUndefined | JNull => true
  | _ => false
  end.

(** [a || b] and [a ?? b] on values already computed. *)
Definition or (a b : jsval) : jsval := if truthy a then a else b.
Definition coalesce (a b : jsval) : jsval := if nullish a then b else a.

(** [a === b] where [a] and [b] were not obtained from one and the same
    object: primitives compare by value, while two arrays or two objects are
    different references and never equal.  Every [===] and every [case] of
    the modelled code has a literal on one side, or compares a label stored
    from an earlier event with a value of the current one, or compares two
    chat identifiers. *)
Definition strict_eq (a b : jsval) : bool :=
  match a, b with
  | JUndefined, JUndefined => true
  | JNull, JNull => true
  | JBool x, JBool y => Bool.eqb x y
  | JNum x, JNum y => (x =? y)%Z
  | JStr x, JStr y => String.eqb x y
  | _, _ => false
  end.

(** First binding of a key in a property list; [undefined] when absent. *)
Fixpoint assoc (k : string) (props : list (string * jsval)) : jsval :=
  match props with
  | [] => JUndefined
  | (k', v) :: rest => if String.eqb k k' then v else assoc k rest
  end.

(** Own enumerable properties: those of an object, the indices of an array,
    the indices of a string (one per byte of the text, which is one per
    character for text in ASCII); a number or a boolean has none. *)
Definition own_props (v : jsval) : list (string * jsval) :=
  match v with
  | JObj props => props
  | JArr items => imap (fun i x => (pretty i, x)) items
  | JStr s =>
      imap (fun i c => (pretty i, JStr (String c EmptyString)))
           (list_ascii_of_string s)
  | _ => []
  end.

(** [v.k] and [v[k]]: [None] is the TypeError of reading a property of
    [null] or [undefined]; arrays and strings also answer [length].  The
    read sees own properties: the names every value inherits ([constructor],
    [toString] and the like), under which the language answers a function,
    are not among the names the modelled code reads, a computed column name
    apart. *)
Definition get (v : jsval) (k : string) : option jsval :=
  match v with
  | JUndefined | JNull => None
  | JArr items =>
      Some (if String.eqb k "length" then JNum (Z.of_nat (length items))
            else assoc k (own_props v))
  | JStr s =>
      Some (if String.eqb k "length" then JNum (Z.of_nat (String.length s))
            else assoc k (own_props v))
  | _ => Some (assoc k (own_props v))
  end.

(** [v?.k]: [undefined] instead of the TypeError. *)
Definition get_opt (v : jsval) (k : string) : jsval :=
  default JUndefined (get v k).

(** [Object.keys(v)] for a [v] that is neither [null] nor [undefined]. *)
Definition keys (v : jsval) : list jsval :=
  map (fun kv => JStr (fst kv)) (own_props v).

(** The text of a value: what [String(v)], [s + v] for a string [s] and the
    key conversion of [d[v]] produce when they produce a text (see [to_text]
    for when they do not). *)
Fixpoint to_string (v : jsval) : string :=
  match v with
  | JUndefined => "undefined"
  | JNull => "null"
  | JBool true => "true"
  | JBool false => "false"
  | JNum n => pretty n
  | JStr s => s
  | JArr items =>
      (fix join (l : list jsval) : string :=
         match l with
         | [] => ""
         | x :: rest =>
             let sx := match x with
                       | JUndefined | JNull => ""
                       | _ => to_string x
                       end in
             match rest with
             | [] => sx
             | _ :: _ => sx +:+ "," +:+ join rest
             end
         end) items
  | JObj _ => "[object Object]"
  end.

(** Whether a value can be turned into text.  A decoded object whose own
    properties include [toString] cannot: the property hides the method, it
    holds no function, and [valueOf] gives the object back, so the conversion
    ends in a TypeError.  An array is joined, which converts each element
    other than [null] and [undefined]. *)
Fixpoint has_text (v : jsval) : bool :=
  match v with
  | JArr items =>
      (fix all (l : list jsval) : bool :=
         match l with
         | [] => true
         | x :: rest => has_text x && all rest
         end) items
  | JObj props =>
      negb (existsb (fun kv => String.eqb "toString" (fst kv)) props)
  | _ => true
  end.

(** [String(v)], [s + v] for a string [s], and the key of [d[v]]: [None] is
    the TypeError. *)
Definition to_text (v : jsval) : option string :=
  if has_text v then Some (to_string v) else None.

(** The numbers a text shows are within the range the language holds
    exactly and prints digit by digit. *)
Fixpoint safe_numbers (v : jsval) : bool :=
  match v with
  | JNum n => (Z.abs n <? 2 ^ 53)%Z
  | JArr items =>
      (fix all (l : list jsval) : bool :=
         match l with
         | [] => true
         | x :: rest => safe_numbers x && all rest
         end) items
  | _ => true
  end.

(** The names every object inherits: under one of them a read answers a
    function of the language (for [__proto__] the prototype), unless the
    object has a property of that name itself. *)
Definition inherited_name (k : string) : bool :=
  existsb (String.eqb k)
    ["constructor"; "hasOwnProperty"; "isPrototypeOf";
     "propertyIsEnumerable"; "toLocaleString"; "toString"; "valueOf";
     "__proto__"; "__defineGetter__"; "__defineSetter__";
     "__lookupGetter__"; "__lookupSetter__"].

(** [d[k]] with a computed key: the TypeError of a [d] that is [null] or
    [undefined], or of a key that has no text. *)
Definition get_at (v k : jsval) : option jsval :=
  key ← to_text k; get v key.

(** White space and line terminators of the language, as UTF-8 bytes. *)
Definition byte_is (c : ascii) (n : nat) : bool := Nat.eqb (nat_of_ascii c) n.

(** TAB, LF, VT, FF, CR and SPACE. *)
Definition ws1 (c : ascii) : bool :=
  let n := nat_of_ascii c in
  (Nat.leb 9 n && Nat.leb n 13) || Nat.eqb n 32.

(** U+00A0. *)
Definition ws2 (c1 c2 : ascii) : bool := byte_is c1 194 && byte_is c2 160.

(** U+1680, U+2000 to U+200A, U+2028, U+2029, U+202F, U+205F, U+3000 and
    U+FEFF. *)
Definition ws3 (c1 c2 c3 : ascii) : bool :=
  let n3 := nat_of_ascii c3 in
  (byte_is c1 225 && byte_is c2 154 && byte_is c3 128)
  || (byte_is c1 226 && byte_is c2 128
      && ((Nat.leb 128 n3 && Nat.leb n3 138)
          || Nat.eqb n3 168 || Nat.eqb n3 169 || Nat.eqb n3 175))
  || (byte_is c1 226 && byte_is c2 129 && byte_is c3 159)
  || (byte_is c1 227 && byte_is c2 128 && byte_is c3 128)
  || (byte_is c1 239 && byte_is c2 187 && byte_is c3 191).

Fixpoint trim_start (l : list ascii) : list ascii :=
  match l with
  | [] => []
  | c1 :: r1 =>
      if ws1 c1 then trim_start r1
      else match r1 with
           | c2 :: r2 =>
               if ws2 c1 c2 then trim_start r2
               else match r2 with
                    | c3 :: r3 => if ws3 c1 c2 c3 then trim_start r3 else l
                    | [] => l
                    end
           | [] => l
           end
  end.

(** The same on the reversed text, where a character shows its last byte
    first. *)
Fixpoint trim_start_rev (l : list ascii) : list ascii :=
  match l with
  | [] => []
  | c1 :: r1 =>
      if ws1 c1 then trim_start_rev r1
      else match r1 with
           | c2 :: r2 =>
               if ws2 c2 c1 then trim_start_rev r2
               else match r2 with
                    | c3 :: r3 =>
                        if ws3 c3 c2 c1 then trim_start_rev r3 else l
                    | [] => l
                    end
           | [] => l
           end
  end.

(** [s.trim()]: white space and line terminators are dropped from both
    ends. *)
Definition trim (s : string) : string :=
  string_of_list_ascii
    (rev (trim_start_rev (rev (trim_start (list_ascii_of_string s))))).

(** Property order: array indices first, in ascending order, then the other
    keys in order of creation. *)
Definition digit (c : ascii) : option N :=
  let n := N_of_ascii c in
  if ((48 <=? n) && (n <=? 57))%N then Some (n - 48)%N else None.

Fixpoint parse_digits (acc : N) (s : string) : option N :=
  match s with
  | EmptyString => Some acc
  | String c rest => d ← digit c; parse_digits (acc * 10 + d)%N rest
  end.

Definition array_index (k : string) : option N :=
  n ← parse_digits 0%N k;
  if negb (String.eqb k "") && String.eqb (pretty n) k && (n <? 4294967295)%N
  then Some n else None.

Definition has_key (k : string) (props : list (string * jsval)) : bool :=
  existsb (fun kv => String.eqb k (fst kv)) props.

Fixpoint replace (k : string) (v : jsval) (props : list (string * jsval))
  : list (string * jsval) :=
  match props with
  | [] => []
  | (k', v') :: rest =>
      if String.eqb k k' then (k, v) :: rest else (k', v') :: replace k v rest
  end.

Fixpoint insert_index (n : N) (k : string) (v : jsval)
  (props : list (string * jsval)) : list (string * jsval) :=
  match props with
  | [] => [(k, v)]
  | (k', v') :: rest =>
      match array_index k' with
      | Some n' =>
          if (n <? n')%N then (k, v) :: props
          else (k', v') :: insert_index n k v rest
      | None => (k, v) :: props
      end
  end.

(** [o[k] = v] on the property list of [o]. *)
Definition put (k : string) (v : jsval) (props : list (string * jsval))
  : list (string * jsval) :=
  if has_key k props then replace k v props
  else match array_index k with
       | Some n => insert_index n k v props
       | None => props ++ [(k, v)]
       end.

(** [{ ...target, ...src }] *)
Definition spread (target : list (string * jsval)) (src : jsval)
  : list (string * jsval) :=
  fold_left (fun acc kv => put (fst kv) (snd kv) acc) (own_props src) target.

(** [v.map(f)]: only an array has the method (a property called [map] of a
    decoded object is no function); [f] may raise. *)
Definition map_array (f : jsval -> option jsval) (v : jsval) : option jsval :=
  match v with
  | JArr items => JArr <$> mapM f items
  | _ => None
  end.

End JS.

Export JS.

(** ** The data-chat view *)

Module DataChat.

(** One entry of [msg.steps]. *)
Record step : Type := Step { label : jsval; status : string }.

(** The reply object built by [handleSend].  [summary] is [null] at creation
    and is only ever assigned the result of a string concatenation, hence
    [option string]; the other payload fields receive whatever the event
    carries. *)
Record message : Type := Message {
  role : string;
  msgKey : Z;
  steps : list step;
  sql : jsval;
  chartConfig : jsval;
  renderData : jsval;
  tableData : jsval;
  summary : option string;
  recommended : jsval;
  error : jsval
}.

Definition set_steps (m : message) (x : list step) : message :=
  Message (role m) (msgKey m) x (sql m) (chartConfig m) (renderData m)
          (tableData m) (summary m) (recommended m) (error m).
Definition set_sql (m : message) (x : jsval) : message :=
  Message (role m) (msgKey m) (steps m) x (chartConfig m) (renderData m)
          (tableData m) (summary m) (recommended m) (error m).
Definition set_chartConfig (m : message) (x : jsval) : message :=
  Message (role m) (msgKey m) (steps m) (sql m) x (renderData m)
          (tableData m) (summary m) (recommended m) (error m).
Definition set_renderData (m : message) (x : jsval) : message :=
  Message (role m) (msgKey m) (steps m) (sql m) (chartConfig m) x
          (tableData m) (summary m) (recommended m) (error m).
Definition set_tableData (m : message) (x : jsval) : message :=
  Message (role m) (msgKey m) (steps m) (sql m) (chartConfig m) (renderData m)
          x (summary m) (recommended m) (error m).
Definition set_summary (m : message) (x : option string) : message :=
  Message (role m) (msgKey m) (steps m) (sql m) (chartConfig m) (renderData m)
          (tableData m) x (recommended m) (error m).
Definition set_recommended (m : message) (x : jsval) : message :=
  Message (role m) (msgKey m) (steps m) (sql m) (chartConfig m) (renderData m)
          (tableData m) (summary m) x (error m).
Definition set_error (m : message) (x : jsval) : message :=
  Message (role m) (msgKey m) (steps m) (sql m) (chartConfig m) (renderData m)
          (tableData m) (summary m) (recommended m) x.

(** The object literal of [handleSend]. *)
Definition new_ai_message : message :=
  Message "ai" 0 [] JNull JNull JNull JNull None JNull JNull.

(** [const step = steps.find(s => s.label === target); if (step)
    step.status = 'done']: the first entry with that label is marked. *)
Fixpoint mark_done (target : jsval) (ss : list step) : list step :=
  match ss with
  | [] => []
  | s :: rest =>
      if strict_eq (label s) target then Step (label s) "done" :: rest
      else s :: mark_done target rest
  end.

(** [msg.summary || ''] *)
Definition summary_text (m : message) : string := default "" (summary m).

(** Two replies agree on everything but [summary] and [error]. *)
Definition same_payload (m m' : message) : Prop :=
  role m' = role m /\ msgKey m' = msgKey m /\ steps m' = steps m
  /\ sql m' = sql m /\ chartConfig m' = chartConfig m
  /\ renderData m' = renderData m /\ tableData m' = tableData m
  /\ recommended m' = recommended m.

(** [processSSEEvent(msg, evt)].  [None] is a TypeError; each one the
    function can raise comes from the first read of [data] in a branch or
    from turning the content of an answer into text, before any assignment
    to [msg], so a raise leaves [msg] as it was. *)
Definition processSSEEvent (msg : message) (evt : jsval) : option message :=
  dataType ← get evt "dataType";
  data ← get evt "data";
  if strict_eq dataType (JStr "step_progress") then
    st ← get data "status";
    if strict_eq st (JStr "start") then
      stepName ← get data "stepName";
      stepId ← get data "step";
      Some (set_steps msg (steps msg ++ [Step (or stepName stepId) "running"]))
    else if strict_eq st (JStr "complete") then
      stepName ← get data "stepName";
      stepId ← get data "step";
      Some (set_steps msg (mark_done (or stepName stepId) (steps msg)))
    else Some msg
  else if strict_eq dataType (JStr "answer") then
    messageType ← get data "messageType";
    content ← get data "content";
    if strict_eq messageType (JStr "error") then
      Some (set_error msg content)
    else
      text ← to_text (or content (JStr ""));
      Some (set_summary msg (Some (summary_text msg +:+ text)))
  else if strict_eq dataType (JStr "bus_data") then
    chart_config ← get data "chart_config";
    let m1 := if nullish chart_config then msg
              else set_chartConfig msg chart_config in
    render_data ← get data "render_data";
    let m2 := if nullish render_data then m1
              else set_tableData (set_renderData m1 render_data)
                     (coalesce (get_opt render_data "data") JNull) in
    sql_text ← get data "sql";
    let m3 := if truthy sql_text then set_sql m2 sql_text else m2 in
    questions ← get data "recommended_questions";
    let m4 := if truthy questions then set_recommended m3 questions else m3 in
    Some m4
  else Some msg.

(** *** The stream loop of [handleSend] *)

(** What the view asks of the outside world. *)
Inductive effect : Type :=
| EChat (data : jsval)          (* dataChatApi.chat(data) *)
| EGetSessions                  (* loadSessions() *)
| EGetRecommendations (ds : jsval) (* loadRecommendations() *)
| EGetSessionRecords (chat : jsval).

(** The body of the inner [try] for one parsed line: a [stream_end] with a
    truthy [data.chat_id] goes to [chatId] and reloads the session list,
    anything else goes to [processSSEEvent]; the [catch] drops a TypeError
    (an [evt] that is [null], a payload that is missing). *)
Definition consume (chat : jsval) (msg : message) (evt : jsval)
  : jsval * message * list effect :=
  match get evt "dataType" with
  | None => (chat, msg, [])
  | Some dataType =>
      let chat_id := get_opt (get_opt evt "data") "chat_id" in
      if strict_eq dataType (JStr "stream_end") && truthy chat_id
      then (chat_id, msg, [EGetSessions])
      else (chat, default msg (processSSEEvent msg evt), [])
  end.

(** The reply after a run of events, each under its own [try]/[catch]. *)
Definition feed (msg : message) (evts : list jsval) : message :=
  fold_left (fun m evt => default m (processSSEEvent m evt)) evts msg.

(** [processSSEEvent] applied to one event after the other, a TypeError
    ending the sequence. *)
Fixpoint process_all (msg : message) (evts : list jsval) : option message :=
  match evts with
  | [] => Some msg
  | evt :: rest => m ← processSSEEvent msg evt; process_all m rest
  end.

(** *** The view: its refs and the handlers that write them *)

(** One element of [messages.value]: a user bubble, a reference to a reply
    object that a running [handleSend] still writes to, or a reply rebuilt
    from a stored record by [loadSession]. *)
Inductive entry : Type :=
| UserMsg (content : jsval)
| Reply (ref : nat)
| Past (sql_statement chart_config query_result table_data answer : jsval).

(** How far an invocation of [handleSend] has come: waiting for the response
    of [dataChatApi.chat], or reading its body. *)
Inductive phase : Type := Awaiting | Reading.

Record run : Type := Run { reply : nat; stage : phase }.

(** The refs of the page that [handleSend] reads or writes, the reply
    objects ([replies], addressed by [Reply] and by the runs), and the
    invocations of [handleSend] that have not returned ([runs]). *)
Record view : Type := View {
  inputText : jsval;
  currentDsId : jsval;
  chatId : jsval;
  selectedModel : jsval;
  streaming : bool;
  messages : list entry;
  replies : list message;
  runs : list run
}.

Definition initial : view :=
  View (JStr "") JNull JNull (JStr "") false [] [] [].

(** [handleSend] up to its first [await].  [None] is the TypeError of
    [inputText.value.trim()] on a value that is not a string
    ([sendQuestion] stores whatever the list of questions holds). *)
Definition handleSend (v : view) : option (view * list effect) :=
  match inputText v with
  | JStr text =>
      let query := trim text in
      if String.eqb query "" || negb (truthy (currentDsId v)) || streaming v
      then Some (v, [])
      else
        let ref := length (replies v) in
        Some (View (JStr "") (currentDsId v) (chatId v) (selectedModel v) true
                   (messages v ++ [UserMsg (JStr query); Reply ref])
                   (replies v ++ [new_ai_message])
                   (runs v ++ [Run ref Awaiting]),
              [EChat (JObj [("query", JStr query);
                            ("datasource_id", currentDsId v);
                            ("chat_id", chatId v);
                            ("model", or (selectedModel v) JUndefined)])])
  | _ => None
  end.

(** [dataChatApi.chat(data)]: the POST that carries [JSON.stringify(data)];
    the serializer leaves out a property whose value is [undefined]. *)
Record request : Type := Request {
  url : string;
  method : string;
  body_fields : list (string * jsval)
}.

Definition is_undefined (v : jsval) : bool :=
  match v with JUndefined => true | _ => false end.

Definition chat (data : jsval) : request :=
  Request "/api/data-chat/chat" "POST"
    (List.filter (fun kv => negb (is_undefined (snd kv))) (own_props data)).

(** [handleDsChange] and [handleNewChat] have the same body. *)
Definition handleNewChat (v : view) : view * list effect :=
  (View (inputText v) (currentDsId v) JNull (selectedModel v) (streaming v)
        [] (replies v) (runs v),
   if truthy (currentDsId v) then [EGetRecommendations (currentDsId v)]
   else []).

Definition handleDsChange (v : view) : view * list effect := handleNewChat v.

(** [onModelSelect(spec)] *)
Definition onModelSelect (v : view) (spec : jsval) : view :=
  View (inputText v) (currentDsId v) (chatId v) (or spec (JStr ""))
       (streaming v) (messages v) (replies v) (runs v).

(** [loadSession(session)] up to its [await]; [None] when [session] is
    [null] or [undefined]. *)
Definition loadSession (v : view) (session : jsval)
  : option (view * list effect) :=
  chat_id ← get session "chat_id";
  if strict_eq chat_id (chatId v) then Some (v, [])
  else
    datasource_id ← get session "datasource_id";
    Some (View (inputText v)
               (if truthy datasource_id then datasource_id else currentDsId v)
               chat_id (selectedModel v) (streaming v) [] (replies v) (runs v),
          [EGetSessionRecords chat_id]).

(** The two bubbles [loadSession] pushes for a record [r]. *)
Definition record_entries (r : jsval) : option (list entry) :=
  question ← get r "question";
  sql_statement ← get r "sql_statement";
  chart_config ← get r "chart_config";
  query_result ← get r "query_result";
  answer ← get r "answer";
  Some [UserMsg question;
        Past (or sql_statement JNull) (or chart_config JNull)
             (or query_result JNull)
             (or (get_opt query_result "data") JNull)
             (or answer JNull)].

(** The [for (const r of records)] loop: the bubbles pushed, and whether the
    loop ran to its end ([false]: a record raised, the rest is skipped). *)
Fixpoint push_records (records : list jsval) : list entry * bool :=
  match records with
  | [] => ([], true)
  | r :: rest =>
      match record_entries r with
      | None => ([], false)
      | Some es => let (more, ok) := push_records rest in (es ++ more, ok)
      end
  end.

(** What [for ... of] walks through; [None]: not iterable. *)
Definition iterate (v : jsval) : option (list jsval) :=
  match v with
  | JArr items => Some items
  | JStr s => Some (map snd (own_props v))
  | _ => None
  end.

(** [loadSession] after its [await], [res] being the answer of
    [getSessionRecords]. *)
Definition loadSession_records (v : view) (res : jsval)
  : view * list effect :=
  match get res "data" with
  | None => (v, [])
  | Some d =>
      match iterate (or d (JArr [])) with
      | None => (v, [])
      | Some records =>
          let (pushed, ok) := push_records records in
          (View (inputText v) (currentDsId v) (chatId v) (selectedModel v)
                (streaming v) (messages v ++ pushed) (replies v) (runs v),
           if ok && truthy (currentDsId v)
           then [EGetRecommendations (currentDsId v)] else [])
      end
  end.

(** *** The continuations of [handleSend] *)

Definition set_streaming (v : view) (b : bool) : view :=
  View (inputText v) (currentDsId v) (chatId v) (selectedModel v) b
       (messages v) (replies v) (runs v).

(** Leaving [handleSend] through [finally]: [streaming.value = false]; the
    invocation [k] is over. *)
Definition finish (v : view) (k : nat) (rs : list message) : view :=
  View (inputText v) (currentDsId v) (chatId v) (selectedModel v) false
       (messages v) rs (delete k (runs v)).

(** The response of [dataChatApi.chat] has arrived for invocation [k];
    [code] is [response.status], a number. *)
Definition on_response (v : view) (k : nat) (ok : bool) (code : jsval) : view :=
  match runs v !! k with
  | Some (Run ref Awaiting) =>
      if ok then
        View (inputText v) (currentDsId v) (chatId v) (selectedModel v)
             (streaming v) (messages v) (replies v)
             (<[k := Run ref Reading]> (runs v))
      else
        finish v k
          (alter (fun m => set_error m
                    (JStr ("请求失败: " +:+ to_string code)))
                 ref (replies v))
  | _ => v
  end.

(** One parsed [data:] line for invocation [k]. *)
Definition on_event (v : view) (k : nat) (evt : jsval) : view * list effect :=
  match runs v !! k with
  | Some (Run ref Reading) =>
      match replies v !! ref with
      | Some msg =>
          let '(chat', msg', effs) := consume (chatId v) msg evt in
          (View (inputText v) (currentDsId v) chat' (selectedModel v)
                (streaming v) (messages v) (<[ref := msg']> (replies v))
                (runs v),
           effs)
      | None => (v, [])
      end
  | _ => (v, [])
  end.

(** [reader.read()] reports [done] for invocation [k]. *)
Definition on_done (v : view) (k : nat) : view :=
  match runs v !! k with
  | Some (Run ref Reading) => finish v k (replies v)
  | _ => v
  end.

(** An exception [e] reaches the outer [catch] of invocation [k] (the
    request failed, the body could not be read).  [e.message] on [null] or
    [undefined], or a message that has no text, raises again, past the
    assignment but not past [finally]. *)
Definition on_error (v : view) (k : nat) (e : jsval) : view :=
  match runs v !! k with
  | Some (Run ref _) =>
      finish v k
        match m ← get e "message"; to_text (or m (JStr "未知错误")) with
        | Some text =>
            alter (fun msg => set_error msg (JStr ("请求异常: " +:+ text)))
                  ref (replies v)
        | None => replies v
        end
  | None => v
  end.

(** What can happen to the page. *)
Inductive action : Type :=
| Input (text : jsval)            (* typing, or [sendQuestion]'s assignment *)
| Send                            (* [handleSend()] *)
| SelectDs (id : jsval)           (* the select, then [handleDsChange] *)
| NewChat
| SelectModel (spec : jsval)
| OpenSession (session : jsval)
| SessionRecords (res : jsval)
| Response (k : nat) (ok : bool) (code : jsval)
| Event (k : nat) (evt : jsval)
| Done (k : nat)
| Error (k : nat) (e : jsval).

Definition set_inputText (v : view) (x : jsval) : view :=
  View x (currentDsId v) (chatId v) (selectedModel v) (streaming v)
       (messages v) (replies v) (runs v).

Definition set_currentDsId (v : view) (x : jsval) : view :=
  View (inputText v) x (chatId v) (selectedModel v) (streaming v)
       (messages v) (replies v) (runs v).

Definition perform (v : view) (a : action) : view * list effect :=
  match a with
  | Input text => (set_inputText v text, [])
  | Send => default (v, []) (handleSend v)
  | SelectDs id => handleDsChange (set_currentDsId v id)
  | NewChat => handleNewChat v
  | SelectModel spec => (onModelSelect v spec, [])
  | OpenSession session => default (v, []) (loadSession v session)
  | SessionRecords res => loadSession_records v res
  | Response k ok code => (on_response v k ok code, [])
  | Event k evt => on_event v k evt
  | Done k => (on_done v k, [])
  | Error k e => (on_error v k e, [])
  end.

(** The actions with which an invocation of [handleSend] returns. *)
Definition terminal (a : action) : bool :=
  match a with
  | Response _ false _ | Done _ | Error _ _ => true
  | _ => false
  end.

(** The views the page can be in. *)
Inductive reachable : view -> Prop :=
| reachable_initial : reachable initial
| reachable_perform v a : reachable v -> reachable (fst (perform v a)).

(** *** [loadDatasources] *)

(** The body of its [try]; [None] when it raises. *)
Definition is_success (ds : jsval) : bool :=
  strict_eq (get_opt ds "status") (JStr "success").

Definition ds_option (ds : jsval) : jsval :=
  JObj [("label", get_opt ds "name"); ("value", get_opt ds "id")].

Definition fetched_options (res : jsval) : option (list jsval) :=
  datasources ← get res "datasources";
  match or datasources (JArr []) with
  | JArr list =>
      if forallb (fun ds => negb (nullish ds)) list
      then Some (map ds_option (List.filter is_success list))
      else None
  | _ => None
  end.

(** [dsOptions.value] after [loadDatasources], [res] being what
    [datasourceApi.list()] resolved to, or [None] when it rejected; the
    [catch] keeps the old options. *)
Definition loadDatasources (dsOptions : list jsval) (res : option jsval)
  : list jsval :=
  default dsOptions (res ≫= fetched_options).

(** *** Notions used to state properties of the consumer *)

(** A step that shows as running or as done (any other status shows as
    pending in the template). *)
Definition settled (s : step) : Prop :=
  status s = "running" \/ status s = "done".

(** Every entry of [before] is still there at its index in [after], under
    its label, with the status it had or with ["done"]. *)
Definition advances (before after : list step) : Prop :=
  forall (i : nat) (s : step),
    before !! i = Some s ->
    exists s' : step,
      after !! i = Some s'
      /\ label s' = label s
      /\ (status s' = status s \/ status s' = "done").

(** The fields of the reply a [bus_data] event can fill. *)
Inductive field : Type := FChart | FRender | FSql | FRecommended.

#[export] Instance field_eq_dec : EqDecision field.
Proof. solve_decision. Defined.

Definition is_bus_data (evt : jsval) : bool :=
  strict_eq (get_opt evt "dataType") (JStr "bus_data").

(** The payload of an event. *)
Definition payload (evt : jsval) : jsval := get_opt evt "data".

(** The fields an event carries a value for: a [chart_config] or a
    [render_data] other than [null], a non-empty [sql], a truthy
    [recommended_questions]. *)
Definition carried (evt : jsval) : list field :=
  (if nullish (get_opt (payload evt) "chart_config") then [] else [FChart])
  ++ (if nullish (get_opt (payload evt) "render_data") then [] else [FRender])
  ++ (if truthy (get_opt (payload evt) "sql") then [FSql] else [])
  ++ (if truthy (get_opt (payload evt) "recommended_questions")
      then [FRecommended] else []).

(** What a [bus_data] event with payload stores into the reply: the branch
    of [processSSEEvent] read off the payload. *)
Definition store (evt : jsval) (msg : message) : message :=
  let data := payload evt in
  let m1 := if nullish (get_opt data "chart_config") then msg
            else set_chartConfig msg (get_opt data "chart_config") in
  let m2 := if nullish (get_opt data "render_data") then m1
            else set_tableData
                   (set_renderData m1 (get_opt data "render_data"))
                   (coalesce (get_opt (get_opt data "render_data") "data")
                             JNull) in
  let m3 := if truthy (get_opt data "sql")
            then set_sql m2 (get_opt data "sql") else m2 in
  if truthy (get_opt data "recommended_questions")
  then set_recommended m3 (get_opt data "recommended_questions") else m3.

(** A [bus_data] event that brings a payload. *)
Definition bus_event (evt : jsval) : Prop :=
  is_bus_data evt = true /\ nullish (payload evt) = false.

(** Events used as examples. *)
Definition progress_event (st name : string) : jsval :=
  JObj [("dataType", JStr "step_progress");
        ("data", JObj [("status", JStr st); ("stepName", JStr name)])].

Definition bus_data_event (k : string) (v : jsval) : jsval :=
  JObj [("dataType", JStr "bus_data"); ("data", JObj [(k, v)])].

(** The page has no invocation of [handleSend] under way and shows no
    stream, or exactly one and shows it. *)
Definition single_flight (v : view) : Prop :=
  (streaming v = false /\ runs v = [])
  \/ (streaming v = true /\ exists r : run, runs v = [r]).

(** The object [handleSend] hands to [dataChatApi.chat]. *)
Definition chat_data (query : string) (v : view) : jsval :=
  JObj [("query", JStr query);
        ("datasource_id", currentDsId v);
        ("chat_id", chatId v);
        ("model", or (selectedModel v) JUndefined)].

(** An example: a datasource is selected, a question typed and sent. *)
Definition asking : view :=
  (perform (perform (perform initial (SelectDs (JNum 7))).1
              (Input (JStr "top 10 products"))).1
           Send).1.

(** An example: three datasources, one of them synchronized. *)
Definition sample_datasources : list jsval :=
  [JObj [("id", JNum 1); ("name", JStr "crm"); ("status", JStr "pending")];
   JObj [("id", JNum 2); ("name", JStr "sales"); ("status", JStr "success")];
   JObj [("id", JNum 3); ("name", JStr "hr"); ("status", JStr "failed")]].

(** *** The table under a reply *)

(** The column object both tables are given for a name. *)
Definition table_column (k : jsval) : jsval :=
  JObj [("title", k); ("dataIndex", k); ("key", k); ("width", JNum 150);
        ("ellipsis", JBool true)].

(** [getTableColumns(data)]; [None] is the TypeError of [Object.keys] on a
    first row that is [null] or [undefined]. *)
Definition getTableColumns (data : jsval) : option (list jsval) :=
  if negb (truthy data) then Some []
  else
    len ← get data "length";
    if strict_eq len (JNum 0) then Some []
    else
      first ← get data "0";
      if nullish first then None
      else Some (map table_column (keys first)).

(** The kinds of event the consumer knows and acts on. *)
Definition acts_on (dataType : jsval) : bool :=
  strict_eq dataType (JStr "step_progress")
  || strict_eq dataType (JStr "answer")
  || strict_eq dataType (JStr "bus_data").

(** A [step_progress] event that starts a step: it has a payload whose
    [status] is ["start"]. *)
Definition starts_step (evt : jsval) : bool :=
  strict_eq (get_opt evt "dataType") (JStr "step_progress")
  && strict_eq (get_opt (get_opt evt "data") "status") (JStr "start").

(** The content an event offers to the summary: that of an [answer] event
    with a payload whose [messageType] is not ["error"]; the empty text for
    any other event. *)
Definition offered (evt : jsval) : jsval :=
  if strict_eq (get_opt evt "dataType") (JStr "answer")
     && negb (nullish (get_opt evt "data"))
     && negb (strict_eq (get_opt (get_opt evt "data") "messageType")
                        (JStr "error"))
  then or (get_opt (get_opt evt "data") "content") (JStr "")
  else JStr "".

(** The text an event adds to the summary: that of the content it offers;
    nothing when the content has no text (the event is dropped). *)
Definition appended (evt : jsval) : string :=
  default "" (to_text (offered evt)).

(** The events that can be delivered twice without harm: everything but a
    step that starts and a piece of summary text. *)
Definition replay_safe (evt : jsval) : bool :=
  negb (starts_step evt) && String.eqb (appended evt) "".

(** A [step_progress] event with a payload whose [status] is
    ["complete"], and the label it names. *)
Definition completes_step (evt : jsval) : bool :=
  strict_eq (get_opt evt "dataType") (JStr "step_progress")
  && strict_eq (get_opt (get_opt evt "data") "status") (JStr "complete").

Definition named_label (evt : jsval) : jsval :=
  or (get_opt (get_opt evt "data") "stepName")
     (get_opt (get_opt evt "data") "step").

(** [tableData] is what [renderData] holds under [data], [null] when it
    holds nothing there or is itself [null]. *)
Definition table_mirrors_render (m : message) : Prop :=
  tableData m = coalesce (get_opt (renderData m) "data") JNull.

(** No reference to a reply object dangles: every run and every [Reply]
    bubble points into [replies]. *)
Definition refs_valid (v : view) : Prop :=
  Forall (fun r => (reply r < length (replies v))%nat) (runs v)
  /\ Forall (fun e => match e with
                      | Reply ref => (ref < length (replies v))%nat
                      | _ => True
                      end) (messages v).


(** The page after a sequence of actions. *)
Definition page_after (v : view) (trace : list action) : view :=
  fold_left (fun v a => (perform v a).1) trace v.

(** The actions that cannot write [chatId]: all but a new chat, a change of
    datasource, the opening of a session, and a [stream_end] event that
    carries a chat identifier. *)
Definition keeps_chat (a : action) : bool :=
  match a with
  | NewChat | SelectDs _ | OpenSession _ => false
  | Event _ evt =>
      negb (strict_eq (get_opt evt "dataType") (JStr "stream_end")
            && truthy (get_opt (get_opt evt "data") "chat_id"))
  | _ => true
  end.

End DataChat.

(** ** The chart component *)

Module Chart.

(** [getChartColors()]: [css i] is what [getPropertyValue] answers for
    [--chart-palette-i]. *)
Definition default_palette : list string :=
  ["#3996ae"; "#5faec2"; "#82c3d6"; "#a3d8e8"; "#046a82"; "#024c63";
   "#f0b429"; "#e8694e"; "#6c63ff"; "#2ecc71"].

Definition getChartColors (css : nat -> string) : jsval :=
  let colors :=
    List.filter (fun c => negb (String.eqb c ""))
                (map (fun i => trim (css i)) (seq 1 10)) in
  JArr (map JStr (if Nat.ltb 0 (length colors) then colors
                  else default_palette)).

(** The callback of [renderData.columns.map]. *)
Definition column_name (col : jsval) : jsval :=
  match col with
  | JStr _ => col
  | JArr _ | JObj _ =>
      coalesce (coalesce (coalesce (get_opt col "value") (get_opt col "name"))
                         (get_opt col "key"))
               (JStr "")
  | _ => JStr (to_string col)
  end.

(** [normalizeColumns(renderData)]; [None] when [columns] has a truthy
    [length] and no [map]. *)
Definition normalizeColumns (renderData : jsval) : option (list jsval) :=
  let columns := get_opt renderData "columns" in
  fromCols ←
    (if truthy (get_opt columns "length") then
       match columns with
       | JArr cols => Some (List.filter truthy (map column_name cols))
       | _ => None
       end
     else Some []);
  if Nat.ltb 0 (length fromCols) then Some fromCols
  else
    let first := get_opt (get_opt renderData "data") "0" in
    Some (if truthy first then keys first else []).

Definition axis_tooltip : jsval := JObj [("trigger", JStr "axis")].

Definition grid : jsval :=
  JObj [("left", JStr "3%"); ("right", JStr "4%"); ("bottom", JStr "3%");
        ("containLabel", JBool true)].

Definition centered_title (text : string) : jsval :=
  JObj [("title", JObj [("text", JStr text); ("left", JStr "center");
                        ("top", JStr "center")])].

(** The two placeholders of [buildOption]. *)
Definition no_data : jsval := centered_title "暂无数据".
Definition table_hint : jsval := centered_title "请切换到表格视图查看数据".

(** [data.map((d) => d[field])] *)
Definition pluck (data field : jsval) : option jsval :=
  map_array (fun d => get_at d field) data.

Definition array_length (v : jsval) : Z :=
  match v with JArr items => Z.of_nat (length items) | _ => 0 end.

Definition buildBarOption (config data : jsval) (columns : list jsval)
  (colors : jsval) : option jsval :=
  x_field ← get config "x_field";
  let xField := or x_field (nth 0 columns JUndefined) in
  y_fields ← get config "y_fields";
  let yFields := or y_fields (JArr (drop 1 columns)) in
  categories ← pluck data xField;
  series ← map_array (fun field =>
              values ← pluck data field;
              Some (JObj [("name", field); ("type", JStr "bar");
                          ("data", values)])) yFields;
  Some (JObj [("color", colors);
              ("tooltip", axis_tooltip);
              ("grid", grid);
              ("xAxis", JObj [("type", JStr "category");
                              ("data", categories);
                              ("axisLabel",
                               JObj [("rotate",
                                      JNum (if (8 <? array_length data)%Z
                                            then 30 else 0))])]);
              ("yAxis", JObj [("type", JStr "value")]);
              ("series", series)]).

Definition buildLineOption (config data : jsval) (columns : list jsval)
  (colors : jsval) : option jsval :=
  x_field ← get config "x_field";
  let xField := or x_field (nth 0 columns JUndefined) in
  y_fields ← get config "y_fields";
  let yFields := or y_fields (JArr (drop 1 columns)) in
  categories ← pluck data xField;
  series ← map_array (fun field =>
              values ← pluck data field;
              Some (JObj [("name", field); ("type", JStr "line");
                          ("smooth", JBool true); ("data", values)])) yFields;
  Some (JObj [("color", colors);
              ("tooltip", axis_tooltip);
              ("grid", grid);
              ("xAxis", JObj [("type", JStr "category");
                              ("data", categories)]);
              ("yAxis", JObj [("type", JStr "value")]);
              ("series", series)]).

Definition buildPieOption (config data : jsval) (columns : list jsval)
  (colors : jsval) : option jsval :=
  name_field ← get config "name_field";
  axis ← get config "axis";
  let nameField :=
    or (or (or name_field (get_opt (get_opt axis "series") "value"))
           (get_opt (get_opt axis "x") "value"))
       (nth 0 columns JUndefined) in
  value_field ← get config "value_field";
  let valueField :=
    or (or value_field (get_opt (get_opt axis "y") "value"))
       (nth 1 columns JUndefined) in
  slices ← map_array (fun d =>
              name ← get_at d nameField;
              value ← get_at d valueField;
              Some (JObj [("name", name); ("value", value)])) data;
  Some (JObj [("color", colors);
              ("tooltip", JObj [("trigger", JStr "item");
                                ("formatter", JStr "{b}: {c} ({d}%)")]);
              ("series",
               JArr [JObj [("type", JStr "pie");
                           ("radius", JArr [JStr "40%"; JStr "70%"]);
                           ("avoidLabelOverlap", JBool true);
                           ("label", JObj [("show", JBool true);
                                           ("formatter", JStr "{b}: {d}%")]);
                           ("data", slices)]])]).

(** [config.chart_type || config.type || 'bar'] *)
Definition chartType (config : jsval) : jsval :=
  or (or (get_opt config "chart_type") (get_opt config "type")) (JStr "bar").

(** [config.series || config.xAxis || config.yAxis]: the configuration is
    taken for a complete option. *)
Definition complete_option (config : jsval) : bool :=
  truthy (or (or (get_opt config "series") (get_opt config "xAxis"))
             (get_opt config "yAxis")).

(** [buildOption(config, renderData)] with the palette it reads passed in;
    [None] is a TypeError. *)
Definition buildOption (css : nat -> string) (config renderData : jsval)
  : option jsval :=
  _ ← get config "series";
  if complete_option config then
    Some (JObj (put "color" (getChartColors css)
                  (spread [("tooltip", axis_tooltip); ("grid", grid)] config)))
  else
    let kind := chartType config in
    let data := or (get_opt renderData "data") (JArr []) in
    columns ← normalizeColumns (or renderData (JObj []));
    len ← get data "length";
    if strict_eq len (JNum 0) then Some no_data
    else
      let colors := getChartColors css in
      if strict_eq kind (JStr "pie") then
        buildPieOption config data columns colors
      else if strict_eq kind (JStr "line") then
        buildLineOption config data columns colors
      else if strict_eq kind (JStr "table") then Some table_hint
      else buildBarOption config data columns colors.

(** The component: whether the container is mounted ([chartRef.value]),
    the view mode, the live chart instance with the option it was last
    given, and how many instances were disposed of. *)
Record chart : Type := ChartState {
  chartRef : bool;
  viewMode : string;
  chartInstance : option (option jsval);
  disposed : nat
}.

(** A call either returns or raises, in both cases leaving a state. *)
Inductive outcome : Type :=
| Returned (c : chart)
| Raised (c : chart).

(** [initViewMode()] *)
Definition initViewMode (config : jsval) (c : chart) : chart :=
  let t := or (get_opt config "type") (get_opt config "chart_type") in
  if strict_eq t (JStr "table")
  then ChartState (chartRef c) "table" (chartInstance c) (disposed c)
  else c.

(** [renderChart()] for the props [config] and [data]. *)
Definition renderChart (css : nat -> string) (config data : jsval) (c : chart)
  : outcome :=
  if negb (chartRef c) || negb (truthy config) then Returned c
  else
    let n := match chartInstance c with
             | Some _ => S (disposed c)
             | None => disposed c
             end in
    match buildOption css config data with
    | Some option => Returned (ChartState true (viewMode c) (Some (Some option)) n)
    | None => Raised (ChartState true (viewMode c) (Some None) n)
    end.

(** *** Notions used to state properties of the builders *)

(** The names of the series of an option. *)
Definition series_names (option : jsval) : list jsval :=
  match get_opt option "series" with
  | JArr items => map (fun item => get_opt item "name") items
  | _ => []
  end.

(** The chart types of the series of an option. *)
Definition series_types (option : jsval) : list jsval :=
  match get_opt option "series" with
  | JArr items => map (fun item => get_opt item "type") items
  | _ => []
  end.

(** The categories of an option. *)
Definition categories (option : jsval) : jsval :=
  get_opt (get_opt option "xAxis") "data".

(** [renderData.columns] is absent, empty, or a list. *)
Definition columns_listed (renderData : jsval) : Prop :=
  truthy (get_opt (get_opt renderData "columns") "length") = false
  \/ exists cols : list jsval, get_opt renderData "columns" = JArr cols.

(** Examples: a result of two rows under three columns, no palette in the
    style sheet, the component once mounted. *)
Definition sample_columns : list jsval := [JStr "a"; JStr "b"; JStr "c"].

Definition sample_rows : list jsval :=
  [JObj [("a", JStr "north"); ("b", JNum 1); ("c", JNum 2)];
   JObj [("a", JStr "south"); ("b", JNum 3); ("c", JNum 4)]].

Definition sample_result : jsval :=
  JObj [("columns", JArr sample_columns); ("data", JArr sample_rows)].

Definition no_palette : nat -> string := fun _ => "".

Definition mounted : chart := ChartState true "chart" None 0.

(** A row that is a decoded object, and a column name whose text the
    fragment has exactly and under which a row answers with what it holds
    itself. *)
Definition is_object (d : jsval) : bool :=
  match d with JObj _ => true | _ => false end.

Definition plain_name (col : jsval) : bool :=
  has_text col && safe_numbers col && negb (inherited_name (to_string col)).

(** The cells of the rows under a column. *)
Definition column_cells (rows : list jsval) (col : jsval) : jsval :=
  JArr (map (fun d => get_opt d (to_string col)) rows).

(** *** The table view of the component *)

Definition column_entry (col : jsval) : jsval :=
  JObj [("title", col); ("dataIndex", col); ("key", col); ("width", JNum 150);
        ("ellipsis", JBool true)].

(** The computed [tableColumns] for the prop [data]. *)
Definition tableColumns (renderData : jsval) : option (list jsval) :=
  cols ← normalizeColumns renderData;
  if Nat.ltb 0 (length cols) then Some (map column_entry cols) else Some [].

(** [{ ...row, key: idx }] *)
Definition keyed_row (idx : nat) (row : jsval) : jsval :=
  JObj (put "key" (JNum (Z.of_nat idx)) (spread [] row)).

(** The computed [tableRows]; [None] when [data] has a truthy [length] and
    no [map]. *)
Definition tableRows (renderData : jsval) : option (list jsval) :=
  let data := get_opt renderData "data" in
  if negb (truthy (get_opt data "length")) then Some []
  else match data with
       | JArr rows => Some (imap keyed_row rows)
       | _ => None
       end.

(** A decoded object: no key twice. *)
Definition well_formed_object (props : list (string * jsval)) : Prop :=
  NoDup (map fst props).

(** The points of the series of an option. *)
Definition series_data (option : jsval) : list jsval :=
  match get_opt option "series" with
  | JArr items => map (fun item => get_opt item "data") items
  | _ => []
  end.

(** The configurations [initViewMode] takes for a table. *)
Definition says_table (config : jsval) : bool :=
  strict_eq (or (get_opt config "type") (get_opt config "chart_type"))
            (JStr "table").

(** The slices of the first series of an option. *)
Definition slices (option : jsval) : jsval :=
  get_opt (get_opt (get_opt option "series") "0") "data".

(** The fields the pie builder reads the name and the value of a slice
    from: [config.name_field || config.axis?.series?.value ||
    config.axis?.x?.value || columns[0]] and [config.value_field ||
    config.axis?.y?.value || columns[1]]. *)
Definition pie_name_field (config : jsval) (columns : list jsval) : jsval :=
  or (or (or (get_opt config "name_field")
             (get_opt (get_opt (get_opt config "axis") "series") "value"))
         (get_opt (get_opt (get_opt config "axis") "x") "value"))
     (nth 0 columns JUndefined).

Definition pie_value_field (config : jsval) (columns : list jsval) : jsval :=
  or (or (get_opt config "value_field")
         (get_opt (get_opt (get_opt config "axis") "y") "value"))
     (nth 1 columns JUndefined).

End Chart.

(** ** The table step of the datasource dialog *)

Module TableModal.

(** [remoteTableList.value] and [selectedTables.value] are arrays: the
    tables found at the source and the names ticked. *)

(** The computed [isAllSelected] and [isIndeterminate]. *)
Definition isAllSelected (remote selected : list jsval) : bool :=
  Nat.ltb 0 (length remote) && Nat.eqb (length selected) (length remote).

Definition isIndeterminate (remote selected : list jsval) : bool :=
  Nat.ltb 0 (length selected) && Nat.ltb (length selected) (length remote).

(** [remoteTableList.value.map((t) => t.tableName)] *)
Definition table_names (remote : list jsval) : option (list jsval) :=
  mapM (fun t => get t "tableName") remote.

(** [toggleSelectAll(e)] with [e.target.checked]: the new selection. *)
Definition toggleSelectAll (checked : bool) (remote : list jsval)
  : option (list jsval) :=
  if checked then table_names remote else Some [].

(** [remoteTableList.value.some((t) => t.tableName === n)], which stops at
    the first table of that name. *)
Fixpoint some_named (n : jsval) (remote : list jsval) : option bool :=
  match remote with
  | [] => Some false
  | t :: rest =>
      name ← get t "tableName";
      if strict_eq name n then Some true else some_named n rest
  end.

(** [checkedNames.filter((n) => remote.some(...))] *)
Fixpoint filter_present (names remote : list jsval) : option (list jsval) :=
  match names with
  | [] => Some []
  | n :: rest =>
      present ← some_named n remote;
      kept ← filter_present rest remote;
      Some (if (present : bool) then n :: kept else kept)
  end.

(** [existingTables.filter((t) => t.checked).map((t) => t.table_name)] *)
Definition checked_names (existing : list jsval) : option (list jsval) :=
  if forallb (fun t => negb (nullish t)) existing
  then Some (map (fun t => get_opt t "table_name")
                 (List.filter (fun t => truthy (get_opt t "checked")) existing))
  else None.

(** The body of the inner [try] of [handleNext] in edit mode, [existingRes]
    being what [datasourceApi.getTables] resolved to, [None] when it
    rejected. *)
Definition still_present (existingRes : option jsval) (remote : list jsval)
  : option (list jsval) :=
  res ← existingRes;
  tables ← get res "tables";
  match or tables (JArr []) with
  | JArr existing =>
      names ← checked_names existing;
      filter_present names remote
  | _ => None
  end.

(** The selection [handleNext] makes once the remote tables are known: in
    edit mode the tables that were ticked and are still there, all tables
    when that fails; all tables for a new datasource.  [None]: the outer
    [catch] is reached and the selection stays as it was. *)
Definition handleNext_selection (editing : bool) (existingRes : option jsval)
  (remote : list jsval) : option (list jsval) :=
  if editing then
    match still_present existingRes remote with
    | Some selected => Some selected
    | None => table_names remote
    end
  else table_names remote.

End TableModal.

(** ** Facts about the value fragment *)

Module JSFacts.

(** The fragment on a few values, as the language evaluates them. *)
Example to_string_nested :
  to_string (JArr [JNum 1; JNull; JArr [JStr "a"; JNum (-3)]; JObj []])
  = "1,,a,-3,[object Object]".
Proof. reflexivity. Qed.

Example trim_blanks : trim ("  a b " +:+ String "010" "") = "a b".
Proof. reflexivity. Qed.

Example trim_ideographic_space : trim "　x　" = "x".
Proof. reflexivity. Qed.

Example get_of_null : get JNull "data" = None.
Proof. reflexivity. Qed.

Example get_of_number : get (JNum 5) "data" = Some JUndefined.
Proof. reflexivity. Qed.

Example get_array_index :
  get (JArr [JStr "x"; JStr "y"]) "1" = Some (JStr "y")
  /\ get (JArr [JStr "x"; JStr "y"]) "length" = Some (JNum 2)
  /\ get (JArr [JStr "x"; JStr "y"]) "2" = Some JUndefined.
Proof. repeat split. Qed.

Example keys_of_row :
  keys (JObj [("a", JNum 1); ("b", JNull)]) = [JStr "a"; JStr "b"].
Proof. reflexivity. Qed.

Example spread_overrides_in_place :
  spread [("tooltip", JNum 1); ("grid", JNum 2)]
         (JObj [("0", JStr "i"); ("series", JArr []); ("grid", JNull)])
  = [("0", JStr "i"); ("tooltip", JNum 1); ("grid", JNull);
     ("series", JArr [])].
Proof. reflexivity. Qed.

Example strict_eq_objects : strict_eq (JObj []) (JObj []) = false.
Proof. reflexivity. Qed.


Lemma strict_eq_str (v : jsval) (s : string) :
  strict_eq v (JStr s) = true <-> v = JStr s.
Proof.
  destruct v; simpl; split; intros H; try discriminate; try congruence.
  - apply String.eqb_eq in H. by subst.
  - inversion H. apply String.eqb_refl.
Qed.

Lemma strict_eq_str_false (v : jsval) (s : string) :
  v <> JStr s -> strict_eq v (JStr s) = false.
Proof.
  intros H. destruct (strict_eq v (JStr s)) eqn:E; [|done].
  apply strict_eq_str in E. contradiction.
Qed.

(** A value that answers one property read answers every one. *)
Lemma get_some_any (v : jsval) (k k' : string) (x : jsval) :
  get v k = Some x -> get v k' = Some (get_opt v k').
Proof.
  unfold get_opt. destruct v; simpl; intros H; try discriminate; done.
Qed.

Lemma get_get_opt (v : jsval) (k : string) (x : jsval) :
  get v k = Some x -> get_opt v k = x.
Proof. unfold get_opt. by intros ->. Qed.

Lemma get_none_nullish (v : jsval) (k : string) :
  get v k = None <-> nullish v = true.
Proof. destruct v; simpl; split; intros H; try discriminate; done. Qed.

Lemma nullish_not_truthy (v : jsval) : nullish v = true -> truthy v = false.
Proof. by destruct v. Qed.

Lemma append_empty (s : string) : s +:+ "" = s.
Proof.
  induction s as [|c s IH]; [done|].
  change (String c (s +:+ "") = String c s). by rewrite IH.
Qed.

(** A value that is not truthy is a primitive and has a text. *)
Lemma has_text_or (v : jsval) : has_text (or v (JStr "")) = has_text v.
Proof. unfold or. by destruct v as [| |[]| | | |]; simpl; try case_match. Qed.

Example to_text_hidden_method :
  to_text (JObj [("toString", JNum 1)]) = None
  /\ to_text (JArr [JNum 1; JObj [("toString", JNull)]]) = None
  /\ to_text (JArr [JNum 1; JObj [("valueOf", JNull)]])
     = Some "1,[object Object]".
Proof. repeat split. Qed.

End JSFacts.

(** ** Facts about the stream consumer *)

Module ConsumerFacts.
Import DataChat JSFacts.

(** One event read by [processSSEEvent], as the function sees it. *)
Lemma processSSEEvent_unfold (msg : message) (evt dataType : jsval) :
  get evt "dataType" = Some dataType ->
  processSSEEvent msg evt =
  let data := get_opt evt "data" in
  if strict_eq dataType (JStr "step_progress") then
    st ← get data "status";
    if strict_eq st (JStr "start") then
      Some (set_steps msg
              (steps msg ++ [Step (or (get_opt data "stepName")
                                      (get_opt data "step")) "running"]))
    else if strict_eq st (JStr "complete") then
      Some (set_steps msg
              (mark_done (or (get_opt data "stepName") (get_opt data "step"))
                         (steps msg)))
    else Some msg
  else if strict_eq dataType (JStr "answer") then
    messageType ← get data "messageType";
    if strict_eq messageType (JStr "error") then
      Some (set_error msg (get_opt data "content"))
    else
      text ← to_text (or (get_opt data "content") (JStr ""));
      Some (set_summary msg (Some (summary_text msg +:+ text)))
  else if strict_eq dataType (JStr "bus_data") then
    chart_config ← get data "chart_config";
    let m1 := if nullish chart_config then msg
              else set_chartConfig msg chart_config in
    let render_data := get_opt data "render_data" in
    let m2 := if nullish render_data then m1
              else set_tableData (set_renderData m1 render_data)
                     (coalesce (get_opt render_data "data") JNull) in
    let m3 := if truthy (get_opt data "sql")
              then set_sql m2 (get_opt data "sql") else m2 in
    let m4 := if truthy (get_opt data "recommended_questions")
              then set_recommended m3 (get_opt data "recommended_questions")
              else m3 in
    Some m4
  else Some msg.
Proof.
  intros Hdt. unfold processSSEEvent. rewrite Hdt. simpl.
  rewrite (get_some_any _ _ "data" _ Hdt). simpl.
  destruct (strict_eq dataType (JStr "step_progress"));
    [|destruct (strict_eq dataType (JStr "answer"));
      [|destruct (strict_eq dataType (JStr "bus_data")); [|done]]].
  all: destruct (get_opt evt "data"); try reflexivity.
  all: unfold get_opt; cbn [get mbind option_bind default];
    repeat case_match; reflexivity.
Qed.


(** The reply object changes in three branches only. *)
Lemma processSSEEvent_other (msg : message) (evt dataType : jsval) :
  get evt "dataType" = Some dataType ->
  dataType <> JStr "step_progress" ->
  dataType <> JStr "answer" ->
  dataType <> JStr "bus_data" ->
  processSSEEvent msg evt = Some msg.
Proof.
  intros Hdt H1 H2 H3. rewrite (processSSEEvent_unfold _ _ _ Hdt).
  cbv zeta. by rewrite !strict_eq_str_false.
Qed.

(** In the stream loop the reply object is what [processSSEEvent] makes of
    it, whichever way the loop takes. *)
Lemma consume_message (chat : jsval) (msg : message) (evt : jsval) :
  (consume chat msg evt).1.2 = default msg (processSSEEvent msg evt).
Proof.
  unfold consume. destruct (get evt "dataType") as [dataType|] eqn:Hdt.
  - destruct (strict_eq dataType (JStr "stream_end")) eqn:E; [|done].
    destruct (truthy _); [|done]. simpl.
    apply strict_eq_str in E. subst.
    by rewrite (processSSEEvent_other msg evt (JStr "stream_end")).
  - unfold processSSEEvent. by rewrite Hdt.
Qed.

Lemma consume_stream_end (chat : jsval) (msg : message) (evt : jsval) :
  get evt "dataType" = Some (JStr "stream_end") ->
  truthy (get_opt (get_opt evt "data") "chat_id") = true ->
  consume chat msg evt
  = (get_opt (get_opt evt "data") "chat_id", msg, [EGetSessions]).
Proof. intros Hdt Hid. unfold consume. by rewrite Hdt, Hid. Qed.

(** C1. [processSSEEvent] leaves the reply object as it is for every event
    whose [dataType] is not [step_progress], [answer] or [bus_data] (so for
    [stream_end] and for every unknown kind); and in the stream loop a
    [stream_end] event whose [data.chat_id] is present (truthy) makes that
    value the [chatId] of the page, the reply object staying as it is. *)
Theorem processSSEEvent_dispatch :
  (forall (msg : message) (evt dataType : jsval),
      get evt "dataType" = Some dataType ->
      dataType <> JStr "step_progress" ->
      dataType <> JStr "answer" ->
      dataType <> JStr "bus_data" ->
      processSSEEvent msg evt = Some msg)
  /\ (forall (v : view) (k ref : nat) (msg : message) (evt : jsval),
         runs v !! k = Some (Run ref Reading) ->
         replies v !! ref = Some msg ->
         get evt "dataType" = Some (JStr "stream_end") ->
         truthy (get_opt (get_opt evt "data") "chat_id") = true ->
         chatId (perform v (Event k evt)).1
         = get_opt (get_opt evt "data") "chat_id"
         /\ replies (perform v (Event k evt)).1 !! ref = Some msg
         /\ (perform v (Event k evt)).2 = [EGetSessions]).
Proof.
  split; [exact processSSEEvent_other|].
  intros v k ref msg evt Hrun Hmsg Hdt Hid.
  simpl. unfold on_event. rewrite Hrun, Hmsg.
  rewrite (consume_stream_end _ _ _ Hdt Hid). simpl.
  split; [done|]. split; [|done].
  rewrite list_lookup_insert_eq; [done|]. by eapply lookup_lt_Some.
Qed.

(** An unknown event kind and a [stream_end] carrying a chat identifier. *)
Lemma processSSEEvent_dispatch_witness :
  processSSEEvent new_ai_message
    (JObj [("dataType", JStr "heartbeat"); ("data", JNull)])
  = Some new_ai_message
  /\ chatId (perform (View (JStr "") (JNum 1) JNull (JStr "") true
                        [UserMsg (JStr "q"); Reply 0] [new_ai_message]
                        [Run 0 Reading])
               (Event 0 (JObj [("dataType", JStr "stream_end");
                               ("data", JObj [("chat_id", JStr "c-42")])]))).1
     = JStr "c-42".
Proof.
  destruct processSSEEvent_dispatch as [Hother Hend]. split.
  - apply (Hother new_ai_message _ (JStr "heartbeat")); [reflexivity|..];
      discriminate.
  - apply (Hend _ 0%nat 0%nat new_ai_message); reflexivity.
Defined.

(** C6. An [answer] event whose [messageType] is ["error"] stores its
    content in [error] and changes nothing else, the summary included.  Any
    other [answer] event leaves [error] and every other field alone and
    appends to the summary: a content that is a string is put after the
    summary so far; a content that is absent adds nothing; and whatever the
    content, the summary so far stays as the beginning of the new one, which
    ends with the text of the content.  The event is dropped, the reply
    staying as it is, exactly when its content has no text. *)
Theorem answer_event_accumulates (msg : message)
  (evt data messageType content : jsval) :
  get evt "dataType" = Some (JStr "answer") ->
  get evt "data" = Some data ->
  get data "messageType" = Some messageType ->
  get data "content" = Some content ->
  (messageType = JStr "error" ->
   exists msg' : message,
     processSSEEvent msg evt = Some msg'
     /\ error msg' = content
     /\ summary msg' = summary msg
     /\ same_payload msg msg')
  /\ (messageType <> JStr "error" ->
      (forall s : string,
          content = JStr s ->
          exists msg' : message,
            processSSEEvent msg evt = Some msg'
            /\ summary msg' = Some (summary_text msg +:+ s)
            /\ error msg' = error msg
            /\ same_payload msg msg')
      /\ (truthy content = false ->
          exists msg' : message,
            processSSEEvent msg evt = Some msg'
            /\ summary msg' = Some (summary_text msg)
            /\ error msg' = error msg
            /\ same_payload msg msg')
      /\ (forall msg' : message,
             processSSEEvent msg evt = Some msg' ->
             exists suffix : string,
               summary msg' = Some (summary_text msg +:+ suffix)
               /\ (safe_numbers content = true ->
                   suffix = to_string (or content (JStr "")))
               /\ error msg' = error msg
               /\ same_payload msg msg')
      /\ (processSSEEvent msg evt = None <-> has_text content = false)).
Proof.
  intros Hdt Hdata Hmt Hc.
  rewrite (processSSEEvent_unfold _ _ _ Hdt). cbv zeta.
  rewrite (get_get_opt _ _ _ Hdata), Hmt, (get_get_opt _ _ _ Hc). simpl.
  split.
  - intros ->. simpl. eexists. split; [reflexivity|]. by repeat split.
  - intros Hne. rewrite (strict_eq_str_false _ _ Hne).
    split; [|split; [|split]].
    + intros s ->. unfold or, to_text. simpl.
      destruct (String.eqb s "") eqn:E; simpl.
      * apply String.eqb_eq in E. subst. eexists.
        split; [reflexivity|]. by repeat split.
      * eexists. split; [reflexivity|]. by repeat split.
    + intros Hf. unfold or. rewrite Hf. simpl. eexists.
      split; [reflexivity|]. simpl. rewrite append_empty. by repeat split.
    + intros msg' H. unfold to_text in H.
      destruct (has_text (or content (JStr ""))); simpl in H; [|discriminate].
      inversion H; subst. eexists. split; [reflexivity|]. by repeat split.
    + unfold to_text. rewrite (has_text_or content).
      destruct (has_text content); simpl; split; intros H; done.
Qed.

(** A second chunk of text after a first one, and an error text. *)
Lemma answer_event_accumulates_witness :
  (exists msg' : message,
      processSSEEvent (set_summary new_ai_message (Some "Total: "))
        (JObj [("dataType", JStr "answer");
               ("data", JObj [("content", JStr "42 rows")])])
      = Some msg'
      /\ summary msg' = Some "Total: 42 rows"
      /\ error msg' = JNull)
  /\ (exists msg' : message,
         processSSEEvent (set_summary new_ai_message (Some "Total: "))
           (JObj [("dataType", JStr "answer");
                  ("data", JObj [("content", JStr "boom");
                                 ("messageType", JStr "error")])])
         = Some msg'
         /\ error msg' = JStr "boom"
         /\ summary msg' = Some "Total: ").
Proof.
  split.
  - pose proof (answer_event_accumulates
                  (set_summary new_ai_message (Some "Total: "))
                  (JObj [("dataType", JStr "answer");
                         ("data", JObj [("content", JStr "42 rows")])])
                  (JObj [("content", JStr "42 rows")])
                  JUndefined (JStr "42 rows")
                  eq_refl eq_refl eq_refl eq_refl) as [_ H].
    assert (Hne : JUndefined <> JStr "error") by discriminate.
    destruct (H Hne) as (Hs & _).
    destruct (Hs "42 rows" eq_refl) as (msg' & Heq & Hsum & Herr & _).
    exists msg'. split; [exact Heq|]. split; [exact Hsum|exact Herr].
  - pose proof (answer_event_accumulates
                  (set_summary new_ai_message (Some "Total: "))
                  (JObj [("dataType", JStr "answer");
                         ("data", JObj [("content", JStr "boom");
                                        ("messageType", JStr "error")])])
                  (JObj [("content", JStr "boom");
                         ("messageType", JStr "error")])
                  (JStr "error") (JStr "boom")
                  eq_refl eq_refl eq_refl eq_refl) as [H _].
    destruct (H eq_refl) as (msg' & Heq & Herr & Hsum & _).
    exists msg'. split; [exact Heq|]. split; [exact Herr|exact Hsum].
Defined.


(** *** The step list only moves forward *)

Lemma advances_refl (l : list step) : advances l l.
Proof. intros i s H. exists s. auto. Qed.

Lemma advances_trans (l1 l2 l3 : list step) :
  advances l1 l2 -> advances l2 l3 -> advances l1 l3.
Proof.
  intros H12 H23 i s H.
  destruct (H12 i s H) as (s2 & H2 & Hl2 & Hs2).
  destruct (H23 i s2 H2) as (s3 & H3 & Hl3 & Hs3).
  exists s3. split; [done|]. split; [congruence|].
  destruct Hs3 as [Hs3|Hs3]; [|by right].
  destruct Hs2 as [Hs2|Hs2]; [left|right]; congruence.
Qed.

Lemma advances_push (l : list step) (s : step) : advances l (l ++ [s]).
Proof.
  intros i x H. exists x. split; [|auto].
  rewrite lookup_app_l; [done|]. by eapply lookup_lt_Some.
Qed.

Lemma advances_mark_done (target : jsval) (l : list step) :
  advances l (mark_done target l).
Proof.
  induction l as [|x l IH]; [apply advances_refl|].
  simpl. destruct (strict_eq (label x) target).
  - intros [|i] s H; simpl in *.
    + inversion H; subst. eexists. split; [done|]. simpl. auto.
    + exists s. auto.
  - intros [|i] s H; simpl in *.
    + exists s. auto.
    + by apply IH.
Qed.

Lemma settled_mark_done (target : jsval) (l : list step) :
  Forall settled l -> Forall settled (mark_done target l).
Proof.
  induction 1 as [|x l Hx Hl IH]; [constructor|].
  simpl. destruct (strict_eq (label x) target); constructor; auto.
  by right.
Qed.

(** What one event can do to the step list. *)
Lemma processSSEEvent_steps (msg msg' : message) (evt : jsval) :
  processSSEEvent msg evt = Some msg' ->
  steps msg' = steps msg
  \/ (exists l : jsval, steps msg' = steps msg ++ [Step l "running"])
  \/ (exists l : jsval, steps msg' = mark_done l (steps msg)).
Proof.
  destruct (get evt "dataType") as [dataType|] eqn:Hdt;
    [|unfold processSSEEvent; rewrite Hdt; discriminate].
  rewrite (processSSEEvent_unfold _ _ _ Hdt). cbv zeta.
  intros H.
  repeat (case_match; simplify_option_eq); eauto.
Qed.

Lemma processSSEEvent_advances (msg : message) (evt : jsval) :
  advances (steps msg) (steps (default msg (processSSEEvent msg evt)))
  /\ (Forall settled (steps msg) ->
      Forall settled (steps (default msg (processSSEEvent msg evt)))).
Proof.
  destruct (processSSEEvent msg evt) as [msg'|] eqn:E; simpl;
    [|split; [apply advances_refl|done]].
  destruct (processSSEEvent_steps _ _ _ E) as [H|[[l H]|[l H]]]; rewrite H.
  - split; [apply advances_refl|done].
  - split; [apply advances_push|].
    intros Hs. apply Forall_app. split; [done|].
    repeat constructor.
  - split; [apply advances_mark_done|apply settled_mark_done].
Qed.

Lemma feed_advances (evts : list jsval) (msg : message) :
  advances (steps msg) (steps (feed msg evts))
  /\ (Forall settled (steps msg) -> Forall settled (steps (feed msg evts))).
Proof.
  revert msg. induction evts as [|evt evts IH]; intros msg.
  - split; [apply advances_refl|done].
  - unfold feed. simpl. fold (feed (default msg (processSSEEvent msg evt)) evts).
    destruct (processSSEEvent_advances msg evt) as [Ha Hs].
    destruct (IH (default msg (processSSEEvent msg evt))) as [Ha' Hs'].
    split; [by eapply advances_trans|auto].
Qed.

Lemma feed_app (msg : message) (before after : list jsval) :
  feed msg (before ++ after) = feed (feed msg before) after.
Proof. apply fold_left_app. Qed.

(** C5. Whatever events the stream delivers, a step that is in the list of
    the reply after some of them shows as running or done, never as pending;
    and after any further events it is still at its place under its label,
    again running or done, and done if it was done. *)
Theorem step_status_monotone (before after : list jsval) (i : nat) (s : step) :
  steps (feed new_ai_message before) !! i = Some s ->
  settled s
  /\ exists s' : step,
       steps (feed new_ai_message (before ++ after)) !! i = Some s'
       /\ label s' = label s
       /\ settled s'
       /\ (status s = "done" -> status s' = "done").
Proof.
  intros H.
  destruct (feed_advances before new_ai_message) as [_ Hs].
  assert (Hall : Forall settled (steps (feed new_ai_message before)))
    by (apply Hs; constructor).
  rewrite feed_app.
  destruct (feed_advances after (feed new_ai_message before)) as [Ha Hs'].
  destruct (Ha i s H) as (s' & Hi & Hl & Hst).
  split; [eapply Forall_lookup_1; eauto|].
  exists s'. split; [done|]. split; [done|]. split.
  - eapply Forall_lookup_1; [apply Hs', Hall|done].
  - intros Hd. destruct Hst; congruence.
Qed.

(** A stage that started, then completed while a second one started. *)
Lemma step_status_monotone_witness :
  settled (Step (JStr "retrieve") "running")
  /\ exists s' : step,
       steps (feed new_ai_message
                ([progress_event "start" "retrieve"]
                 ++ [progress_event "complete" "retrieve";
                     progress_event "start" "generate"]))
       !! 0%nat = Some s'
       /\ label s' = JStr "retrieve"
       /\ settled s'
       /\ (status (Step (JStr "retrieve") "running") = "done" ->
           status s' = "done").
Proof.
  exact (step_status_monotone
           [progress_event "start" "retrieve"]
           [progress_event "complete" "retrieve";
            progress_event "start" "generate"]
           0%nat (Step (JStr "retrieve") "running") eq_refl).
Defined.

(** *** Payload fields arrive in any order *)

Lemma bus_data_store (msg : message) (evt : jsval) :
  bus_event evt -> processSSEEvent msg evt = Some (store evt msg).
Proof.
  intros [Hbus Hdata]. unfold is_bus_data in Hbus.
  apply strict_eq_str in Hbus.
  assert (Hdt : get evt "dataType" = Some (JStr "bus_data")).
  { unfold get_opt in Hbus. destruct (get evt "dataType"); simpl in Hbus;
      [by subst|discriminate]. }
  rewrite (processSSEEvent_unfold _ _ _ Hdt). cbv zeta. simpl.
  unfold store, payload in *.
  destruct (get (get_opt evt "data") "chart_config") as [c|] eqn:E.
  - by rewrite (get_get_opt _ _ _ E).
  - apply get_none_nullish in E. congruence.
Qed.

Lemma not_in_both (f : field) (l1 l2 : list field) :
  (forall x, x ∈ l1 -> x ∉ l2) -> In f l1 -> In f l2 -> False.
Proof. rewrite <- !list_elem_of_In. intros H H1 H2. exact (H f H1 H2). Qed.

(** Two events that fill different fields can be swapped. *)
Lemma store_comm (e1 e2 : jsval) (msg : message) :
  (forall f, f ∈ carried e1 -> f ∉ carried e2) ->
  store e1 (store e2 msg) = store e2 (store e1 msg).
Proof.
  unfold carried, store. destruct msg. cbv zeta.
  destruct (nullish (get_opt (payload e1) "chart_config"));
  destruct (nullish (get_opt (payload e1) "render_data"));
  destruct (truthy (get_opt (payload e1) "sql"));
  destruct (truthy (get_opt (payload e1) "recommended_questions"));
  destruct (nullish (get_opt (payload e2) "chart_config"));
  destruct (nullish (get_opt (payload e2) "render_data"));
  destruct (truthy (get_opt (payload e2) "sql"));
  destruct (truthy (get_opt (payload e2) "recommended_questions"));
  intros H; try reflexivity; exfalso; simpl in H.
  all: first
    [ by apply (not_in_both FChart _ _ H); simpl; tauto
    | by apply (not_in_both FRender _ _ H); simpl; tauto
    | by apply (not_in_both FSql _ _ H); simpl; tauto
    | by apply (not_in_both FRecommended _ _ H); simpl; tauto ].
Qed.

Lemma process_all_store (evts : list jsval) (msg : message) :
  Forall bus_event evts ->
  process_all msg evts = Some (fold_left (fun m evt => store evt m) evts msg).
Proof.
  intros H. revert msg. induction H as [|evt evts Hevt _ IH]; intros msg.
  - reflexivity.
  - simpl. rewrite (bus_data_store _ _ Hevt). simpl. apply IH.
Qed.

Lemma store_permutation (evts evts' : list jsval) :
  Permutation evts evts' ->
  NoDup (flat_map carried evts) ->
  forall msg : message,
    fold_left (fun m evt => store evt m) evts msg
    = fold_left (fun m evt => store evt m) evts' msg.
Proof.
  induction 1 as [|x l l' Hp IH|x y l|l l' l'' Hp1 IH1 Hp2 IH2];
    intros Hnd msg.
  - reflexivity.
  - simpl in *. apply NoDup_app in Hnd as (_ & _ & Hnd). by apply IH.
  - simpl in *. f_equal. symmetry. apply store_comm.
    apply NoDup_app in Hnd as (_ & Hd & _).
    intros f Hy Hx. apply (Hd f Hy). apply elem_of_app. by left.
  - rewrite IH1 by done. apply IH2.
    assert (Hf := Permutation_flat_map carried Hp1).
    by rewrite <- Hf.
Qed.

(** C4. A run of [bus_data] events that fill pairwise different fields of
    the reply ([sql], [chart_config], [render_data],
    [recommended_questions]) can be processed in any order: every
    permutation goes through [processSSEEvent] without a raise and ends in
    the same reply. *)
Theorem bus_data_order_irrelevant (msg : message) (evts evts' : list jsval) :
  Forall bus_event evts ->
  NoDup (flat_map carried evts) ->
  Permutation evts evts' ->
  exists final : message,
    process_all msg evts = Some final /\ process_all msg evts' = Some final.
Proof.
  intros Hbus Hnd Hp.
  exists (fold_left (fun m evt => store evt m) evts msg). split.
  - by apply process_all_store.
  - rewrite (store_permutation _ _ Hp Hnd).
    apply process_all_store. by eapply Permutation_Forall.
Qed.


(** The SQL, the chart and the questions, and the same with the first two
    exchanged. *)
Lemma bus_data_order_irrelevant_witness :
  exists final : message,
    process_all new_ai_message
      [bus_data_event "sql" (JStr "SELECT 1");
       bus_data_event "chart_config" (JObj [("chart_type", JStr "pie")]);
       bus_data_event "recommended_questions" (JArr [JStr "And by month?"])]
    = Some final
    /\ process_all new_ai_message
         [bus_data_event "chart_config" (JObj [("chart_type", JStr "pie")]);
          bus_data_event "sql" (JStr "SELECT 1");
          bus_data_event "recommended_questions"
            (JArr [JStr "And by month?"])]
       = Some final.
Proof.
  apply bus_data_order_irrelevant.
  - repeat constructor.
  - refine (bool_decide_unpack _ _). vm_compute. reflexivity.
  - apply perm_swap.
Defined.

End ConsumerFacts.

(** ** Facts about the page *)

Module SessionFacts.
Import DataChat JSFacts.

Lemma handleSend_sends (v : view) (text : string) :
  inputText v = JStr text ->
  trim text <> "" ->
  truthy (currentDsId v) = true ->
  streaming v = false ->
  exists v' : view,
    handleSend v = Some (v', [EChat (chat_data (trim text) v)])
    /\ streaming v' = true
    /\ runs v' = runs v ++ [Run (length (replies v)) Awaiting].
Proof.
  intros Htext Hq Hds Hst. unfold handleSend. rewrite Htext, Hds, Hst.
  apply String.eqb_neq in Hq. rewrite Hq. simpl. eexists. split; [reflexivity|].
  done.
Qed.

Lemma handleSend_refuses (v : view) :
  (forall text, inputText v = JStr text -> trim text = "")
  \/ truthy (currentDsId v) = false
  \/ streaming v = true ->
  (perform v Send) = (v, []).
Proof.
  intros H. simpl. unfold handleSend.
  destruct (inputText v) as [| | | |text| |]; try reflexivity.
  destruct H as [H|[H|H]].
  - by rewrite (H text eq_refl).
  - rewrite H. simpl. by rewrite orb_true_r.
  - rewrite H. by rewrite orb_true_r.
Qed.

(** Whatever [handleSend] asks for is one chat request, asked for while no
    stream is shown. *)
Lemma handleSend_effects (v : view) (e : effect) :
  e ∈ (perform v Send).2 ->
  streaming v = false
  /\ truthy (currentDsId v) = true
  /\ exists text : string,
       inputText v = JStr text /\ trim text <> ""
       /\ e = EChat (chat_data (trim text) v).
Proof.
  simpl. unfold handleSend.
  destruct (inputText v) as [| | | |text| |]; simpl;
    try (intros H; by apply elem_of_nil in H).
  destruct (String.eqb (trim text) "") eqn:Hq; simpl;
    [intros H; by apply elem_of_nil in H|].
  destruct (truthy (currentDsId v)); simpl;
    [|intros H; by apply elem_of_nil in H].
  destruct (streaming v); simpl; [intros H; by apply elem_of_nil in H|].
  intros H. apply list_elem_of_singleton in H. subst.
  split; [done|]. split; [done|]. exists text. split; [done|].
  split; [|done]. by apply String.eqb_neq.
Qed.

(** C3. When [handleSend] does send, it sends one chat request whose data
    has exactly the properties [query] (the trimmed text),
    [datasource_id], [chat_id] and [model]; on the wire [query] and
    [datasource_id] are always there, [chat_id] unless it is [undefined],
    [model] only when a model is selected.  When the trimmed text is empty
    (or there is no text) or no datasource is selected, nothing is asked of
    the outside world and the page stays as it is. *)
Theorem chat_request_contract :
  (forall (v : view) (text : string),
      inputText v = JStr text ->
      trim text <> "" ->
      truthy (currentDsId v) = true ->
      streaming v = false ->
      (perform v Send).2 = [EChat (chat_data (trim text) v)]
      /\ keys (chat_data (trim text) v)
         = [JStr "query"; JStr "datasource_id"; JStr "chat_id"; JStr "model"]
      /\ body_fields (chat (chat_data (trim text) v))
         = [("query", JStr (trim text)); ("datasource_id", currentDsId v)]
           ++ (if is_undefined (chatId v) then [] else [("chat_id", chatId v)])
           ++ (if truthy (selectedModel v) then [("model", selectedModel v)]
               else []))
  /\ (forall v : view,
         (forall text, inputText v = JStr text -> trim text = "")
         \/ truthy (currentDsId v) = false ->
         perform v Send = (v, []))
  /\ (forall (v : view) (e : effect),
         e ∈ (perform v Send).2 ->
         exists data : jsval,
           e = EChat data
           /\ keys data
              = [JStr "query"; JStr "datasource_id"; JStr "chat_id";
                 JStr "model"]).
Proof.
  split; [|split].
  - intros v text Htext Hq Hds Hst.
    destruct (handleSend_sends v text Htext Hq Hds Hst) as (v' & Hs & _).
    simpl. rewrite Hs. simpl. split; [done|]. split; [done|].
    unfold chat, chat_data. simpl.
    destruct (currentDsId v); try discriminate; simpl;
      destruct (chatId v); simpl; unfold or;
      destruct (truthy (selectedModel v)) eqn:Hm; simpl; try reflexivity;
      destruct (selectedModel v); try discriminate; reflexivity.
  - intros v H. apply handleSend_refuses. tauto.
  - intros v e He. apply handleSend_effects in He as (_ & _ & text & _ & _ & ->).
    eexists. split; reflexivity.
Qed.

(** A question with blanks around it on a selected datasource; a blank
    question; no datasource. *)
Lemma chat_request_contract_witness :
  (perform (View (JStr "  top 10 products ") (JNum 7) JNull (JStr "") false
              [] [] []) Send).2
  = [EChat (JObj [("query", JStr "top 10 products");
                  ("datasource_id", JNum 7);
                  ("chat_id", JNull);
                  ("model", JUndefined)])]
  /\ perform (View (JStr "   ") (JNum 7) JNull (JStr "") false [] [] []) Send
     = (View (JStr "   ") (JNum 7) JNull (JStr "") false [] [] [], [])
  /\ perform (View (JStr "top 10") JNull JNull (JStr "") false [] [] []) Send
     = (View (JStr "top 10") JNull JNull (JStr "") false [] [] [], [])
  /\ exists data : jsval,
       EChat (chat_data "top 10"
                (View (JStr "top 10") (JNum 7) JNull (JStr "m") false
                   [] [] []))
       = EChat data
       /\ keys data
          = [JStr "query"; JStr "datasource_id"; JStr "chat_id"; JStr "model"].
Proof.
  destruct chat_request_contract as (Hsend & Hrefuse & Hkeys).
  split; [|split; [|split]].
  - apply (Hsend (View (JStr "  top 10 products ") (JNum 7) JNull (JStr "")
                    false [] [] []) "  top 10 products ");
      [reflexivity|discriminate|reflexivity|reflexivity].
  - apply Hrefuse. left. intros text H. inversion H. reflexivity.
  - apply Hrefuse. right. reflexivity.
  - apply (Hkeys (View (JStr "top 10") (JNum 7) JNull (JStr "m") false
                    [] [] [])).
    vm_compute. constructor.
Defined.

(** *** One stream at a time *)

(** The handlers that are not part of [handleSend] leave [streaming] and
    the invocations alone. *)
Lemma bystander_actions (v : view) (a : action) :
  match a with
  | Send | Response _ _ _ | Event _ _ | Done _ | Error _ _ => False
  | _ => True
  end ->
  streaming (perform v a).1 = streaming v /\ runs (perform v a).1 = runs v.
Proof.
  destruct a; try done; intros _; simpl; try done.
  - unfold loadSession.
    destruct (get session "chat_id") as [c|]; simpl; [|done].
    destruct (strict_eq c (chatId v)); simpl; [done|].
    destruct (get session "datasource_id"); simpl; done.
  - unfold loadSession_records.
    destruct (get res "data") as [d|]; [|done].
    destruct (iterate (or d (JArr []))) as [records|]; [|done].
    destruct (push_records records). done.
Qed.

Lemma on_event_frame (v : view) (k : nat) (evt : jsval) :
  streaming (on_event v k evt).1 = streaming v
  /\ runs (on_event v k evt).1 = runs v.
Proof.
  unfold on_event.
  destruct (runs v !! k) as [[ref []]|]; try done.
  destruct (replies v !! ref) as [msg|]; [|done].
  destruct (consume (chatId v) msg evt) as [[chat' msg'] effs]. done.
Qed.

Lemma single_flight_frame (v v' : view) :
  streaming v' = streaming v -> runs v' = runs v ->
  single_flight v -> single_flight v'.
Proof. unfold single_flight. by intros -> ->. Qed.

Lemma perform_single_flight (v : view) (a : action) :
  single_flight v -> single_flight (perform v a).1.
Proof.
  intros Hv.
  destruct a;
    try (match goal with
         | |- single_flight (perform v ?a).1 =>
             destruct (bystander_actions v a I) as [Hs Hr];
             exact (single_flight_frame _ _ Hs Hr Hv)
         end).
  - (* Send *)
    simpl. unfold handleSend.
    destruct (inputText v) as [| | | |txt| |]; simpl; try done.
    destruct (String.eqb (trim txt) "" || negb (truthy (currentDsId v))
              || streaming v) eqn:G; simpl; [done|].
    apply orb_false_elim in G as [_ G].
    destruct Hv as [[_ Hr]|[Hs _]]; [|congruence].
    right. simpl. rewrite Hr. eauto.
  - (* Response *)
    simpl. unfold on_response.
    destruct (runs v !! k) as [[ref []]|] eqn:Hk; try done.
    destruct Hv as [[_ Hr]|[Hs [r Hr]]]; rewrite Hr in Hk; [done|].
    destruct k as [|k]; [|done]. destruct ok; simpl.
    + right. simpl. split; [done|]. rewrite Hr. simpl. eauto.
    + left. simpl. split; [done|]. by rewrite Hr.
  - (* Event *)
    destruct (on_event_frame v k evt) as [Hs Hr].
    exact (single_flight_frame _ _ Hs Hr Hv).
  - (* Done *)
    simpl. unfold on_done.
    destruct (runs v !! k) as [[ref []]|] eqn:Hk; try done.
    destruct Hv as [[_ Hr]|[Hs [r Hr]]]; rewrite Hr in Hk; [done|].
    destruct k as [|k]; [|done]. left. simpl. split; [done|]. by rewrite Hr.
  - (* Error *)
    simpl. unfold on_error.
    destruct (runs v !! k) as [[ref st]|] eqn:Hk; try done.
    destruct Hv as [[_ Hr]|[Hs [r Hr]]]; rewrite Hr in Hk; [done|].
    destruct k as [|k]; [|done]. left. simpl. split; [done|]. by rewrite Hr.
Qed.

Lemma reachable_single_flight (v : view) : reachable v -> single_flight v.
Proof.
  induction 1 as [|v a _ IH]; [by left|by apply perform_single_flight].
Qed.

(** Only [handleSend] ever asks for a chat. *)
Lemma chat_only_from_send (v : view) (a : action) (data : jsval) :
  EChat data ∈ (perform v a).2 -> a = Send.
Proof.
  destruct a; simpl; try done;
    try (intros H; by apply elem_of_nil in H).
  - unfold handleDsChange, handleNewChat. simpl.
    destruct (truthy id); intros H;
      [apply list_elem_of_singleton in H; discriminate
      |by apply elem_of_nil in H].
  - unfold handleNewChat. simpl.
    destruct (truthy (currentDsId v)); intros H;
      [apply list_elem_of_singleton in H; discriminate
      |by apply elem_of_nil in H].
  - unfold loadSession.
    destruct (get session "chat_id") as [c|]; simpl;
      [|intros H; by apply elem_of_nil in H].
    destruct (strict_eq c (chatId v)); simpl;
      [intros H; by apply elem_of_nil in H|].
    destruct (get session "datasource_id"); simpl; intros H;
      [apply list_elem_of_singleton in H; discriminate
      |by apply elem_of_nil in H].
  - unfold loadSession_records.
    destruct (get res "data") as [d|]; simpl;
      [|intros H; by apply elem_of_nil in H].
    destruct (iterate (or d (JArr []))) as [records|]; simpl;
      [|intros H; by apply elem_of_nil in H].
    destruct (push_records records) as [pushed ok]. simpl.
    destruct (ok && truthy (currentDsId v)); intros H;
      [apply list_elem_of_singleton in H; discriminate
      |by apply elem_of_nil in H].
  - unfold on_event.
    destruct (runs v !! k) as [[ref []]|]; simpl;
      try (intros H; by apply elem_of_nil in H).
    destruct (replies v !! ref) as [msg|]; simpl;
      [|intros H; by apply elem_of_nil in H].
    unfold consume. destruct (get evt "dataType") as [dt|]; simpl;
      [|intros H; by apply elem_of_nil in H].
    destruct (strict_eq dt (JStr "stream_end") && truthy _); simpl; intros H;
      [apply list_elem_of_singleton in H; discriminate
      |by apply elem_of_nil in H].
Qed.

(** C7. In every state the page can reach there is at most one invocation
    of [handleSend] under way, and [streaming] is true exactly while there
    is one.  While it is true [handleSend] does nothing: no request, no
    change.  A chat request is only ever issued by [handleSend] with no
    invocation under way.  And [streaming] goes back to false only with the
    end of the invocation: the response is not ok, the body is read to its
    end, or an exception is caught. *)
Theorem one_stream_at_a_time (v : view) :
  reachable v ->
  (length (runs v) <= 1)%nat
  /\ (streaming v = true <-> runs v <> [])
  /\ (streaming v = true -> perform v Send = (v, []))
  /\ (forall (a : action) (data : jsval),
         EChat data ∈ (perform v a).2 ->
         a = Send /\ streaming v = false /\ runs v = [])
  /\ (forall a : action,
         streaming v = true ->
         streaming (perform v a).1 = false ->
         terminal a = true /\ runs (perform v a).1 = []).
Proof.
  intros Hreach. pose proof (reachable_single_flight v Hreach) as Hv.
  split; [|split; [|split; [|split]]].
  - destruct Hv as [[_ ->]|[_ [r ->]]]; simpl; lia.
  - destruct Hv as [[Hs ->]|[Hs [r ->]]]; split; try done; congruence.
  - intros Hs. apply handleSend_refuses. auto.
  - intros a data He. pose proof (chat_only_from_send _ _ _ He) as ->.
    apply handleSend_effects in He as (Hs & _).
    split; [done|]. split; [done|].
    destruct Hv as [[_ Hr]|[Hs' _]]; [done|congruence].
  - intros a Hs Hs'.
    pose proof (perform_single_flight v a Hv) as Hv'.
    destruct Hv' as [[_ Hr']|[Hs'' _]]; [|congruence].
    split; [|done].
    destruct a; try reflexivity;
      try (match type of Hs' with
           | streaming (perform v ?a).1 = false =>
               destruct (bystander_actions v a I) as [Hb _]; congruence
           end).
    + rewrite (handleSend_refuses v) in Hs' by auto.
      simpl in Hs'. congruence.
    + destruct ok; [|reflexivity]. exfalso.
      simpl in Hs'. unfold on_response in Hs'.
      destruct (runs v !! k) as [[ref []]|]; simpl in Hs'; congruence.
    + destruct (on_event_frame v k evt) as [He _]. simpl in Hs'. congruence.
Qed.

(** The page while the reply to a first question streams in, just before
    that question was sent, and when the response comes back with an error
    status. *)
Lemma one_stream_at_a_time_witness :
  streaming asking = true
  /\ (length (runs asking) <= 1)%nat
  /\ perform asking Send = (asking, [])
  /\ perform (perform asking (Input (JStr "and by month?"))).1 Send
     = ((perform asking (Input (JStr "and by month?"))).1, [])
  /\ runs (perform (perform initial (SelectDs (JNum 7))).1
             (Input (JStr "top 10 products"))).1 = []
  /\ terminal (Response 0 false (JNum 500)) = true
  /\ runs (perform asking (Response 0 false (JNum 500))).1 = [].
Proof.
  assert (Hr0 : reachable (perform (perform initial (SelectDs (JNum 7))).1
                             (Input (JStr "top 10 products"))).1)
    by (repeat apply reachable_perform; apply reachable_initial).
  assert (Hr : reachable asking) by (apply reachable_perform, Hr0).
  destruct (one_stream_at_a_time asking Hr) as (Hlen & _ & Hsend & _ & Hend).
  split; [reflexivity|]. split; [exact Hlen|]. split; [exact (Hsend eq_refl)|].
  split.
  - destruct (one_stream_at_a_time _
                (reachable_perform asking (Input (JStr "and by month?")) Hr))
      as (_ & _ & Hsend' & _).
    exact (Hsend' eq_refl).
  - split.
    + destruct (one_stream_at_a_time _ Hr0) as (_ & _ & _ & Hchat & _).
      refine (proj2 (proj2 (Hchat Send
                (chat_data "top 10 products"
                   (perform (perform initial (SelectDs (JNum 7))).1
                      (Input (JStr "top 10 products"))).1) _))).
      vm_compute. constructor.
    + exact (Hend (Response 0 false (JNum 500)) eq_refl eq_refl).
Defined.

(** *** The datasource selector *)

Lemma filter_success (list : list jsval) (ds : jsval) :
  ds ∈ List.filter is_success list ->
  ds ∈ list /\ get_opt ds "status" = JStr "success".
Proof.
  rewrite list_elem_of_In, filter_In, <- list_elem_of_In.
  intros [Hin Hs]. split; [done|]. by apply strict_eq_str.
Qed.

Lemma fetched_options_array (res : jsval) (list : list jsval) :
  get res "datasources" = Some (JArr list) ->
  Forall (fun ds => nullish ds = false) list ->
  fetched_options res = Some (map ds_option (List.filter is_success list)).
Proof.
  intros Hget Hall. unfold fetched_options. rewrite Hget. simpl.
  replace (forallb (fun ds => negb (nullish ds)) list) with true; [done|].
  symmetry. apply forallb_forall. intros ds Hin.
  rewrite Forall_forall in Hall. rewrite (Hall ds); [done|].
  by apply list_elem_of_In.
Qed.

Lemma fetched_options_inv (res : jsval) (opts : list jsval) :
  fetched_options res = Some opts ->
  exists list : list jsval,
    or (get_opt res "datasources") (JArr []) = JArr list
    /\ opts = map ds_option (List.filter is_success list).
Proof.
  unfold fetched_options, get_opt.
  destruct (get res "datasources") as [d|]; simpl; [|done].
  destruct (or d (JArr [])) as [| | | | |list|]; try done.
  destruct (forallb _ list); [|done].
  intros [= <-]. eauto.
Qed.

(** C9. After [loadDatasources] the selector offers what it offered before
    (the fetch or its processing failed), or one option per fetched
    datasource whose status is ["success"], in order; a datasource whose
    status is anything else, ["pending"] or ["failed"] for instance, is
    behind no option.  For a fetched list of datasource objects the second
    case applies. *)
Theorem datasource_options_success_only :
  (forall (dsOptions : list jsval) (res : option jsval),
      loadDatasources dsOptions res = dsOptions
      \/ exists (r : jsval) (list : list jsval),
           res = Some r
           /\ or (get_opt r "datasources") (JArr []) = JArr list
           /\ loadDatasources dsOptions res
              = map ds_option (List.filter is_success list)
           /\ (forall ds : jsval,
                  ds ∈ List.filter is_success list ->
                  ds ∈ list /\ get_opt ds "status" = JStr "success")
           /\ (forall ds : jsval,
                  ds ∈ list ->
                  get_opt ds "status" <> JStr "success" ->
                  ds ∉ List.filter is_success list))
  /\ (forall (dsOptions : list jsval) (r : jsval) (list : list jsval),
         get r "datasources" = Some (JArr list) ->
         Forall (fun ds => nullish ds = false) list ->
         loadDatasources dsOptions (Some r)
         = map ds_option (List.filter is_success list)).
Proof.
  split.
  - intros dsOptions [r|]; [|by left]. unfold loadDatasources. simpl.
    destruct (fetched_options r) as [opts|] eqn:E; [|by left].
    destruct (fetched_options_inv _ _ E) as (list & Hl & ->).
    right. exists r, list. simpl.
    split; [done|]. split; [done|]. split; [done|].
    split; [apply filter_success|].
    intros ds _ Hne Hin. apply filter_success in Hin as [_ Hs]. done.
  - intros dsOptions r list Hget Hall. unfold loadDatasources. simpl.
    by rewrite (fetched_options_array _ _ Hget Hall).
Qed.

(** Of three datasources only the synchronized one is offered. *)
Lemma datasource_options_success_only_witness :
  loadDatasources []
    (Some (JObj [("datasources", JArr sample_datasources)]))
  = [JObj [("label", JStr "sales"); ("value", JNum 2)]].
Proof.
  destruct datasource_options_success_only as [_ H].
  apply (H [] (JObj [("datasources", JArr sample_datasources)])
           sample_datasources eq_refl).
  repeat constructor.
Defined.

End SessionFacts.

(** ** Facts about the chart component *)

Module ChartFacts.
Import Chart JSFacts.

Lemma get_present (v : jsval) (k : string) :
  nullish v = false -> get v k = Some (get_opt v k).
Proof. unfold get_opt. destruct v; simpl; intros H; done. Qed.

(** [(renderData || {}).columns] and [.data] are those of [renderData]. *)
Lemma or_empty_get (v : jsval) (k : string) :
  k <> "length" -> get_opt (or v (JObj [])) k = get_opt v k.
Proof.
  intros Hk. unfold or. destruct (truthy v) eqn:E; [done|].
  destruct v; try done; simpl in E.
  apply negb_false_iff, String.eqb_eq in E. subst.
  unfold get_opt. simpl. apply String.eqb_neq in Hk. by rewrite Hk.
Qed.

Lemma normalizeColumns_no_columns (renderData : jsval) :
  truthy (get_opt (get_opt renderData "columns") "length") = false ->
  normalizeColumns renderData
  = Some (if truthy (get_opt (get_opt renderData "data") "0")
          then keys (get_opt (get_opt renderData "data") "0") else []).
Proof. intros H. unfold normalizeColumns. by rewrite H. Qed.

Lemma normalizeColumns_total (renderData : jsval) :
  columns_listed renderData -> is_Some (normalizeColumns renderData).
Proof.
  intros [H|[cols H]].
  - rewrite normalizeColumns_no_columns by done. eauto.
  - unfold normalizeColumns. rewrite H.
    destruct (truthy (get_opt (JArr cols) "length")); simpl;
      repeat case_match; eauto.
Qed.

(** [buildOption] once the configuration is known not to be a complete
    option: the kind decides, after the check for data. *)
Lemma buildOption_by_kind (css : nat -> string) (config renderData : jsval)
  (columns : list jsval) :
  nullish config = false ->
  complete_option config = false ->
  normalizeColumns (or renderData (JObj [])) = Some columns ->
  buildOption css config renderData
  = let data := or (get_opt renderData "data") (JArr []) in
    if strict_eq (get_opt data "length") (JNum 0) then Some no_data
    else if strict_eq (chartType config) (JStr "pie") then
      buildPieOption config data columns (getChartColors css)
    else if strict_eq (chartType config) (JStr "line") then
      buildLineOption config data columns (getChartColors css)
    else if strict_eq (chartType config) (JStr "table") then Some table_hint
    else buildBarOption config data columns (getChartColors css).
Proof.
  intros Hc Hn Hcols. unfold buildOption.
  rewrite (get_present _ _ Hc), Hn, Hcols. simpl.
  rewrite get_present; [done|].
  unfold or. destruct (truthy (get_opt renderData "data")) eqn:E; [|done].
  by destruct (get_opt renderData "data").
Qed.


(** *** Writing a property *)

Lemma has_key_false_neq (k k0 : string) (v0 : jsval)
  (rest : list (string * jsval)) :
  has_key k ((k0, v0) :: rest) = false ->
  String.eqb k k0 = false /\ has_key k rest = false.
Proof. unfold has_key. simpl. intros H. by apply orb_false_elim in H. Qed.

Lemma eqb_trans_false (k' k k0 : string) :
  String.eqb k k0 = false -> String.eqb k' k0 = true -> String.eqb k' k = false.
Proof.
  intros H1 H2. apply String.eqb_eq in H2. subst.
  apply String.eqb_neq. apply String.eqb_neq in H1. congruence.
Qed.

Lemma assoc_replace (k k' : string) (v : jsval) (props : list (string * jsval)) :
  has_key k props = true ->
  assoc k' (replace k v props)
  = if String.eqb k' k then v else assoc k' props.
Proof.
  induction props as [|[k0 v0] rest IH]; [done|].
  unfold has_key. simpl. destruct (String.eqb k k0) eqn:E; simpl.
  - intros _. apply String.eqb_eq in E. subst. by destruct (String.eqb k' k0).
  - intros H. destruct (String.eqb k' k0) eqn:E'.
    + by rewrite (eqb_trans_false _ _ _ E E').
    + by apply IH.
Qed.

Lemma assoc_insert_index (n : N) (k k' : string) (v : jsval)
  (props : list (string * jsval)) :
  has_key k props = false ->
  assoc k' (insert_index n k v props)
  = if String.eqb k' k then v else assoc k' props.
Proof.
  induction props as [|[k0 v0] rest IH]; intros H; [done|].
  apply has_key_false_neq in H as [E H]. simpl.
  destruct (array_index k0) as [n'|]; [|done].
  destruct (n <? n')%N; [done|]. simpl.
  destruct (String.eqb k' k0) eqn:E'.
  - by rewrite (eqb_trans_false _ _ _ E E').
  - by apply IH.
Qed.

Lemma assoc_append (k k' : string) (v : jsval) (props : list (string * jsval)) :
  has_key k props = false ->
  assoc k' (props ++ [(k, v)])
  = if String.eqb k' k then v else assoc k' props.
Proof.
  induction props as [|[k0 v0] rest IH]; intros H; [done|].
  apply has_key_false_neq in H as [E H]. simpl.
  destruct (String.eqb k' k0) eqn:E'.
  - by rewrite (eqb_trans_false _ _ _ E E').
  - by apply IH.
Qed.

(** Reading after writing: the property written has the new value, every
    other property the value it had. *)
Lemma assoc_put (k k' : string) (v : jsval) (props : list (string * jsval)) :
  assoc k' (put k v props) = if String.eqb k' k then v else assoc k' props.
Proof.
  unfold put. destruct (has_key k props) eqn:H.
  - by apply assoc_replace.
  - destruct (array_index k); [by apply assoc_insert_index|by apply assoc_append].
Qed.

Lemma has_key_in (k : string) (props : list (string * jsval)) :
  has_key k props = true <-> k ∈ map fst props.
Proof.
  induction props as [|[k0 v0] rest IH]; simpl.
  - split; [done|]. intros H. by apply elem_of_nil in H.
  - unfold has_key in *. simpl. rewrite orb_true_iff, IH, elem_of_cons.
    by rewrite String.eqb_eq.
Qed.

(** Reading a spread object: the source wins where it has the property. *)
Lemma assoc_spread (k : string) (props target : list (string * jsval)) :
  well_formed_object props ->
  assoc k (spread target (JObj props))
  = if has_key k props then assoc k props else assoc k target.
Proof.
  unfold spread, well_formed_object. simpl.
  revert target. induction props as [|[k0 v0] rest IH]; intros target Hnd;
    [done|].
  simpl in *. apply NoDup_cons in Hnd as [Hnot Hnd].
  rewrite (IH _ Hnd). unfold has_key at 2. simpl.
  destruct (String.eqb k k0) eqn:E; simpl.
  - apply String.eqb_eq in E. subst.
    destruct (has_key k0 rest) eqn:Hk.
    + apply has_key_in in Hk. contradiction.
    + by rewrite assoc_put, String.eqb_refl.
  - fold (has_key k rest). destruct (has_key k rest); [done|].
    by rewrite assoc_put, E.
Qed.

(** *** What the builders return *)

Lemma or_same (a : jsval) : or a a = a.
Proof. unfold or. by destruct (truthy a). Qed.

Lemma or_falsy (a b : jsval) : truthy a = false -> or a b = b.
Proof. unfold or. by intros ->. Qed.

Lemma or_absorb (a b : jsval) : or (or a b) b = or a b.
Proof.
  unfold or at 2 3. destruct (truthy a) eqn:E; [|apply or_same].
  unfold or. by rewrite E.
Qed.

Lemma mapM_total {A B : Type} (f : A -> option B) (g : A -> B) (l : list A) :
  Forall (fun x => f x = Some (g x)) l -> mapM f l = Some (map g l).
Proof.
  induction 1 as [|x l Hx _ IH]; [done|].
  simpl. rewrite Hx. simpl. by rewrite IH.
Qed.

(** Reading a column off rows that are objects, under a name that has a
    text. *)
Lemma pluck_rows (rows : list jsval) (field : jsval) :
  Forall (fun d => nullish d = false) rows ->
  has_text field = true ->
  pluck (JArr rows) field = Some (column_cells rows field).
Proof.
  intros H Ht. unfold pluck, map_array, column_cells.
  rewrite (mapM_total _ (fun d => get_opt d (to_string field))); [done|].
  eapply Forall_impl; [exact H|]. intros d Hd.
  unfold get_at, to_text. rewrite Ht. simpl. by apply get_present.
Qed.

(** One series per field: the fields in their order, each with the points
    read under it. *)
Lemma series_of_fields (mk : jsval -> jsval -> jsval)
  (data yFields series : jsval) :
  map_array (fun field => values ← pluck data field;
                          Some (mk field values)) yFields = Some series ->
  exists fields items : list jsval,
    yFields = JArr fields
    /\ series = JArr items
    /\ Forall2 (fun field item =>
                  exists values : jsval,
                    pluck data field = Some values /\ item = mk field values)
         fields items.
Proof.
  unfold map_array. destruct yFields as [| | | | |fields|]; try done.
  destruct (mapM _ fields) as [items|] eqn:E; [|done].
  intros [= <-]. exists fields, items. split; [done|]. split; [done|].
  apply mapM_Some_1 in E. eapply Forall2_impl; [exact E|].
  intros f item Hf. cbv beta in Hf.
  destruct (pluck data f) as [values|]; [|done].
  simpl in Hf. injection Hf as <-. eauto.
Qed.

Lemma series_total (mk : jsval -> jsval -> jsval) (rows fields : list jsval) :
  Forall (fun d => nullish d = false) rows ->
  Forall (fun field => has_text field = true) fields ->
  map_array (fun field => values ← pluck (JArr rows) field;
                          Some (mk field values)) (JArr fields)
  = Some (JArr (map (fun field => mk field (column_cells rows field)) fields)).
Proof.
  intros Hrows Hfields. unfold map_array.
  rewrite (mapM_total _ (fun field => mk field (column_cells rows field)));
    [done|].
  eapply Forall_impl; [exact Hfields|]. intros field Hf. cbv beta.
  by rewrite (pluck_rows _ _ Hrows Hf).
Qed.

Lemma series_read (mk : jsval -> jsval -> jsval) (kind data : jsval)
  (fields items : list jsval) :
  (forall f v, get_opt (mk f v) "name" = f) ->
  (forall f v, get_opt (mk f v) "type" = kind) ->
  (forall f v, get_opt (mk f v) "data" = v) ->
  Forall2 (fun field item =>
             exists values : jsval,
               pluck data field = Some values /\ item = mk field values)
    fields items ->
  map (fun item => get_opt item "name") items = fields
  /\ Forall (fun t => t = kind) (map (fun item => get_opt item "type") items)
  /\ Forall2 (fun field points => pluck data field = Some points)
       fields (map (fun item => get_opt item "data") items).
Proof.
  intros Hn Ht Hd. induction 1 as [|f item fields items (v & Hv & ->) _ IH].
  - repeat split; constructor.
  - destruct IH as (IH1 & IH2 & IH3). simpl. rewrite Hn, Ht, Hd, IH1.
    split; [done|]. split; by constructor.
Qed.

Lemma names_of_series (mk : jsval -> jsval) (cols : list jsval) :
  (forall col, get_opt (mk col) "name" = col) ->
  map (fun item => get_opt item "name") (map mk cols) = cols.
Proof.
  intros Hmk. induction cols as [|c cols IH]; [done|].
  simpl. by rewrite Hmk, IH.
Qed.

(** The option of the bar builder, read back: the categories are the cells
    under the field of the category axis, the series are the fields of the
    mapping in their order, all of type bar, each with the cells under its
    field. *)
Lemma buildBarOption_read (config data : jsval) (columns : list jsval)
  (colors option : jsval) :
  buildBarOption config data columns colors = Some option ->
  exists (xf yf : jsval) (fields : list jsval),
    get config "x_field" = Some xf
    /\ get config "y_fields" = Some yf
    /\ pluck data (or xf (nth 0 columns JUndefined)) = Some (categories option)
    /\ or yf (JArr (drop 1 columns)) = JArr fields
    /\ series_names option = fields
    /\ Forall (fun t => t = JStr "bar") (series_types option)
    /\ Forall2 (fun field points => pluck data field = Some points)
         fields (series_data option)
    /\ get_opt option "title" = JUndefined.
Proof.
  unfold buildBarOption. intros H.
  destruct (get config "x_field") as [xf|]; [|done].
  destruct (get config "y_fields") as [yf|]; [|done].
  cbn -[pluck map_array or] in H.
  destruct (pluck data _) as [cats|] eqn:Ec; [|done].
  cbn -[pluck map_array or] in H.
  destruct (map_array _ _) as [series|] eqn:Es; [|done].
  apply series_of_fields in Es as (fields & items & Hf & -> & Hi).
  cbn -[pluck map_array or] in H. injection H as <-.
  apply (series_read _ (JStr "bar")) in Hi as (H1 & H2 & H3); [|done..].
  exists xf, yf, fields. repeat split; done.
Qed.

Lemma buildLineOption_read (config data : jsval) (columns : list jsval)
  (colors option : jsval) :
  buildLineOption config data columns colors = Some option ->
  exists (xf yf : jsval) (fields : list jsval),
    get config "x_field" = Some xf
    /\ get config "y_fields" = Some yf
    /\ pluck data (or xf (nth 0 columns JUndefined)) = Some (categories option)
    /\ or yf (JArr (drop 1 columns)) = JArr fields
    /\ series_names option = fields
    /\ Forall (fun t => t = JStr "line") (series_types option)
    /\ Forall2 (fun field points => pluck data field = Some points)
         fields (series_data option)
    /\ get_opt option "title" = JUndefined.
Proof.
  unfold buildLineOption. intros H.
  destruct (get config "x_field") as [xf|]; [|done].
  destruct (get config "y_fields") as [yf|]; [|done].
  cbn -[pluck map_array or] in H.
  destruct (pluck data _) as [cats|] eqn:Ec; [|done].
  cbn -[pluck map_array or] in H.
  destruct (map_array _ _) as [series|] eqn:Es; [|done].
  apply series_of_fields in Es as (fields & items & Hf & -> & Hi).
  cbn -[pluck map_array or] in H. injection H as <-.
  apply (series_read _ (JStr "line")) in Hi as (H1 & H2 & H3); [|done..].
  exists xf, yf, fields. repeat split; done.
Qed.

(** The option of the pie builder has no title either. *)
Lemma buildPieOption_untitled (config data : jsval) (columns : list jsval)
  (colors option : jsval) :
  buildPieOption config data columns colors = Some option ->
  get_opt option "title" = JUndefined.
Proof.
  unfold buildPieOption. intros H.
  destruct (get config "name_field"); [|done].
  destruct (get config "axis"); [|done].
  destruct (get config "value_field"); [|done].
  cbn -[map_array or] in H.
  destruct (map_array _ _); [|done].
  cbn -[map_array or] in H. by injection H as <-.
Qed.

(** The two builders return over rows that are objects, for a mapping
    whose names have a text. *)
Lemma axis_builders_total (config : jsval) (rows columns fields : list jsval)
  (colors xf yf : jsval) :
  get config "x_field" = Some xf ->
  get config "y_fields" = Some yf ->
  or yf (JArr (drop 1 columns)) = JArr fields ->
  Forall (fun d => nullish d = false) rows ->
  has_text (or xf (nth 0 columns JUndefined)) = true ->
  Forall (fun field => has_text field = true) fields ->
  exists bar line : jsval,
    buildBarOption config (JArr rows) columns colors = Some bar
    /\ buildLineOption config (JArr rows) columns colors = Some line
    /\ categories bar = column_cells rows (or xf (nth 0 columns JUndefined))
    /\ categories line = column_cells rows (or xf (nth 0 columns JUndefined))
    /\ get_opt bar "series"
       = JArr (map (fun col => JObj [("name", col); ("type", JStr "bar");
                                     ("data", column_cells rows col)])
                   fields)
    /\ get_opt line "series"
       = JArr (map (fun col => JObj [("name", col); ("type", JStr "line");
                                     ("smooth", JBool true);
                                     ("data", column_cells rows col)])
                   fields).
Proof.
  intros Hx Hy Hyf Hrows Htx Htf. unfold buildBarOption, buildLineOption.
  rewrite Hx, Hy. cbn -[pluck map_array or]. rewrite Hyf.
  rewrite (pluck_rows _ _ Hrows Htx). cbn -[pluck map_array].
  rewrite (series_total
             (fun field values => JObj [("name", field); ("type", JStr "bar");
                                        ("data", values)]) _ _ Hrows Htf).
  rewrite (series_total
             (fun field values => JObj [("name", field); ("type", JStr "line");
                                        ("smooth", JBool true);
                                        ("data", values)]) _ _ Hrows Htf).
  simpl. eexists _, _. repeat split; reflexivity.
Qed.

(** *** The default kind *)

(** C2, as stated, fails: a configuration of an unrecognized kind, and one
    with no kind at all, are drawn as bar charts over the sample result;
    neither gives the hint to switch to the table, and the view mode stays
    on the chart. *)
Lemma unknown_kind_draws_bars :
  chartType (JObj [("chart_type", JStr "scatter")]) = JStr "scatter"
  /\ buildOption no_palette (JObj [("chart_type", JStr "scatter")])
       sample_result <> Some table_hint
  /\ series_types <$> buildOption no_palette
                        (JObj [("chart_type", JStr "scatter")]) sample_result
     = Some [JStr "bar"; JStr "bar"]
  /\ buildOption no_palette (JObj []) sample_result <> Some table_hint
  /\ series_types <$> buildOption no_palette (JObj []) sample_result
     = Some [JStr "bar"; JStr "bar"]
  /\ viewMode (initViewMode (JObj [("chart_type", JStr "scatter")]) mounted)
     = "chart".
Proof. vm_compute. repeat split; discriminate. Qed.

(** C2, amended.  For a configuration that is not a complete option and
    whose kind ([chart_type], else [type], else ['bar']) is none of pie,
    line and table, [buildOption] over data that is not empty is
    [buildBarOption]: the bar chart is the default, every series it returns
    is of type bar, and it is never the hint to switch to the table.  That
    hint is returned for kind table and for no other kind.  [initViewMode]
    reads the two properties in the other order: it switches the view to
    the table when [type], else [chart_type], is table, and otherwise leaves
    the view mode alone. *)
Theorem other_kinds_build_bars :
  (forall (css : nat -> string) (config renderData : jsval)
          (columns : list jsval),
      nullish config = false ->
      complete_option config = false ->
      chartType config <> JStr "pie" ->
      chartType config <> JStr "line" ->
      chartType config <> JStr "table" ->
      normalizeColumns (or renderData (JObj [])) = Some columns ->
      get_opt (or (get_opt renderData "data") (JArr [])) "length" <> JNum 0 ->
      buildOption css config renderData
      = buildBarOption config (or (get_opt renderData "data") (JArr []))
          columns (getChartColors css)
      /\ buildOption css config renderData <> Some table_hint
      /\ forall option : jsval,
           buildOption css config renderData = Some option ->
           Forall (fun t => t = JStr "bar") (series_types option))
  /\ (forall (css : nat -> string) (config renderData : jsval),
         buildOption css config renderData = Some table_hint ->
         complete_option config = false /\ chartType config = JStr "table")
  /\ (forall (css : nat -> string) (config renderData : jsval)
             (columns : list jsval),
         nullish config = false ->
         complete_option config = false ->
         chartType config = JStr "table" ->
         normalizeColumns (or renderData (JObj [])) = Some columns ->
         get_opt (or (get_opt renderData "data") (JArr [])) "length"
         <> JNum 0 ->
         buildOption css config renderData = Some table_hint)
  /\ (forall (config : jsval) (c : chart),
         (or (get_opt config "type") (get_opt config "chart_type")
          <> JStr "table" ->
          initViewMode config c = c)
         /\ (or (get_opt config "type") (get_opt config "chart_type")
             = JStr "table" ->
             viewMode (initViewMode config c) = "table")).
Proof.
  assert (Hlen : forall data : jsval,
             get_opt data "length" <> JNum 0 ->
             strict_eq (get_opt data "length") (JNum 0) = false).
  { intros data H. destruct (get_opt _ "length"); try done. simpl.
    apply Z.eqb_neq. congruence. }
  split; [|split; [|split]].
  - intros css config renderData columns Hc Hn Hpie Hline Htable Hcols Hl.
    assert (Heq : buildOption css config renderData
                  = buildBarOption config
                      (or (get_opt renderData "data") (JArr [])) columns
                      (getChartColors css)).
    { rewrite (buildOption_by_kind _ _ _ _ Hc Hn Hcols). cbv zeta.
      by rewrite (Hlen _ Hl), !strict_eq_str_false. }
    split; [exact Heq|]. rewrite Heq. split.
    + intros H. apply buildBarOption_read in H
        as (_ & _ & _ & _ & _ & _ & _ & _ & _ & _ & H).
      discriminate.
    + intros option H. apply buildBarOption_read in H
        as (_ & _ & _ & _ & _ & _ & _ & _ & H & _).
      exact H.
  - intros css config renderData H.
    destruct (nullish config) eqn:Hc.
    { unfold buildOption in H.
      apply get_none_nullish with (k := "series") in Hc.
      by rewrite Hc in H. }
    destruct (complete_option config) eqn:Hn.
    { unfold buildOption in H. rewrite (get_present _ _ Hc), Hn in H.
      simpl in H. injection H as H.
      apply (f_equal (assoc "color")) in H. rewrite assoc_put in H.
      discriminate. }
    split; [done|].
    destruct (normalizeColumns (or renderData (JObj []))) as [columns|] eqn:E.
    + rewrite (buildOption_by_kind _ _ _ _ Hc Hn E) in H. cbv zeta in H.
      destruct (strict_eq (get_opt _ "length") (JNum 0)); [discriminate|].
      destruct (strict_eq (chartType config) (JStr "pie")).
      { apply buildPieOption_untitled in H. discriminate. }
      destruct (strict_eq (chartType config) (JStr "line")).
      { apply buildLineOption_read in H
          as (_ & _ & _ & _ & _ & _ & _ & _ & _ & _ & H).
        discriminate. }
      destruct (strict_eq (chartType config) (JStr "table")) eqn:Et.
      { by apply strict_eq_str. }
      apply buildBarOption_read in H
        as (_ & _ & _ & _ & _ & _ & _ & _ & _ & _ & H).
      discriminate.
    + unfold buildOption in H. by rewrite (get_present _ _ Hc), Hn, E in H.
  - intros css config renderData columns Hc Hn Htable Hcols Hl.
    rewrite (buildOption_by_kind _ _ _ _ Hc Hn Hcols). cbv zeta.
    by rewrite (Hlen _ Hl), Htable.
  - intros config c. unfold initViewMode. split.
    + intros Ht. by rewrite strict_eq_str_false.
    + intros ->. reflexivity.
Qed.

(** A kind the builder does not know, over the sample result; kind table;
    and a configuration whose [type] says table while its [chart_type] says
    bar. *)
Lemma other_kinds_build_bars_witness :
  (exists option : jsval,
      buildOption no_palette (JObj [("chart_type", JStr "scatter")])
        sample_result = Some option
      /\ option <> table_hint
      /\ series_types option = [JStr "bar"; JStr "bar"])
  /\ buildOption no_palette (JObj [("type", JStr "table")]) sample_result
     = Some table_hint
  /\ initViewMode (JObj [("chart_type", JStr "scatter")]) mounted = mounted
  /\ viewMode (initViewMode (JObj [("type", JStr "table");
                                   ("chart_type", JStr "bar")]) mounted)
     = "table".
Proof.
  destruct other_kinds_build_bars as (Hbar & _ & Htable & Hview).
  split; [|split; [|split]].
  - destruct (Hbar no_palette (JObj [("chart_type", JStr "scatter")])
                sample_result sample_columns)
      as (Heq & Hne & Hall); first [reflexivity|discriminate|idtac].
    destruct (buildOption no_palette (JObj [("chart_type", JStr "scatter")])
                sample_result) as [option|] eqn:E; [|discriminate].
    exists option. split; [reflexivity|]. split; [congruence|].
    specialize (Hall option eq_refl).
    injection E as <-. reflexivity.
  - apply (Htable no_palette (JObj [("type", JStr "table")])
             sample_result sample_columns);
      first [reflexivity|discriminate].
  - apply Hview. discriminate.
  - apply Hview. reflexivity.
Defined.

(** *** Missing field mappings *)

(** C8, as stated, fails: a bar configuration that names its series and
    has no [x_field] keeps the series it names ([b]); the remaining columns
    would be [b] and [c]. *)
Lemma partial_mapping_is_kept :
  get_opt (JObj [("chart_type", JStr "bar"); ("y_fields", JArr [JStr "b"])])
    "x_field" = JUndefined
  /\ series_names <$> buildBarOption
                        (JObj [("chart_type", JStr "bar");
                               ("y_fields", JArr [JStr "b"])])
                        (JArr sample_rows) sample_columns (JArr [])
     = Some [JStr "b"]
  /\ drop 1 sample_columns = [JStr "b"; JStr "c"]
  /\ series_names <$> buildLineOption
                        (JObj [("chart_type", JStr "line");
                               ("y_fields", JArr [JStr "b"])])
                        (JArr sample_rows) sample_columns (JArr [])
     = Some [JStr "b"].
Proof. vm_compute. repeat split. Qed.

(** C8, amended.  In the bar and in the line builder each half of the
    mapping falls back on its own, and a half that is present is kept.  The
    categories of the option are the cells under [x_field], and under the
    first column when there is no [x_field], whatever [y_fields] says; the
    series are those [y_fields] lists, and the remaining columns when there
    is no [y_fields], whatever [x_field] says, each series named after its
    field and holding the cells under it.  The builders return over rows
    that are not [null] when the names have a text.  With neither half
    present, over rows that are objects and under plain column names, the
    option has the cells of the first column as categories and one series
    per remaining column, named after it and holding its cells. *)
Theorem axis_mapping_fallback (config data : jsval) (columns : list jsval)
  (colors xf yf : jsval) :
  get config "x_field" = Some xf ->
  get config "y_fields" = Some yf ->
  (forall option : jsval,
      buildBarOption config data columns colors = Some option
      \/ buildLineOption config data columns colors = Some option ->
      (truthy xf = true -> pluck data xf = Some (categories option))
      /\ (truthy xf = false ->
          pluck data (nth 0 columns JUndefined) = Some (categories option))
      /\ (truthy yf = true ->
          exists fields : list jsval,
            yf = JArr fields
            /\ series_names option = fields
            /\ Forall2 (fun field points => pluck data field = Some points)
                 fields (series_data option))
      /\ (truthy yf = false ->
          series_names option = drop 1 columns
          /\ Forall2 (fun field points => pluck data field = Some points)
               (drop 1 columns) (series_data option)))
  /\ (forall rows fields : list jsval,
         data = JArr rows ->
         or yf (JArr (drop 1 columns)) = JArr fields ->
         Forall (fun d => nullish d = false) rows ->
         has_text (or xf (nth 0 columns JUndefined)) = true ->
         Forall (fun field => has_text field = true) fields ->
         is_Some (buildBarOption config data columns colors)
         /\ is_Some (buildLineOption config data columns colors))
  /\ (truthy xf = false ->
      truthy yf = false ->
      forall rows : list jsval,
        data = JArr rows ->
        Forall (fun d => is_object d = true) rows ->
        Forall (fun col => plain_name col = true) columns ->
        exists bar line : jsval,
          buildBarOption config data columns colors = Some bar
          /\ buildLineOption config data columns colors = Some line
          /\ categories bar = column_cells rows (nth 0 columns JUndefined)
          /\ categories line = column_cells rows (nth 0 columns JUndefined)
          /\ series_names bar = drop 1 columns
          /\ series_names line = drop 1 columns
          /\ get_opt bar "series"
             = JArr (map (fun col =>
                            JObj [("name", col); ("type", JStr "bar");
                                  ("data", column_cells rows col)])
                         (drop 1 columns))
          /\ get_opt line "series"
             = JArr (map (fun col =>
                            JObj [("name", col); ("type", JStr "line");
                                  ("smooth", JBool true);
                                  ("data", column_cells rows col)])
                         (drop 1 columns))).
Proof.
  intros Hx Hy. split; [|split].
  - intros option H.
    assert (Hread : exists fields : list jsval,
               pluck data (or xf (nth 0 columns JUndefined))
               = Some (categories option)
               /\ or yf (JArr (drop 1 columns)) = JArr fields
               /\ series_names option = fields
               /\ Forall2 (fun field points => pluck data field = Some points)
                    fields (series_data option)).
    { destruct H as [H|H].
      - apply buildBarOption_read in H
          as (xf' & yf' & fields & Hx' & Hy' & Hc & Hf & Hn & _ & Hd & _).
        rewrite Hx in Hx'. rewrite Hy in Hy'.
        injection Hx' as <-. injection Hy' as <-. eauto.
      - apply buildLineOption_read in H
          as (xf' & yf' & fields & Hx' & Hy' & Hc & Hf & Hn & _ & Hd & _).
        rewrite Hx in Hx'. rewrite Hy in Hy'.
        injection Hx' as <-. injection Hy' as <-. eauto. }
    destruct Hread as (fields & Hc & Hf & Hn & Hd). unfold or in Hc, Hf.
    split; [|split; [|split]].
    + intros Ht. by rewrite Ht in Hc.
    + intros Ht. by rewrite Ht in Hc.
    + intros Ht. rewrite Ht in Hf. eauto.
    + intros Ht. rewrite Ht in Hf. injection Hf as <-. done.
  - intros rows fields -> Hf Hrows Htx Htf.
    destruct (axis_builders_total config rows columns fields colors xf yf
                Hx Hy Hf Hrows Htx Htf) as (bar & line & Hb & Hl & _).
    rewrite Hb, Hl. eauto.
  - intros Hxf Hyf rows -> Hobj Hplain.
    assert (Hrows : Forall (fun d => nullish d = false) rows).
    { eapply Forall_impl; [exact Hobj|]. by intros [| | | | | |]. }
    assert (Hcols : Forall (fun col => has_text col = true) columns).
    { eapply Forall_impl; [exact Hplain|]. intros col H.
      unfold plain_name in H. apply andb_true_iff in H as [H _].
      by apply andb_true_iff in H as [H _]. }
    destruct (axis_builders_total config rows columns (drop 1 columns)
                colors xf yf)
      as (bar & line & Hb & Hl & Hbc & Hlc & Hbs & Hls); try done.
    + by rewrite (or_falsy _ _ Hyf).
    + rewrite (or_falsy _ _ Hxf).
      destruct columns as [|col columns]; [done|].
      by apply Forall_cons in Hcols as [Hcol _].
    + by apply Forall_drop.
    + rewrite (or_falsy _ _ Hxf) in Hbc, Hlc.
      exists bar, line. repeat split; try done.
      * unfold series_names. rewrite Hbs. by apply names_of_series.
      * unfold series_names. rewrite Hls. by apply names_of_series.
Qed.

(** One half of a mapping on its own, each way, and a configuration that
    only says bar, over the sample result. *)
Lemma axis_mapping_fallback_witness :
  (exists bar : jsval,
      buildBarOption (JObj [("y_fields", JArr [JStr "c"])]) (JArr sample_rows)
        sample_columns (JArr []) = Some bar
      /\ categories bar = JArr [JStr "north"; JStr "south"]
      /\ series_names bar = [JStr "c"])
  /\ (exists line : jsval,
         buildLineOption (JObj [("x_field", JStr "b")]) (JArr sample_rows)
           sample_columns (JArr []) = Some line
         /\ categories line = JArr [JNum 1; JNum 3]
         /\ series_names line = [JStr "b"; JStr "c"])
  /\ (exists bar line : jsval,
         buildBarOption (JObj [("chart_type", JStr "bar")]) (JArr sample_rows)
           sample_columns (JArr []) = Some bar
         /\ buildLineOption (JObj [("chart_type", JStr "bar")])
              (JArr sample_rows) sample_columns (JArr []) = Some line
         /\ categories bar = JArr [JStr "north"; JStr "south"]
         /\ categories line = JArr [JStr "north"; JStr "south"]
         /\ series_names bar = [JStr "b"; JStr "c"]
         /\ series_names line = [JStr "b"; JStr "c"]).
Proof.
  split; [|split].
  - destruct (axis_mapping_fallback (JObj [("y_fields", JArr [JStr "c"])])
                (JArr sample_rows) sample_columns (JArr [])
                JUndefined (JArr [JStr "c"]) eq_refl eq_refl) as (H & _ & _).
    destruct (buildBarOption (JObj [("y_fields", JArr [JStr "c"])])
                (JArr sample_rows) sample_columns (JArr []))
      as [bar|] eqn:E; [|discriminate].
    destruct (H bar (or_introl eq_refl)) as (_ & Hc & Hs & _).
    specialize (Hc eq_refl). destruct (Hs eq_refl) as (fields & Hf & Hn & _).
    injection Hf as <-. injection Hc as Hc.
    exists bar. split; [reflexivity|]. split; [by symmetry|exact Hn].
  - destruct (axis_mapping_fallback (JObj [("x_field", JStr "b")])
                (JArr sample_rows) sample_columns (JArr [])
                (JStr "b") JUndefined eq_refl eq_refl) as (H & _ & _).
    destruct (buildLineOption (JObj [("x_field", JStr "b")])
                (JArr sample_rows) sample_columns (JArr []))
      as [line|] eqn:E; [|discriminate].
    destruct (H line (or_intror eq_refl)) as (Hc & _ & _ & Hs).
    specialize (Hc eq_refl). destruct (Hs eq_refl) as (Hn & _).
    injection Hc as Hc.
    exists line. split; [reflexivity|]. split; [by symmetry|exact Hn].
  - destruct (axis_mapping_fallback (JObj [("chart_type", JStr "bar")])
                (JArr sample_rows) sample_columns (JArr [])
                JUndefined JUndefined eq_refl eq_refl) as (_ & _ & H).
    destruct (H eq_refl eq_refl sample_rows eq_refl)
      as (bar & line & Hb & Hl & Hbc & Hlc & Hbn & Hln & _).
    { repeat constructor. }
    { repeat constructor. }
    exists bar, line. repeat split; assumption.
Defined.

(** *** Degenerate inputs *)

(** C10, as stated, fails: for a configuration that is a complete option
    the builder does not look at the data; with an empty data array it
    returns the configuration with its series, not the placeholder.  (And
    a [columns] that is a text makes [normalizeColumns] raise before the
    data is looked at.) *)
Lemma complete_option_skips_empty_check :
  get_opt (JObj [("data", JArr [])]) "data" = JArr []
  /\ buildOption no_palette (JObj [])
       (JObj [("columns", JStr "a,b"); ("data", JArr [])]) = None
  /\ buildOption no_palette
       (JObj [("series", JArr [JObj [("type", JStr "bar");
                                     ("data", JArr [JNum 1])]])])
       (JObj [("data", JArr [])])
     <> Some no_data
  /\ series_types <$> buildOption no_palette
                        (JObj [("series",
                                JArr [JObj [("type", JStr "bar");
                                            ("data", JArr [JNum 1])]])])
                        (JObj [("data", JArr [])])
     = Some [JStr "bar"].
Proof. vm_compute. repeat split; discriminate. Qed.

(** C10, amended.  Without a [columns] list (absent, or of length zero)
    [normalizeColumns] returns the keys of the first data row, or no names
    when there is no first row.  For a configuration that is not a complete
    option (no [series], [xAxis] or [yAxis]), with [columns] absent or a
    list and the data absent or an empty array, [buildOption] returns the
    no-data placeholder, which has no series.  With a configuration that is
    [null] (or otherwise falsy) [renderChart] returns with the component
    unchanged.  None of the three raises. *)
Theorem degenerate_inputs :
  (forall renderData : jsval,
      truthy (get_opt (get_opt renderData "columns") "length") = false ->
      normalizeColumns renderData
      = Some (if truthy (get_opt (get_opt renderData "data") "0")
              then keys (get_opt (get_opt renderData "data") "0") else []))
  /\ (forall (css : nat -> string) (config renderData : jsval),
         nullish config = false ->
         complete_option config = false ->
         columns_listed renderData ->
         truthy (get_opt renderData "data") = false
         \/ get_opt renderData "data" = JArr [] ->
         buildOption css config renderData = Some no_data
         /\ get_opt no_data "series" = JUndefined)
  /\ (forall (css : nat -> string) (config data : jsval) (c : chart),
         truthy config = false ->
         renderChart css config data c = Returned c).
Proof.
  split; [exact normalizeColumns_no_columns|split].
  - intros css config renderData Hc Hn Hcols Hdata.
    assert (Hl : columns_listed (or renderData (JObj []))).
    { unfold columns_listed in *. by rewrite !or_empty_get. }
    destruct (normalizeColumns_total _ Hl) as [columns Hcolumns].
    rewrite (buildOption_by_kind _ _ _ _ Hc Hn Hcolumns). cbv zeta.
    split; [|done].
    destruct Hdata as [Hd|Hd].
    + by rewrite (or_falsy _ _ Hd).
    + by rewrite Hd.
  - intros css config data c Hc. unfold renderChart. rewrite Hc. simpl.
    by rewrite orb_true_r.
Qed.

(** A result without [columns], an empty result, a [null] configuration. *)
Lemma degenerate_inputs_witness :
  normalizeColumns (JObj [("data", JArr sample_rows)])
  = Some [JStr "a"; JStr "b"; JStr "c"]
  /\ buildOption no_palette (JObj [("chart_type", JStr "line")])
       (JObj [("columns", JArr sample_columns); ("data", JArr [])])
     = Some no_data
  /\ buildOption no_palette (JObj []) JNull = Some no_data
  /\ renderChart no_palette JNull sample_result mounted = Returned mounted.
Proof.
  destruct degenerate_inputs as (Hcols & Hempty & Hnull).
  split; [|split; [|split]].
  - apply (Hcols (JObj [("data", JArr sample_rows)])). reflexivity.
  - apply (Hempty no_palette (JObj [("chart_type", JStr "line")])
             (JObj [("columns", JArr sample_columns); ("data", JArr [])]));
      [reflexivity|reflexivity| |right; reflexivity].
    right. exists sample_columns. reflexivity.
  - apply (Hempty no_palette (JObj []) JNull);
      [reflexivity|reflexivity| |left; reflexivity].
    left. reflexivity.
  - apply Hnull. reflexivity.
Defined.

End ChartFacts.


(** ** More about the stream consumer *)

Module ConsumerMore.
Import DataChat JSFacts ConsumerFacts.

(** One event in the stream loop, read off the event alone. *)
Lemma caught_unfold (msg : message) (evt : jsval) :
  default msg (processSSEEvent msg evt) =
  let dataType := get_opt evt "dataType" in
  let data := get_opt evt "data" in
  if nullish data then msg
  else if strict_eq dataType (JStr "step_progress") then
    if strict_eq (get_opt data "status") (JStr "start") then
      set_steps msg (steps msg ++ [Step (named_label evt) "running"])
    else if strict_eq (get_opt data "status") (JStr "complete") then
      set_steps msg (mark_done (named_label evt) (steps msg))
    else msg
  else if strict_eq dataType (JStr "answer") then
    if strict_eq (get_opt data "messageType") (JStr "error") then
      set_error msg (get_opt data "content")
    else
      match to_text (or (get_opt data "content") (JStr "")) with
      | Some text => set_summary msg (Some (summary_text msg +:+ text))
      | None => msg
      end
  else if strict_eq dataType (JStr "bus_data") then store evt msg
  else msg.
Proof.
  cbv zeta. destruct (get evt "dataType") as [dataType|] eqn:Hdt.
  - rewrite (processSSEEvent_unfold _ _ _ Hdt). cbv zeta.
    rewrite (get_get_opt _ _ _ Hdt).
    unfold named_label, store, payload.
    destruct (nullish (get_opt evt "data")) eqn:Hn.
    + apply get_none_nullish with (k := "status") in Hn as H1.
      apply get_none_nullish with (k := "messageType") in Hn as H2.
      apply get_none_nullish with (k := "chart_config") in Hn as H3.
      rewrite H1, H2, H3. simpl. by repeat case_match.
    + assert (Hg : forall k, get (get_opt evt "data") k
                             = Some (get_opt (get_opt evt "data") k)).
      { intros k. unfold get_opt at 2.
        destruct (get (get_opt evt "data") k) eqn:E; [done|].
        apply get_none_nullish in E. congruence. }
      rewrite !Hg. simpl. by repeat case_match.
  - unfold processSSEEvent. rewrite Hdt. simpl.
    apply get_none_nullish in Hdt.
    assert (Hd : get_opt evt "data" = JUndefined)
      by (unfold get_opt; destruct evt; done).
    by rewrite Hd.
Qed.

(** When a raise happens. *)
Lemma raises_iff (msg : message) (evt : jsval) :
  processSSEEvent msg evt = None
  <-> nullish evt = true
      \/ (acts_on (get_opt evt "dataType") = true
          /\ nullish (get_opt evt "data") = true)
      \/ (get_opt evt "dataType" = JStr "answer"
          /\ nullish (get_opt evt "data") = false
          /\ get_opt (get_opt evt "data") "messageType" <> JStr "error"
          /\ has_text (get_opt (get_opt evt "data") "content") = false).
Proof.
  destruct (get evt "dataType") as [dataType|] eqn:Hdt.
  - rewrite (processSSEEvent_unfold _ _ _ Hdt). cbv zeta.
    rewrite (get_get_opt _ _ _ Hdt). unfold acts_on.
    assert (Hevt : nullish evt = false).
    { destruct (nullish evt) eqn:E; [|done].
      apply get_none_nullish with (k := "dataType") in E. congruence. }
    destruct (nullish (get_opt evt "data")) eqn:Hn.
    + apply get_none_nullish with (k := "status") in Hn as H1.
      apply get_none_nullish with (k := "messageType") in Hn as H2.
      apply get_none_nullish with (k := "chart_config") in Hn as H3.
      rewrite H1, H2, H3. simpl.
      destruct (strict_eq dataType (JStr "step_progress"));
        destruct (strict_eq dataType (JStr "answer"));
        destruct (strict_eq dataType (JStr "bus_data")); simpl;
        split; try done; try (intros _; right; by left);
        intros [H|[[H _]|(_ & H & _)]]; congruence.
    + assert (Hg : forall k, get (get_opt evt "data") k
                             = Some (get_opt (get_opt evt "data") k)).
      { intros k. unfold get_opt at 2.
        destruct (get (get_opt evt "data") k) eqn:E; [done|].
        apply get_none_nullish in E. congruence. }
      rewrite !Hg. simpl. unfold to_text. rewrite has_text_or.
      destruct (strict_eq dataType (JStr "step_progress")) eqn:E1.
      { apply strict_eq_str in E1. subst.
        split; [by repeat case_match|].
        intros [H|[[_ H]|(H & _)]]; congruence. }
      destruct (strict_eq dataType (JStr "answer")) eqn:E2.
      { apply strict_eq_str in E2. subst.
        destruct (strict_eq (get_opt (get_opt evt "data") "messageType")
                            (JStr "error")) eqn:E3.
        - apply strict_eq_str in E3. split; [done|].
          intros [H|[[_ H]|(_ & _ & H & _)]]; congruence.
        - destruct (has_text (get_opt (get_opt evt "data") "content")) eqn:E4;
            simpl.
          + split; [done|].
            intros [H|[[_ H]|(_ & _ & _ & H)]]; congruence.
          + split; [|done]. intros _. right. right.
            repeat split. intros H. rewrite H in E3. done. }
      split; [by repeat case_match|].
      intros [H|[[_ H]|(H & _)]]; [congruence|congruence|].
      subst. done.
  - unfold processSSEEvent. rewrite Hdt. simpl.
    apply get_none_nullish in Hdt. split; [by left|done].
Qed.

(** X1. [processSSEEvent] raises exactly when the event is [null] or
    [undefined], or is of a kind it acts on ([step_progress], [answer],
    [bus_data]) and has no payload, or is an [answer] that is no error and
    whose content cannot be turned into text; every other event, of whatever
    shape, is processed. *)
Theorem processSSEEvent_raises (msg : message) (evt : jsval) :
  processSSEEvent msg evt = None
  <-> nullish evt = true
      \/ (acts_on (get_opt evt "dataType") = true
          /\ nullish (get_opt evt "data") = true)
      \/ (get_opt evt "dataType" = JStr "answer"
          /\ nullish (get_opt evt "data") = false
          /\ get_opt (get_opt evt "data") "messageType" <> JStr "error"
          /\ has_text (get_opt (get_opt evt "data") "content") = false).
Proof. exact (raises_iff msg evt). Qed.

(** An [answer] without payload raises, and so does one whose content hides
    [toString]; a heartbeat without payload does not, nor does an error with
    such a content. *)
Lemma processSSEEvent_raises_witness :
  processSSEEvent new_ai_message (JObj [("dataType", JStr "answer")]) = None
  /\ processSSEEvent new_ai_message
       (JObj [("dataType", JStr "answer");
              ("data", JObj [("content", JObj [("toString", JNum 1)])])])
     = None
  /\ processSSEEvent new_ai_message (JObj [("dataType", JStr "heartbeat")])
     <> None
  /\ processSSEEvent new_ai_message
       (JObj [("dataType", JStr "answer");
              ("data", JObj [("messageType", JStr "error");
                             ("content", JObj [("toString", JNum 1)])])])
     <> None.
Proof.
  split; [|split; [|split]].
  - apply (processSSEEvent_raises new_ai_message
             (JObj [("dataType", JStr "answer")])).
    right. left. split; reflexivity.
  - apply (processSSEEvent_raises new_ai_message
             (JObj [("dataType", JStr "answer");
                    ("data", JObj [("content",
                                    JObj [("toString", JNum 1)])])])).
    right. right. repeat split. discriminate.
  - intros H.
    apply (processSSEEvent_raises new_ai_message
             (JObj [("dataType", JStr "heartbeat")])) in H.
    destruct H as [H|[[H _]|(H & _)]]; discriminate.
  - intros H.
    apply (processSSEEvent_raises new_ai_message
             (JObj [("dataType", JStr "answer");
                    ("data", JObj [("messageType", JStr "error");
                                   ("content",
                                    JObj [("toString", JNum 1)])])])) in H.
    destruct H as [H|[[_ H]|(_ & _ & H & _)]]; [discriminate|discriminate|].
    by apply H.
Defined.

Lemma append_assoc3 (a b c : string) : (a +:+ b) +:+ c = a +:+ (b +:+ c).
Proof.
  induction a as [|x a IH]; [done|].
  change (String x ((a +:+ b) +:+ c) = String x (a +:+ (b +:+ c))).
  by rewrite IH.
Qed.

Lemma mark_done_length (target : jsval) (ss : list step) :
  length (mark_done target ss) = length ss.
Proof.
  induction ss as [|s ss IH]; [done|].
  simpl. destruct (strict_eq (label s) target); simpl; by rewrite ?IH.
Qed.

Lemma mark_done_twice (target : jsval) (ss : list step) :
  mark_done target (mark_done target ss) = mark_done target ss.
Proof.
  induction ss as [|s ss IH]; [done|].
  simpl. destruct (strict_eq (label s) target) eqn:E; simpl.
  - by rewrite E.
  - by rewrite E, IH.
Qed.

Lemma mark_done_absent (target : jsval) (ss : list step) :
  Forall (fun s => strict_eq (label s) target = false) ss ->
  mark_done target ss = ss.
Proof.
  induction 1 as [|s ss Hs _ IH]; [done|]. simpl. by rewrite Hs, IH.
Qed.

Lemma mark_done_first (target : jsval) (ss : list step) (i : nat) (s : step) :
  ss !! i = Some s ->
  strict_eq (label s) target = true ->
  (forall (j : nat) (s' : step),
      (j < i)%nat -> ss !! j = Some s' -> strict_eq (label s') target = false) ->
  mark_done target ss = <[i := Step (label s) "done"]> ss.
Proof.
  revert i. induction ss as [|x ss IH]; intros i Hi Hs Hfirst; [done|].
  destruct i as [|i]; simpl in *.
  - inversion Hi; subst. by rewrite Hs.
  - rewrite (Hfirst 0%nat x); [|lia|done].
    f_equal. apply IH; [done|done|].
    intros j s' Hj Hs'. apply (Hfirst (S j) s'); [lia|done].
Qed.

Lemma store_frame (evt : jsval) (msg : message) :
  role (store evt msg) = role msg
  /\ msgKey (store evt msg) = msgKey msg
  /\ steps (store evt msg) = steps msg
  /\ summary (store evt msg) = summary msg
  /\ error (store evt msg) = error msg.
Proof. unfold store. cbv zeta. by repeat case_match. Qed.

Lemma store_twice (evt : jsval) (msg : message) :
  store evt (store evt msg) = store evt msg.
Proof. unfold store. cbv zeta. destruct msg. by repeat case_match. Qed.

Lemma get_opt_nullish (v : jsval) (k : string) :
  nullish v = true -> get_opt v k = JUndefined.
Proof. by destruct v. Qed.

(** X2. Events that are delivered twice: a [bus_data] event, a step that
    completes, an error text, an event of an unknown kind or without
    payload leave the reply after the second delivery as it was after the
    first.  (A step that starts and a piece of summary text do not: they
    are what [replay_safe] excludes.) *)
Theorem replay_is_harmless (msg : message) (evt : jsval) :
  replay_safe evt = true -> feed msg [evt; evt] = feed msg [evt].
Proof.
  unfold replay_safe, starts_step, appended, offered, feed. simpl.
  intros H. apply andb_true_iff in H as [Hstart Htext].
  rewrite (caught_unfold (default msg (processSSEEvent msg evt)) evt).
  rewrite (caught_unfold msg evt). cbv zeta.
  destruct (nullish (get_opt evt "data")) eqn:Hn; [done|]. simpl in Htext.
  destruct (strict_eq (get_opt evt "dataType") (JStr "step_progress")) eqn:E1.
  - simpl in Hstart.
    destruct (strict_eq (get_opt (get_opt evt "data") "status") (JStr "start"));
      [done|].
    destruct (strict_eq (get_opt (get_opt evt "data") "status")
                        (JStr "complete")); [|done].
    destruct msg. unfold set_steps. simpl. by rewrite mark_done_twice.
  - destruct (strict_eq (get_opt evt "dataType") (JStr "answer")) eqn:E2.
    + simpl in Htext.
      destruct (strict_eq (get_opt (get_opt evt "data") "messageType")
                          (JStr "error")); [by destruct msg|].
      simpl in Htext. apply String.eqb_eq in Htext.
      destruct (to_text _) as [text|]; [|done].
      simpl in Htext. subst text.
      destruct msg. unfold set_summary, summary_text. simpl.
      by rewrite !append_empty.
    + destruct (strict_eq (get_opt evt "dataType") (JStr "bus_data")); [|done].
      apply store_twice.
Qed.

(** The chart configuration delivered twice, and a step completed twice. *)
Lemma replay_is_harmless_witness :
  feed new_ai_message
    [bus_data_event "chart_config" (JObj [("chart_type", JStr "pie")]);
     bus_data_event "chart_config" (JObj [("chart_type", JStr "pie")])]
  = feed new_ai_message
      [bus_data_event "chart_config" (JObj [("chart_type", JStr "pie")])]
  /\ feed (feed new_ai_message [progress_event "start" "retrieve"])
       [progress_event "complete" "retrieve";
        progress_event "complete" "retrieve"]
     = feed (feed new_ai_message [progress_event "start" "retrieve"])
         [progress_event "complete" "retrieve"].
Proof.
  split.
  - exact (replay_is_harmless new_ai_message
             (bus_data_event "chart_config" (JObj [("chart_type", JStr "pie")]))
             eq_refl).
  - exact (replay_is_harmless
             (feed new_ai_message [progress_event "start" "retrieve"])
             (progress_event "complete" "retrieve") eq_refl).
Defined.

(** X3. Each kind of event writes its own fields of the reply only: a
    [step_progress] event the step list, an [answer] event the error and
    the summary, a [bus_data] event neither of these three; none ever
    writes [role] or [msgKey]. *)
Theorem event_kinds_write_their_fields (msg msg' : message) (evt : jsval) :
  processSSEEvent msg evt = Some msg' ->
  role msg' = role msg
  /\ msgKey msg' = msgKey msg
  /\ (get_opt evt "dataType" = JStr "step_progress" ->
      msg' = set_steps msg (steps msg'))
  /\ (get_opt evt "dataType" = JStr "answer" ->
      msg' = set_summary (set_error msg (error msg')) (summary msg'))
  /\ (get_opt evt "dataType" = JStr "bus_data" ->
      steps msg' = steps msg /\ summary msg' = summary msg
      /\ error msg' = error msg).
Proof.
  intros H. assert (Hd : default msg (processSSEEvent msg evt) = msg')
    by (by rewrite H).
  rewrite caught_unfold in Hd. cbv zeta in Hd. clear H. subst msg'.
  destruct (store_frame evt msg) as (S1 & S2 & S3 & S4 & S5).
  destruct (nullish (get_opt evt "data")).
  { destruct msg. repeat split; done. }
  destruct (strict_eq (get_opt evt "dataType") (JStr "step_progress")) eqn:E1.
  { apply strict_eq_str in E1. rewrite E1.
    destruct msg. repeat case_match; repeat split; done. }
  destruct (strict_eq (get_opt evt "dataType") (JStr "answer")) eqn:E2.
  { apply strict_eq_str in E2. rewrite E2.
    destruct msg. repeat case_match; repeat split; done. }
  destruct (strict_eq (get_opt evt "dataType") (JStr "bus_data")) eqn:E3.
  { apply strict_eq_str in E3. rewrite E3. repeat split; done. }
  repeat split; try done; intros Hk; rewrite Hk in *; done.
Qed.

(** The SQL arrives for a reply that has a step and some summary. *)
Lemma event_kinds_write_their_fields_witness :
  steps (set_sql (feed new_ai_message [progress_event "start" "retrieve"])
           (JStr "SELECT 1"))
  = steps (feed new_ai_message [progress_event "start" "retrieve"])
  /\ summary (set_sql (feed new_ai_message [progress_event "start" "retrieve"])
                (JStr "SELECT 1"))
     = summary (feed new_ai_message [progress_event "start" "retrieve"])
  /\ error (set_sql (feed new_ai_message [progress_event "start" "retrieve"])
              (JStr "SELECT 1"))
     = error (feed new_ai_message [progress_event "start" "retrieve"]).
Proof.
  destruct (event_kinds_write_their_fields
              (feed new_ai_message [progress_event "start" "retrieve"])
              (set_sql (feed new_ai_message [progress_event "start" "retrieve"])
                 (JStr "SELECT 1"))
              (bus_data_event "sql" (JStr "SELECT 1")) eq_refl)
    as (_ & _ & _ & _ & H).
  exact (H eq_refl).
Defined.

Lemma feed_cons (msg : message) (evt : jsval) (evts : list jsval) :
  feed msg (evt :: evts) = feed (default msg (processSSEEvent msg evt)) evts.
Proof. reflexivity. Qed.

Lemma step_count_one (msg : message) (evt : jsval) :
  length (steps (default msg (processSSEEvent msg evt)))
  = (length (steps msg) + if starts_step evt then 1 else 0)%nat.
Proof.
  rewrite caught_unfold. cbv zeta. unfold starts_step.
  destruct (store_frame evt msg) as (_ & _ & S3 & _).
  destruct (nullish (get_opt evt "data")) eqn:Hn.
  { rewrite (get_opt_nullish _ "status" Hn). simpl.
    rewrite andb_false_r. lia. }
  destruct (strict_eq (get_opt evt "dataType") (JStr "step_progress")); simpl.
  - destruct (strict_eq (get_opt (get_opt evt "data") "status") (JStr "start")).
    + simpl. rewrite length_app. simpl. lia.
    + destruct (strict_eq _ (JStr "complete")); simpl;
        rewrite ?mark_done_length; lia.
  - repeat case_match; simpl; rewrite ?S3; lia.
Qed.

(** X4. The step list has one entry per step that was started: after any
    events its length is the length before plus the number of
    [step_progress] events with status ["start"] among them; no event ever
    removes an entry, and a step that completes adds none. *)
Theorem step_count (evts : list jsval) (msg : message) :
  length (steps (feed msg evts))
  = (length (steps msg) + length (List.filter starts_step evts))%nat.
Proof.
  revert msg. induction evts as [|evt evts IH]; intros msg.
  - simpl. lia.
  - rewrite feed_cons, IH, step_count_one. simpl.
    destruct (starts_step evt); simpl; lia.
Qed.

Lemma summary_one (msg : message) (evt : jsval) :
  summary_text (default msg (processSSEEvent msg evt))
  = summary_text msg +:+ appended evt.
Proof.
  rewrite caught_unfold. cbv zeta. unfold appended, offered.
  destruct (store_frame evt msg) as (_ & _ & _ & S4 & _).
  destruct (nullish (get_opt evt "data")) eqn:Hn.
  { simpl. rewrite andb_false_r. simpl. by rewrite append_empty. }
  destruct (strict_eq (get_opt evt "dataType") (JStr "step_progress")) eqn:E1.
  { apply strict_eq_str in E1. rewrite E1. simpl.
    rewrite append_empty. by repeat case_match. }
  destruct (strict_eq (get_opt evt "dataType") (JStr "answer")); simpl.
  - destruct (strict_eq _ (JStr "error")); simpl.
    + by rewrite append_empty.
    + destruct (to_text _); simpl; [done|]. by rewrite append_empty.
  - rewrite append_empty. unfold summary_text.
    destruct (strict_eq _ (JStr "bus_data")); [by rewrite S4|done].
Qed.

(** X5. The summary is the concatenation, in order of arrival, of the texts
    of the [answer] events that are not errors: after any events whose
    contents show numbers within the exact range only, it is the summary
    before followed by what each event appends, the content itself when it
    is a string; events of other kinds, errors, events without payload and
    events whose content has no text append nothing. *)
Theorem summary_is_concatenation (evts : list jsval) (msg : message) :
  Forall (fun evt => safe_numbers (offered evt) = true) evts ->
  summary_text (feed msg evts)
  = summary_text msg +:+ String.concat "" (map appended evts)
  /\ Forall (fun evt =>
               (forall s : string, offered evt = JStr s -> appended evt = s)
               /\ (has_text (offered evt) = false -> appended evt = "")
               /\ (get_opt evt "dataType" <> JStr "answer"
                   \/ nullish (get_opt evt "data") = true
                   \/ get_opt (get_opt evt "data") "messageType" = JStr "error"
                   -> appended evt = "")) evts.
Proof.
  intros _. split.
  - revert msg. induction evts as [|evt evts IH]; intros msg.
    + simpl. by rewrite append_empty.
    + rewrite feed_cons, IH, summary_one, append_assoc3. f_equal.
      simpl. destruct (map appended evts) eqn:E; [by rewrite append_empty|].
      done.
  - apply Forall_forall. intros evt _. unfold appended, to_text.
    split; [|split].
    + by intros s ->.
    + by intros ->.
    + unfold offered. intros [H|[H|H]].
      * by rewrite (strict_eq_str_false _ _ H).
      * rewrite H. by rewrite andb_false_r.
      * rewrite H. simpl. by rewrite andb_false_r.
Qed.

(** Two chunks of text around an event without payload and an error. *)
Lemma summary_is_concatenation_witness :
  summary_text
    (feed new_ai_message
       [JObj [("dataType", JStr "answer");
              ("data", JObj [("content", JStr "Total: ")])];
        JObj [("dataType", JStr "answer")];
        JObj [("dataType", JStr "answer");
              ("data", JObj [("messageType", JStr "error");
                             ("content", JStr "boom")])];
        JObj [("dataType", JStr "answer");
              ("data", JObj [("content", JStr "42 rows")])]])
  = "Total: 42 rows".
Proof.
  destruct (summary_is_concatenation
              [JObj [("dataType", JStr "answer");
                     ("data", JObj [("content", JStr "Total: ")])];
               JObj [("dataType", JStr "answer")];
               JObj [("dataType", JStr "answer");
                     ("data", JObj [("messageType", JStr "error");
                                    ("content", JStr "boom")])];
               JObj [("dataType", JStr "answer");
                     ("data", JObj [("content", JStr "42 rows")])]]
              new_ai_message) as [H _].
  { repeat constructor. }
  rewrite H. reflexivity.
Defined.

Lemma table_mirrors_one (msg : message) (evt : jsval) :
  table_mirrors_render msg ->
  table_mirrors_render (default msg (processSSEEvent msg evt)).
Proof.
  unfold table_mirrors_render. intros H.
  rewrite caught_unfold. cbv zeta. unfold store, payload.
  destruct msg. simpl in *. repeat case_match; simpl; done.
Qed.

(** X6. [tableData] always goes with [renderData]: in the reply of a
    request, after any events, [tableData] is [renderData.data], or [null]
    when [renderData] is [null] or has no [data]. *)
Theorem table_data_mirrors_render_data (evts : list jsval) :
  table_mirrors_render (feed new_ai_message evts).
Proof.
  assert (H : forall msg, table_mirrors_render msg ->
                          table_mirrors_render (feed msg evts)).
  { induction evts as [|evt evts IH]; intros msg Hm; [done|].
    rewrite feed_cons. by apply IH, table_mirrors_one. }
  by apply H.
Qed.

(** X7. A step that completes marks the first entry of its label and no
    other: with no entry of that label the reply stays as it is, and with
    one the entry at the first such index becomes done while every other
    entry, a later one of the same label included, is left alone. *)
Theorem complete_marks_first (msg : message) (evt : jsval) :
  completes_step evt = true ->
  nullish (get_opt evt "data") = false ->
  (Forall (fun s => strict_eq (label s) (named_label evt) = false) (steps msg) ->
   processSSEEvent msg evt = Some msg)
  /\ (forall (i : nat) (s : step),
         steps msg !! i = Some s ->
         strict_eq (label s) (named_label evt) = true ->
         (forall (j : nat) (s' : step),
             (j < i)%nat -> steps msg !! j = Some s' ->
             strict_eq (label s') (named_label evt) = false) ->
         processSSEEvent msg evt
         = Some (set_steps msg (<[i := Step (label s) "done"]> (steps msg)))
         /\ forall j : nat,
              j <> i ->
              steps (set_steps msg (<[i := Step (label s) "done"]> (steps msg)))
              !! j = steps msg !! j).
Proof.
  unfold completes_step. intros Hc Hn.
  apply andb_true_iff in Hc as [Hdt Hst].
  assert (Hp : processSSEEvent msg evt
               = Some (set_steps msg (mark_done (named_label evt) (steps msg)))).
  { destruct (processSSEEvent msg evt) as [m|] eqn:E.
    - assert (Hd : default msg (processSSEEvent msg evt) = m) by (by rewrite E).
      rewrite caught_unfold in Hd. cbv zeta in Hd.
      rewrite Hn, Hdt, Hst in Hd.
      apply strict_eq_str in Hst. rewrite Hst in Hd. simpl in Hd. by subst.
    - apply raises_iff in E as [E|[[_ E]|(E & _)]].
      + rewrite (get_opt_nullish _ _ E) in Hdt. done.
      + congruence.
      + rewrite E in Hdt. done. }
  split.
  - intros Hall. rewrite Hp, (mark_done_absent _ _ Hall). by destruct msg.
  - intros i s Hi Hs Hfirst. rewrite Hp, (mark_done_first _ _ _ _ Hi Hs Hfirst).
    split; [done|]. intros j Hj. destruct msg. simpl.
    by apply list_lookup_insert_ne.
Qed.

(** Two entries of one label: the first is marked, the second never. *)
Lemma complete_marks_first_witness :
  steps (feed new_ai_message
           [progress_event "start" "query"; progress_event "start" "query";
            progress_event "complete" "query";
            progress_event "complete" "query"])
  = [Step (JStr "query") "done"; Step (JStr "query") "running"].
Proof.
  destruct (complete_marks_first
              (feed new_ai_message
                 [progress_event "start" "query";
                  progress_event "start" "query";
                  progress_event "complete" "query"])
              (progress_event "complete" "query") eq_refl eq_refl)
    as [_ H].
  destruct (H 0%nat (Step (JStr "query") "done") eq_refl eq_refl) as [Hp _].
  { intros j s' Hj. lia. }
  change (steps (default
                   (feed new_ai_message
                      [progress_event "start" "query";
                       progress_event "start" "query";
                       progress_event "complete" "query"])
                   (processSSEEvent
                      (feed new_ai_message
                         [progress_event "start" "query";
                          progress_event "start" "query";
                          progress_event "complete" "query"])
                      (progress_event "complete" "query")))
          = [Step (JStr "query") "done"; Step (JStr "query") "running"]).
  rewrite Hp. reflexivity.
Defined.

End ConsumerMore.

(** ** More about the page *)

Module SessionMore.
Import DataChat JSFacts ConsumerFacts SessionFacts.

(** *** The conversation a question belongs to *)

Lemma keeps_chat_perform (v : view) (a : action) :
  keeps_chat a = true -> chatId (perform v a).1 = chatId v.
Proof.
  destruct a; simpl; try done; intros H.
  - unfold handleSend. by repeat case_match.
  - unfold loadSession_records. by repeat case_match.
  - unfold on_response. by repeat case_match.
  - unfold on_event.
    destruct (runs v !! k) as [[ref []]|]; try done.
    destruct (replies v !! ref) as [msg|]; [|done].
    unfold consume.
    destruct (get evt "dataType") as [dataType|] eqn:Hdt; [|done].
    rewrite (get_get_opt _ _ _ Hdt) in H.
    apply negb_true_iff in H. by rewrite H.
  - unfold on_done. by repeat case_match.
  - unfold on_error. by repeat case_match.
Qed.

Lemma keeps_chat_trace (trace : list action) (v : view) :
  Forall (fun a => keeps_chat a = true) trace ->
  chatId (page_after v trace) = chatId v.
Proof.
  intros H. revert v. induction H as [|a trace Ha _ IH]; intros v; [done|].
  unfold page_after. simpl. fold (page_after (perform v a).1 trace).
  by rewrite IH, keeps_chat_perform.
Qed.

Lemma stream_end_writes (v : view) (k ref : nat) (msg : message)
  (evt : jsval) :
  runs v !! k = Some (Run ref Reading) ->
  replies v !! ref = Some msg ->
  get evt "dataType" = Some (JStr "stream_end") ->
  truthy (get_opt (get_opt evt "data") "chat_id") = true ->
  chatId (perform v (Event k evt)).1 = get_opt (get_opt evt "data") "chat_id".
Proof.
  intros Hrun Hmsg Hdt Hid. simpl. unfold on_event. rewrite Hrun, Hmsg.
  by rewrite (consume_stream_end _ _ _ Hdt Hid).
Qed.

(** X8. A question carries the chat identifier last written.  Typing,
    choosing a model, sending, the answer to a request, the end or the
    failure of a stream, records of a session and every event other than a
    [stream_end] with an identifier leave [chatId] as it is, and the request
    of a question then sent has it as [chat_id].  So after a [stream_end]
    event delivered an identifier, the questions sent carry it until a new
    chat, a change of datasource, a session or another such event comes;
    after [handleNewChat] they carry [null]; and when the new chat was
    asked for while the reply was still read, the [stream_end] that follows
    brings the identifier back. *)
Theorem next_question_continues :
  (forall (v : view) (trace : list action),
      Forall (fun a => keeps_chat a = true) trace ->
      chatId (page_after v trace) = chatId v
      /\ forall text : string,
           inputText (page_after v trace) = JStr text ->
           trim text <> "" ->
           truthy (currentDsId (page_after v trace)) = true ->
           streaming (page_after v trace) = false ->
           (perform (page_after v trace) Send).2
           = [EChat (JObj [("query", JStr (trim text));
                           ("datasource_id",
                            currentDsId (page_after v trace));
                           ("chat_id", chatId v);
                           ("model",
                            or (selectedModel (page_after v trace))
                               JUndefined)])])
  /\ (forall (v : view) (k ref : nat) (msg : message) (evt : jsval)
             (trace : list action),
         runs v !! k = Some (Run ref Reading) ->
         replies v !! ref = Some msg ->
         get evt "dataType" = Some (JStr "stream_end") ->
         truthy (get_opt (get_opt evt "data") "chat_id") = true ->
         Forall (fun a => keeps_chat a = true) trace ->
         chatId (page_after (perform v (Event k evt)).1 trace)
         = get_opt (get_opt evt "data") "chat_id"
         /\ chatId (page_after (perform (perform v NewChat).1 (Event k evt)).1
                      trace)
            = get_opt (get_opt evt "data") "chat_id")
  /\ (forall (v : view) (trace : list action),
         Forall (fun a => keeps_chat a = true) trace ->
         chatId (page_after (perform v NewChat).1 trace) = JNull).
Proof.
  split; [|split].
  - intros v trace Hq. pose proof (keeps_chat_trace trace v Hq) as Hc.
    split; [exact Hc|]. intros text Htext Hne Hds Hs.
    destruct (handleSend_sends _ text Htext Hne Hds Hs) as (v' & Hsend & _).
    simpl. rewrite Hsend. simpl. unfold chat_data. by rewrite Hc.
  - intros v k ref msg evt trace Hrun Hmsg Hdt Hid Hq.
    rewrite !(keeps_chat_trace trace _ Hq). split.
    + by apply (stream_end_writes v k ref msg).
    + by apply (stream_end_writes (perform v NewChat).1 k ref msg).
  - intros v trace Hq. by rewrite (keeps_chat_trace trace _ Hq).
Qed.

(** A first answer ends with chat ["c-42"]; the follow-up question, also
    when a new chat was asked for before the stream ended. *)
Lemma next_question_continues_witness :
  (perform
     (page_after
        (perform
           (View (JStr "") (JNum 7) JNull (JStr "") true
              [UserMsg (JStr "top 10"); Reply 0] [new_ai_message]
              [Run 0 Reading])
           (Event 0 (JObj [("dataType", JStr "stream_end");
                           ("data", JObj [("chat_id", JStr "c-42")])]))).1
        [Done 0; Input (JStr "and by month?")])
     Send).2
  = [EChat (JObj [("query", JStr "and by month?");
                  ("datasource_id", JNum 7);
                  ("chat_id", JStr "c-42");
                  ("model", JUndefined)])]
  /\ chatId
       (page_after
          (perform
             (perform
                (View (JStr "") (JNum 7) JNull (JStr "") true
                   [UserMsg (JStr "top 10"); Reply 0] [new_ai_message]
                   [Run 0 Reading])
                NewChat).1
             (Event 0 (JObj [("dataType", JStr "stream_end");
                             ("data", JObj [("chat_id", JStr "c-42")])]))).1
          [Done 0; Input (JStr "and by month?")])
     = JStr "c-42".
Proof.
  destruct next_question_continues as (Hkeep & Hend & _). split.
  - destruct (Hkeep
                (perform
                   (View (JStr "") (JNum 7) JNull (JStr "") true
                      [UserMsg (JStr "top 10"); Reply 0] [new_ai_message]
                      [Run 0 Reading])
                   (Event 0 (JObj [("dataType", JStr "stream_end");
                                   ("data",
                                    JObj [("chat_id", JStr "c-42")])]))).1
                [Done 0; Input (JStr "and by month?")])
      as [_ H]; [repeat constructor|].
    exact (H "and by month?" eq_refl ltac:(discriminate) eq_refl eq_refl).
  - destruct (Hend
                (View (JStr "") (JNum 7) JNull (JStr "") true
                   [UserMsg (JStr "top 10"); Reply 0] [new_ai_message]
                   [Run 0 Reading])
                0%nat 0%nat new_ai_message
                (JObj [("dataType", JStr "stream_end");
                       ("data", JObj [("chat_id", JStr "c-42")])])
                [Done 0; Input (JStr "and by month?")]
                eq_refl eq_refl eq_refl eq_refl) as [_ H];
      [repeat constructor|].
    exact H.
Defined.

(** *** No dangling reply *)

Lemma refs_valid_frame (v v' : view) :
  (length (replies v) <= length (replies v'))%nat ->
  Forall (fun r => (reply r < length (replies v))%nat) (runs v') ->
  Forall (fun e => match e with
                   | Reply ref => (ref < length (replies v))%nat
                   | _ => True
                   end) (messages v') ->
  refs_valid v'.
Proof.
  intros Hlen Hr Hm. split.
  - eapply Forall_impl; [exact Hr|]. simpl. intros r Hlt. lia.
  - eapply Forall_impl; [exact Hm|]. simpl. intros [|ref|] Hlt; try done. lia.
Qed.

Lemma push_records_no_reply (records : list jsval) :
  Forall (fun e => match e with Reply _ => False | _ => True end)
         (push_records records).1.
Proof.
  induction records as [|r records IH]; simpl; [constructor|].
  unfold record_entries.
  destruct (get r "question"); simpl; [|constructor].
  destruct (get r "sql_statement"); simpl; [|constructor].
  destruct (get r "chart_config"); simpl; [|constructor].
  destruct (get r "query_result"); simpl; [|constructor].
  destruct (get r "answer"); simpl; [|constructor].
  destruct (push_records records) as [more ok]. simpl in *.
  repeat constructor. exact IH.
Qed.

Lemma perform_refs_valid (v : view) (a : action) :
  refs_valid v -> refs_valid (perform v a).1.
Proof.
  intros [Hr Hm]. destruct a; simpl.
  - by apply (refs_valid_frame v).
  - unfold handleSend.
    destruct (inputText v) as [| | | |txt| |]; simpl; try done.
    destruct (String.eqb (trim txt) "" || negb (truthy (currentDsId v))
              || streaming v); simpl; [done|].
    split; simpl; rewrite length_app; simpl.
    + apply Forall_app. split.
      * eapply Forall_impl; [exact Hr|]. simpl. intros. lia.
      * repeat constructor. simpl. lia.
    + apply Forall_app. split.
      * eapply Forall_impl; [exact Hm|]. simpl. intros [|ref|] ?; try done. lia.
      * repeat constructor. lia.
  - by apply (refs_valid_frame v).
  - by apply (refs_valid_frame v).
  - by apply (refs_valid_frame v).
  - unfold loadSession.
    destruct (get session "chat_id") as [c|]; simpl; [|done].
    destruct (strict_eq c (chatId v)); simpl; [done|].
    destruct (get session "datasource_id"); simpl; [|done].
    by apply (refs_valid_frame v).
  - unfold loadSession_records.
    destruct (get res "data") as [d|]; [|done].
    destruct (iterate (or d (JArr []))) as [records|]; [|done].
    pose proof (push_records_no_reply records) as Hp.
    destruct (push_records records) as [pushed ok]. simpl in *.
    apply (refs_valid_frame v); simpl; [done|done|].
    apply Forall_app. split; [done|].
    eapply Forall_impl; [exact Hp|]. by intros [|ref|].
  - unfold on_response.
    destruct (runs v !! k) as [[ref []]|] eqn:Hk; try done.
    assert (Href : (ref < length (replies v))%nat)
      by (exact (Forall_lookup_1 _ _ _ _ Hr Hk)).
    destruct ok.
    + apply (refs_valid_frame v); simpl; [done| |done].
      by apply Forall_insert.
    + apply (refs_valid_frame v); simpl; [by rewrite length_alter| |done].
      by apply Forall_delete.
  - unfold on_event.
    destruct (runs v !! k) as [[ref []]|] eqn:Hk; try done.
    destruct (replies v !! ref) as [msg|]; [|done].
    destruct (consume (chatId v) msg evt) as [[chat' msg'] effs]. simpl.
    apply (refs_valid_frame v); simpl; [by rewrite length_insert|done|done].
  - unfold on_done.
    destruct (runs v !! k) as [[ref []]|] eqn:Hk; try done.
    apply (refs_valid_frame v); simpl; [done| |done].
    by apply Forall_delete.
  - unfold on_error.
    destruct (runs v !! k) as [[ref st]|] eqn:Hk; try done.
    apply (refs_valid_frame v); simpl; [|by apply Forall_delete|done].
    case_match; [by rewrite length_alter|done].
Qed.

(** X9. No reference to a reply object ever dangles: in every state the
    page can reach, each bubble that stands for a reply and each invocation
    of [handleSend] under way points to an existing reply object; so an
    event read for an invocation always reaches its reply, which afterwards
    is what [processSSEEvent] made of it (itself when that raised). *)
Theorem replies_never_dangle (v : view) :
  reachable v ->
  refs_valid v
  /\ forall (k ref : nat) (evt : jsval),
       runs v !! k = Some (Run ref Reading) ->
       exists msg : message,
         replies v !! ref = Some msg
         /\ replies (perform v (Event k evt)).1 !! ref
            = Some (default msg (processSSEEvent msg evt)).
Proof.
  intros Hreach.
  assert (Hv : refs_valid v).
  { induction Hreach as [|v a _ IH]; [|by apply perform_refs_valid].
    split; constructor. }
  split; [done|].
  intros k ref evt Hk. destruct Hv as [Hr _].
  pose proof (Forall_lookup_1 _ _ _ _ Hr Hk) as Href. simpl in Href.
  destruct (lookup_lt_is_Some_2 _ _ Href) as [msg Hmsg].
  exists msg. split; [done|].
  simpl. unfold on_event. rewrite Hk, Hmsg.
  pose proof (consume_message (chatId v) msg evt) as Hc.
  destruct (consume (chatId v) msg evt) as [[chat' msg'] effs].
  simpl in *. subst. by apply list_lookup_insert_eq.
Qed.

(** The page while a first reply streams in, its body being read. *)
Lemma replies_never_dangle_witness :
  exists msg : message,
    replies (perform asking (Response 0 true (JNum 200))).1 !! 0%nat = Some msg
    /\ replies (perform (perform asking (Response 0 true (JNum 200))).1
                  (Event 0 (bus_data_event "sql" (JStr "SELECT 1")))).1
       !! 0%nat
       = Some (default msg
                 (processSSEEvent msg
                    (bus_data_event "sql" (JStr "SELECT 1")))).
Proof.
  assert (Hr : reachable (perform asking (Response 0 true (JNum 200))).1)
    by (repeat apply reachable_perform; apply reachable_initial).
  destruct (replies_never_dangle _ Hr) as [_ H].
  exact (H 0%nat 0%nat (bus_data_event "sql" (JStr "SELECT 1")) eq_refl).
Defined.

End SessionMore.

(** ** More about the chart component *)

Module ChartMore.
Import Chart JSFacts ChartFacts.

(** X10. A configuration that is a complete option is passed on whole,
    except for the palette: in the option [buildOption] returns, [color]
    is the palette of the page whatever the configuration says, every other
    property of the configuration has the value the configuration gives it,
    and [tooltip] and [grid] have their defaults when the configuration
    does not set them. *)
Theorem complete_option_keeps_config (css : nat -> string)
  (props : list (string * jsval)) (renderData : jsval) :
  well_formed_object props ->
  complete_option (JObj props) = true ->
  exists option : jsval,
    buildOption css (JObj props) renderData = Some option
    /\ get_opt option "color" = getChartColors css
    /\ forall k : string,
         k <> "color" ->
         get_opt option k
         = if has_key k props then assoc k props
           else assoc k [("tooltip", axis_tooltip); ("grid", grid)].
Proof.
  intros Hwf Hc. unfold buildOption. simpl. rewrite Hc.
  eexists. split; [reflexivity|]. unfold get_opt. simpl. split.
  - by rewrite assoc_put.
  - intros k Hk. rewrite assoc_put. apply String.eqb_neq in Hk. rewrite Hk.
    by apply assoc_spread.
Qed.

(** A configuration with its own series, grid and color. *)
Lemma complete_option_keeps_config_witness :
  exists option : jsval,
    buildOption no_palette
      (JObj [("series", JArr [JObj [("type", JStr "bar")]]);
             ("grid", JObj [("left", JStr "10%")]);
             ("color", JArr [JStr "red"])])
      sample_result = Some option
    /\ get_opt option "color" = getChartColors no_palette
    /\ get_opt option "grid" = JObj [("left", JStr "10%")]
    /\ get_opt option "tooltip" = axis_tooltip.
Proof.
  destruct (complete_option_keeps_config no_palette
              [("series", JArr [JObj [("type", JStr "bar")]]);
               ("grid", JObj [("left", JStr "10%")]);
               ("color", JArr [JStr "red"])]
              sample_result) as (option & Hb & Hcolor & Hk).
  - refine (bool_decide_unpack _ _). vm_compute. reflexivity.
  - reflexivity.
  - exists option. split; [exact Hb|]. split; [exact Hcolor|]. split.
    + apply (Hk "grid"). discriminate.
    + apply (Hk "tooltip"). discriminate.
Defined.

(** *** The table view *)

Lemma array_has_length (first : jsval) (rest : list jsval) :
  truthy (get_opt (JArr (first :: rest)) "length") = true
  /\ strict_eq (get_opt (JArr (first :: rest)) "length") (JNum 0) = false.
Proof. unfold get_opt. simpl. split; reflexivity. Qed.

(** X11. The rows of the table view: none when the data is absent or empty;
    otherwise one per data row, in order, each a copy of its row with the
    property [key] set to the row's index.  A column of the data that is
    itself called [key] is thereby replaced by the index; every other
    column keeps its value. *)
Theorem table_rows_are_keyed (renderData : jsval) :
  (truthy (get_opt (get_opt renderData "data") "length") = false ->
   tableRows renderData = Some [])
  /\ (forall (first : jsval) (rest : list jsval),
         get_opt renderData "data" = JArr (first :: rest) ->
         exists rows' : list jsval,
           tableRows renderData = Some rows'
           /\ length rows' = S (length rest)
           /\ forall (i : nat) (props : list (string * jsval)),
                (first :: rest) !! i = Some (JObj props) ->
                well_formed_object props ->
                exists row' : jsval,
                  rows' !! i = Some row'
                  /\ get_opt row' "key" = JNum (Z.of_nat i)
                  /\ forall k : string,
                       k <> "key" -> get_opt row' k = assoc k props).
Proof.
  split.
  - intros H. unfold tableRows. cbv zeta. by rewrite H.
  - intros first rest Hd. unfold tableRows. cbv zeta. rewrite Hd.
    destruct (array_has_length first rest) as [Ht _]. rewrite Ht. simpl.
    eexists. split; [reflexivity|]. split.
    + change (length (imap keyed_row (first :: rest)) = S (length rest)).
      by rewrite length_imap.
    + intros i props Hi Hwf. exists (keyed_row i (JObj props)). split.
      * change (imap keyed_row (first :: rest) !! i
                = Some (keyed_row i (JObj props))).
        by rewrite list_lookup_imap, Hi.
      * unfold keyed_row, get_opt. simpl. split; [by rewrite assoc_put|].
        intros k Hk. rewrite assoc_put. apply String.eqb_neq in Hk.
        rewrite Hk, (assoc_spread _ _ _ Hwf). simpl.
        destruct (has_key k props) eqn:E; [done|].
        clear -E. induction props as [|[k0 v0] props IH]; [done|].
        apply has_key_false_neq in E as [E1 E2]. simpl. rewrite E1.
        by apply IH.
Qed.

(** A result with a column called [key]. *)
Lemma table_rows_are_keyed_witness :
  tableRows (JObj [("data", JArr [JObj [("key", JStr "k-9");
                                        ("amount", JNum 5)]])])
  = Some [JObj [("key", JNum 0); ("amount", JNum 5)]]
  /\ tableRows (JObj [("data", JArr [])]) = Some [].
Proof.
  destruct (table_rows_are_keyed
              (JObj [("data", JArr [JObj [("key", JStr "k-9");
                                          ("amount", JNum 5)]])]))
    as [_ H].
  destruct (H (JObj [("key", JStr "k-9"); ("amount", JNum 5)]) [] eq_refl)
    as (rows' & Hr & _ & _).
  split.
  - rewrite Hr. vm_compute in Hr. congruence.
  - destruct (table_rows_are_keyed (JObj [("data", JArr [])])) as [H0 _].
    exact (H0 eq_refl).
Defined.

Lemma pretty_zero : pretty 0%nat = "0".
Proof. reflexivity. Qed.

Lemma array_first (first : jsval) (rest : list jsval) :
  get_opt (JArr (first :: rest)) "0" = first.
Proof. reflexivity. Qed.

Lemma getTableColumns_rows (first : jsval) (rest : list jsval) :
  DataChat.getTableColumns (JArr (first :: rest))
  = if nullish first then None
    else Some (map DataChat.table_column (keys first)).
Proof. reflexivity. Qed.

(** X12. The columns of the table the page shows under a reply
    ([getTableColumns]): none for data that is absent or empty, a TypeError
    when the first row is [null], and otherwise one column per key of the
    first row.  For a result without a [columns] list these are the
    columns the table view of the chart component shows ([tableColumns]). *)
Theorem fallback_table_columns :
  (forall data : jsval,
      truthy data = false \/ data = JArr [] ->
      DataChat.getTableColumns data = Some [])
  /\ (forall (first : jsval) (rest : list jsval),
         nullish first = true ->
         DataChat.getTableColumns (JArr (first :: rest)) = None)
  /\ (forall (renderData first : jsval) (rest : list jsval),
         get_opt renderData "data" = JArr (first :: rest) ->
         nullish first = false ->
         truthy (get_opt (get_opt renderData "columns") "length") = false ->
         DataChat.getTableColumns (get_opt renderData "data")
         = Some (map DataChat.table_column (keys first))
         /\ tableColumns renderData
            = DataChat.getTableColumns (get_opt renderData "data")).
Proof.
  split; [|split].
  - intros data [H| ->]; unfold DataChat.getTableColumns.
    + by rewrite H.
    + reflexivity.
  - intros first rest Hn. by rewrite getTableColumns_rows, Hn.
  - intros renderData first rest Hd Hn Hc.
    assert (Hg : DataChat.getTableColumns (JArr (first :: rest))
                 = Some (map DataChat.table_column (keys first)))
      by (by rewrite getTableColumns_rows, Hn).
    rewrite Hd, Hg. split; [done|].
    unfold tableColumns. rewrite (normalizeColumns_no_columns _ Hc).
    rewrite Hd, array_first. simpl.
    destruct (truthy first) eqn:Ht.
    + destruct (keys first); reflexivity.
    + destruct first as [| |b|n|str| |]; try done.
      destruct str; [done|discriminate].
Qed.

(** The sample rows without their [columns] list. *)
Lemma fallback_table_columns_witness :
  tableColumns (JObj [("data", JArr sample_rows)])
  = DataChat.getTableColumns (JArr sample_rows)
  /\ DataChat.getTableColumns (JArr sample_rows)
     = Some (map DataChat.table_column sample_columns)
  /\ DataChat.getTableColumns (JArr [JNull]) = None
  /\ DataChat.getTableColumns JNull = Some [].
Proof.
  destruct fallback_table_columns as (Hempty & Hnull & Hsame).
  destruct (Hsame (JObj [("data", JArr sample_rows)])
              (JObj [("a", JStr "north"); ("b", JNum 1); ("c", JNum 2)])
              [JObj [("a", JStr "south"); ("b", JNum 3); ("c", JNum 4)]]
              eq_refl eq_refl eq_refl) as [Hcols Heq].
  split; [exact Heq|]. split; [exact Hcols|]. split.
  - exact (Hnull JNull [] eq_refl).
  - apply Hempty. left. reflexivity.
Defined.

(** *** The palette *)

Lemma filter_seq_sorted (p : nat -> bool) (n start : nat) :
  StronglySorted lt (List.filter p (seq start n)).
Proof.
  revert start. induction n as [|n IH]; intros start; [constructor|].
  simpl. destruct (p start); [|apply IH].
  constructor; [apply IH|].
  apply Forall_forall. intros i Hi.
  apply list_elem_of_In, filter_In in Hi as [Hi _].
  apply in_seq in Hi. lia.
Qed.

Lemma filter_map_comm {A B : Type} (f : A -> B) (p : B -> bool) (l : list A) :
  List.filter p (map f l) = map f (List.filter (fun x => p (f x)) l).
Proof.
  induction l as [|x l IH]; [done|].
  simpl. destruct (p (f x)); simpl; by rewrite IH.
Qed.

(** X13. The palette handed to the chart is never empty and holds no empty
    color.  It is made of the values of the ten style variables that are
    not blank, each trimmed, all of them, in the order of the variables,
    and it is the built-in palette of ten when every variable is blank. *)
Theorem palette_never_empty (css : nat -> string) :
  exists (colors : list string) (indices : list nat),
    getChartColors css = JArr (map JStr colors)
    /\ (1 <= length colors <= 10)%nat
    /\ Forall (fun c => c <> "") colors
    /\ StronglySorted lt indices
    /\ (forall i : nat,
           i ∈ indices <-> (1 <= i <= 10)%nat /\ trim (css i) <> "")
    /\ (indices <> [] -> colors = map (fun i => trim (css i)) indices)
    /\ (indices = [] -> colors = default_palette).
Proof.
  unfold getChartColors.
  rewrite (filter_map_comm (fun i => trim (css i))).
  set (indices := List.filter
                    (fun i => negb (String.eqb (trim (css i)) "")) (seq 1 10)).
  assert (Hin : forall i : nat,
             i ∈ indices <-> (1 <= i <= 10)%nat /\ trim (css i) <> "").
  { intros i. unfold indices.
    rewrite list_elem_of_In, filter_In, in_seq, negb_true_iff, String.eqb_neq.
    split; intros [H1 H2]; (split; [lia|done]). }
  assert (Hlen : (length indices <= 10)%nat).
  { unfold indices. etransitivity; [apply List.filter_length_le|].
    by rewrite length_seq. }
  assert (Hsorted : StronglySorted lt indices) by apply filter_seq_sorted.
  rewrite length_map. clearbody indices.
  destruct indices as [|i rest].
  - exists default_palette, []. simpl.
    split; [done|]. split; [lia|]. split.
    { unfold default_palette. repeat constructor; discriminate. }
    split; [exact Hsorted|]. split; [exact Hin|]. by split.
  - exists (map (fun i => trim (css i)) (i :: rest)), (i :: rest).
    split; [done|]. rewrite length_map. split; [simpl in *; lia|].
    split.
    { apply Forall_forall. intros c Hc.
      apply list_elem_of_In, in_map_iff in Hc as (j & <- & Hj).
      apply list_elem_of_In, Hin in Hj. tauto. }
    split; [exact Hsorted|]. split; [exact Hin|]. by split.
Qed.

(** A style sheet that defines no palette, and one that sets the second
    and the fifth variable. *)
Lemma palette_never_empty_witness :
  getChartColors no_palette = JArr (map JStr default_palette)
  /\ getChartColors (fun i => if Nat.eqb i 5 then " #000 "
                              else if Nat.eqb i 2 then "#fff" else " ")
     = JArr [JStr "#fff"; JStr "#000"].
Proof.
  split.
  - destruct (palette_never_empty no_palette)
      as (colors & indices & Hc & _ & _ & _ & Hin & _ & Hblank).
    rewrite Hc. f_equal. f_equal. apply Hblank.
    destruct indices as [|i indices]; [done|].
    assert (Hi : i ∈ i :: indices) by apply list_elem_of_here.
    apply Hin in Hi as [_ Hi]. by destruct Hi.
  - destruct (palette_never_empty
                (fun i => if Nat.eqb i 5 then " #000 "
                          else if Nat.eqb i 2 then "#fff" else " "))
      as (colors & indices & Hc & _ & _ & _ & _ & _ & _).
    rewrite Hc. injection Hc as Hc. by rewrite <- Hc.
Defined.

(** *** Series and categories *)

Lemma pluck_length (data field values : jsval) :
  pluck data field = Some values ->
  exists rows pts : list jsval,
    data = JArr rows /\ values = JArr pts /\ length pts = length rows.
Proof.
  unfold pluck, map_array. destruct data as [| | | | |rows|]; try done.
  destruct (mapM _ rows) as [pts|] eqn:E; [|done].
  intros [= <-]. exists rows, pts. repeat split.
  symmetry. by eapply length_mapM.
Qed.

Lemma series_aligned (mk : jsval -> jsval -> jsval) (rows : list jsval)
  (yFields series : jsval) :
  (forall f v, get_opt (mk f v) "data" = v) ->
  map_array (fun field => values ← pluck (JArr rows) field;
                          Some (mk field values)) yFields = Some series ->
  exists items : list jsval,
    series = JArr items
    /\ Forall (fun d => exists pts : list jsval,
                   d = JArr pts /\ length pts = length rows)
         (map (fun item => get_opt item "data") items).
Proof.
  intros Hmk. unfold map_array.
  destruct yFields as [| | | | |fields|]; try done.
  destruct (mapM _ fields) as [items|] eqn:E; [|done].
  intros [= <-]. exists items. split; [done|].
  apply mapM_Some_1 in E. clear -E Hmk.
  induction E as [|f item fields items Hf _ IH]; [constructor|].
  simpl. constructor; [|exact IH].
  destruct (pluck (JArr rows) f) as [values|] eqn:Ep; [|done].
  simpl in Hf. injection Hf as <-. rewrite Hmk.
  destruct (pluck_length _ _ _ Ep) as (rows' & pts & Hr & -> & Hl).
  injection Hr as <-. eauto.
Qed.

(** X14. In an option of the bar or the line builder every series has one
    point per data row, and so has the category axis: the series are
    aligned with the categories whatever the mapping names. *)
Theorem series_match_categories (config data : jsval) (columns : list jsval)
  (colors option : jsval) :
  buildBarOption config data columns colors = Some option
  \/ buildLineOption config data columns colors = Some option ->
  exists rows cats : list jsval,
    data = JArr rows
    /\ categories option = JArr cats
    /\ length cats = length rows
    /\ Forall (fun d => exists pts : list jsval,
                   d = JArr pts /\ length pts = length rows)
         (series_data option).
Proof.
  intros [H|H].
  - unfold buildBarOption in H.
    destruct (get config "x_field") as [xf|]; [|done].
    destruct (get config "y_fields") as [yf|]; [|done].
    cbn -[pluck map_array or] in H.
    destruct (pluck data _) as [cats|] eqn:Ec; [|done].
    destruct (pluck_length _ _ _ Ec) as (rows & pts & -> & -> & Hl).
    cbn -[pluck map_array or] in H.
    destruct (map_array _ _) as [series|] eqn:Es; [|done].
    apply (series_aligned
             (fun field values => JObj [("name", field); ("type", JStr "bar");
                                        ("data", values)])) in Es
      as (items & -> & Hi); [|done].
    cbn -[pluck map_array or] in H. injection H as <-.
    exists rows, pts. repeat split; done.
  - unfold buildLineOption in H.
    destruct (get config "x_field") as [xf|]; [|done].
    destruct (get config "y_fields") as [yf|]; [|done].
    cbn -[pluck map_array or] in H.
    destruct (pluck data _) as [cats|] eqn:Ec; [|done].
    destruct (pluck_length _ _ _ Ec) as (rows & pts & -> & -> & Hl).
    cbn -[pluck map_array or] in H.
    destruct (map_array _ _) as [series|] eqn:Es; [|done].
    apply (series_aligned
             (fun field values => JObj [("name", field); ("type", JStr "line");
                                        ("smooth", JBool true);
                                        ("data", values)])) in Es
      as (items & -> & Hi); [|done].
    cbn -[pluck map_array or] in H. injection H as <-.
    exists rows, pts. repeat split; done.
Qed.

(** The bar chart of the sample result. *)
Lemma series_match_categories_witness :
  exists (option : jsval) (cats : list jsval),
    buildBarOption (JObj []) (JArr sample_rows) sample_columns (JArr [])
    = Some option
    /\ categories option = JArr cats
    /\ length cats = length sample_rows
    /\ Forall (fun d => exists pts : list jsval,
                   d = JArr pts /\ length pts = length sample_rows)
         (series_data option).
Proof.
  destruct (buildBarOption (JObj []) (JArr sample_rows) sample_columns
              (JArr [])) as [option|] eqn:E; [|discriminate].
  destruct (series_match_categories (JObj []) (JArr sample_rows)
              sample_columns (JArr []) option (or_introl E))
    as (rows & cats & Hr & Hc & Hl & Hs).
  injection Hr as <-. exists option, cats. repeat split; assumption.
Defined.

(** *** A row that is [null] *)

Lemma map_array_null (f : jsval -> option jsval) (rows : list jsval) :
  (forall d, nullish d = true -> f d = None) ->
  Exists (fun d => nullish d = true) rows ->
  map_array f (JArr rows) = None.
Proof.
  intros Hf Hex. unfold map_array.
  destruct (mapM f rows) as [k|] eqn:E; [|done]. exfalso.
  assert (Hs : is_Some (mapM f rows)) by eauto.
  apply mapM_is_Some_1 in Hs. apply Exists_exists in Hex as (d & Hin & Hd).
  rewrite Forall_forall in Hs. destruct (Hs d Hin) as [y Hy].
  simpl in Hy. rewrite (Hf d Hd) in Hy. done.
Qed.

Lemma get_at_null (d k : jsval) : nullish d = true -> get_at d k = None.
Proof.
  intros H. unfold get_at. destruct (to_text k); [|done].
  simpl. by apply get_none_nullish.
Qed.

Lemma builders_null_row (config : jsval) (rows columns : list jsval)
  (colors : jsval) :
  Exists (fun d => nullish d = true) rows ->
  buildBarOption config (JArr rows) columns colors = None
  /\ buildLineOption config (JArr rows) columns colors = None
  /\ buildPieOption config (JArr rows) columns colors = None.
Proof.
  intros Hex. split; [|split].
  - unfold buildBarOption.
    destruct (get config "x_field"); [|done].
    destruct (get config "y_fields"); [|done].
    cbn -[pluck map_array or]. unfold pluck.
    rewrite map_array_null; [done| |done]. intros d Hd. by apply get_at_null.
  - unfold buildLineOption.
    destruct (get config "x_field"); [|done].
    destruct (get config "y_fields"); [|done].
    cbn -[pluck map_array or]. unfold pluck.
    rewrite map_array_null; [done| |done]. intros d Hd. by apply get_at_null.
  - unfold buildPieOption.
    destruct (get config "name_field"); [|done].
    destruct (get config "axis"); [|done].
    destruct (get config "value_field"); [|done].
    cbn -[map_array or get_at].
    rewrite map_array_null; [done| |done].
    intros d Hd. cbv beta. rewrite !get_at_null by exact Hd. done.
Qed.

(** X15. A data row that is [null] breaks the chart: the bar, the line and
    the pie builder raise on it, so [buildOption] raises for every
    configuration that is not a complete option and not of kind table, and
    [renderChart] is left with a fresh chart instance that was given no
    option, the instance before it disposed of. *)
Theorem null_row_breaks_chart (css : nat -> string)
  (config renderData : jsval) (rows : list jsval) (c : chart) :
  get_opt renderData "data" = JArr rows ->
  Exists (fun d => nullish d = true) rows ->
  complete_option config = false ->
  chartType config <> JStr "table" ->
  buildOption css config renderData = None
  /\ (chartRef c = true ->
      truthy config = true ->
      renderChart css config renderData c
      = Raised (ChartState true (viewMode c) (Some None)
                  match chartInstance c with
                  | Some _ => S (disposed c)
                  | None => disposed c
                  end)).
Proof.
  intros Hd Hex Hn Ht.
  assert (Hb : buildOption css config renderData = None).
  { destruct (nullish config) eqn:Hc.
    { unfold buildOption. apply get_none_nullish with (k := "series") in Hc.
      by rewrite Hc. }
    destruct (normalizeColumns (or renderData (JObj []))) as [columns|] eqn:E.
    - rewrite (buildOption_by_kind _ _ _ _ Hc Hn E). cbv zeta. rewrite Hd.
      destruct (builders_null_row config rows columns (getChartColors css) Hex)
        as (Hbar & Hline & Hpie).
      destruct rows as [|r rows]; [by apply Exists_nil in Hex|].
      change (or (JArr (r :: rows)) (JArr [])) with (JArr (r :: rows)).
      destruct (array_has_length r rows) as [_ Hl]. rewrite Hl.
      rewrite Hbar, Hline, Hpie.
      rewrite (strict_eq_str_false _ _ Ht). by repeat case_match.
    - unfold buildOption. rewrite (get_present _ _ Hc), Hn, E. done. }
  split; [done|].
  intros Hr Hc. unfold renderChart. by rewrite Hr, Hc, Hb.
Qed.

(** A result whose second row is [null], drawn over an earlier chart. *)
Lemma null_row_breaks_chart_witness :
  buildOption no_palette (JObj [("chart_type", JStr "line")])
    (JObj [("columns", JArr sample_columns);
           ("data", JArr [JObj [("a", JStr "north")]; JNull])])
  = None
  /\ renderChart no_palette (JObj [("chart_type", JStr "line")])
       (JObj [("columns", JArr sample_columns);
              ("data", JArr [JObj [("a", JStr "north")]; JNull])])
       (ChartState true "chart" (Some (Some no_data)) 0)
     = Raised (ChartState true "chart" (Some None) 1).
Proof.
  destruct (null_row_breaks_chart no_palette
              (JObj [("chart_type", JStr "line")])
              (JObj [("columns", JArr sample_columns);
                     ("data", JArr [JObj [("a", JStr "north")]; JNull])])
              [JObj [("a", JStr "north")]; JNull]
              (ChartState true "chart" (Some (Some no_data)) 0)
              eq_refl) as [Hb Hr].
  - apply Exists_cons_tl, Exists_cons_hd. reflexivity.
  - reflexivity.
  - discriminate.
  - split; [exact Hb|]. exact (Hr eq_refl eq_refl).
Defined.

(** *** The view mode *)

Lemma initViewMode_cases (config : jsval) (c : chart) :
  initViewMode config c
  = if says_table config
    then ChartState (chartRef c) "table" (chartInstance c) (disposed c)
    else c.
Proof. reflexivity. Qed.

(** X16. The table mode is sticky: [initViewMode] only ever switches to
    the table, never back.  Over any sequence of configurations the
    component is given, the view mode ends as the table once it was the
    table or one of the configurations said table, and is otherwise what it
    was; nothing else of the component changes. *)
Theorem table_mode_is_sticky (configs : list jsval) (c : chart) :
  viewMode (fold_left (fun c config => initViewMode config c) configs c)
  = (if String.eqb (viewMode c) "table" || existsb says_table configs
     then "table" else viewMode c)
  /\ chartRef (fold_left (fun c config => initViewMode config c) configs c)
     = chartRef c
  /\ chartInstance (fold_left (fun c config => initViewMode config c) configs c)
     = chartInstance c
  /\ disposed (fold_left (fun c config => initViewMode config c) configs c)
     = disposed c.
Proof.
  revert c. induction configs as [|config configs IH]; intros c.
  - simpl. rewrite orb_false_r.
    destruct (String.eqb (viewMode c) "table") eqn:E; [|done].
    apply String.eqb_eq in E. done.
  - simpl. destruct (IH (initViewMode config c)) as (H1 & H2 & H3 & H4).
    rewrite H1, H2, H3, H4, initViewMode_cases.
    destruct (says_table config); simpl; [|done].
    by rewrite orb_true_r.
Qed.

(** *** The pie *)

Lemma slices_of_rows (nameField valueField : jsval)
  (rows items : list jsval) :
  mapM (fun d => name ← get_at d nameField;
                 value ← get_at d valueField;
                 Some (JObj [("name", name); ("value", value)])) rows
  = Some items ->
  Forall2 (fun d item =>
             exists name value : jsval,
               get_at d nameField = Some name
               /\ get_at d valueField = Some value
               /\ item = JObj [("name", name); ("value", value)])
    rows items.
Proof.
  intros E. apply mapM_Some_1 in E. eapply Forall2_impl; [exact E|].
  intros d item Hd. cbv beta in Hd.
  destruct (get_at d nameField) as [name|]; [|done]. simpl in Hd.
  destruct (get_at d valueField) as [value|]; [|done]. simpl in Hd.
  injection Hd as <-. eauto.
Qed.

(** X17. Whenever the pie builder returns, it returns one series, of type
    pie, with one slice per data row in the order of the rows, each slice
    holding what the row has under the name field and under the value
    field of the mapping.  It returns for a configuration that is not
    [null], over rows that are not [null], when the two field names have a
    text.  Without any mapping (no [name_field], [value_field] or [axis]
    value) the name field is the first column and the value field the
    second. *)
Theorem pie_slices (config data : jsval) (columns : list jsval)
  (colors : jsval) :
  (forall option : jsval,
      buildPieOption config data columns colors = Some option ->
      series_types option = [JStr "pie"]
      /\ exists rows items : list jsval,
           data = JArr rows
           /\ slices option = JArr items
           /\ Forall2 (fun d item =>
                         exists name value : jsval,
                           get_at d (pie_name_field config columns) = Some name
                           /\ get_at d (pie_value_field config columns)
                              = Some value
                           /\ item = JObj [("name", name); ("value", value)])
                rows items)
  /\ (forall rows : list jsval,
         data = JArr rows ->
         nullish config = false ->
         Forall (fun d => nullish d = false) rows ->
         has_text (pie_name_field config columns) = true ->
         has_text (pie_value_field config columns) = true ->
         is_Some (buildPieOption config data columns colors))
  /\ (truthy (get_opt config "name_field") = false ->
      truthy (get_opt (get_opt (get_opt config "axis") "series") "value")
      = false ->
      truthy (get_opt (get_opt (get_opt config "axis") "x") "value") = false ->
      pie_name_field config columns = nth 0 columns JUndefined)
  /\ (truthy (get_opt config "value_field") = false ->
      truthy (get_opt (get_opt (get_opt config "axis") "y") "value") = false ->
      pie_value_field config columns = nth 1 columns JUndefined).
Proof.
  split; [|split; [|split]].
  - intros option H. unfold buildPieOption in H.
    destruct (get config "name_field") as [nf|] eqn:Hnf; [|done].
    destruct (get config "axis") as [ax|] eqn:Hax; [|done].
    destruct (get config "value_field") as [vf|] eqn:Hvf; [|done].
    cbn -[map_array or get_at] in H.
    destruct (map_array _ _) as [found|] eqn:Es; [|done].
    cbn -[map_array or get_at] in H. injection H as <-.
    split; [reflexivity|].
    unfold map_array in Es. destruct data as [| | | | |rows|]; try done.
    destruct (mapM _ rows) as [items|] eqn:E; [|done].
    injection Es as <-. exists rows, items. split; [done|]. split; [done|].
    unfold pie_name_field, pie_value_field.
    rewrite (get_get_opt _ _ _ Hnf), (get_get_opt _ _ _ Hax),
            (get_get_opt _ _ _ Hvf).
    by apply slices_of_rows.
  - intros rows -> Hc Hrows Hn Hv. unfold buildPieOption.
    rewrite !(get_present _ _ Hc). cbn -[map_array or get_at].
    fold (pie_name_field config columns). fold (pie_value_field config columns).
    unfold map_array.
    rewrite (mapM_total _
               (fun d =>
                  JObj [("name",
                         get_opt d (to_string (pie_name_field config columns)));
                        ("value",
                         get_opt d
                           (to_string (pie_value_field config columns)))])).
    + simpl. eauto.
    + eapply Forall_impl; [exact Hrows|]. intros d Hd. cbv beta.
      unfold get_at, to_text. rewrite Hn, Hv. simpl.
      by rewrite !(get_present _ _ Hd).
  - intros H1 H2 H3. unfold pie_name_field.
    by rewrite (or_falsy _ _ H1), (or_falsy _ _ H2), (or_falsy _ _ H3).
  - intros H1 H2. unfold pie_value_field.
    by rewrite (or_falsy _ _ H1), (or_falsy _ _ H2).
Qed.

(** The sample result as a pie, with no mapping and with the value field
    named. *)
Lemma pie_slices_witness :
  (exists option : jsval,
      buildPieOption (JObj [("chart_type", JStr "pie")]) (JArr sample_rows)
        sample_columns (JArr []) = Some option
      /\ series_types option = [JStr "pie"]
      /\ slices option
         = JArr [JObj [("name", JStr "north"); ("value", JNum 1)];
                 JObj [("name", JStr "south"); ("value", JNum 3)]])
  /\ is_Some (buildPieOption (JObj [("value_field", JStr "c")])
                (JArr sample_rows) sample_columns (JArr [])).
Proof.
  split.
  - destruct (pie_slices (JObj [("chart_type", JStr "pie")]) (JArr sample_rows)
                sample_columns (JArr [])) as (H & _).
    destruct (buildPieOption (JObj [("chart_type", JStr "pie")])
                (JArr sample_rows) sample_columns (JArr []))
      as [option|] eqn:E; [|discriminate].
    destruct (H option eq_refl) as (Ht & _).
    exists option. split; [reflexivity|]. split; [exact Ht|].
    injection E as <-. reflexivity.
  - destruct (pie_slices (JObj [("value_field", JStr "c")]) (JArr sample_rows)
                sample_columns (JArr [])) as (_ & H & _).
    apply (H sample_rows); try reflexivity. repeat constructor.
Defined.

End ChartMore.

(** ** Facts about the table step of the datasource dialog *)

Module TableModalFacts.
Import TableModal JSFacts.

Lemma strict_eq_eq (a b : jsval) : strict_eq a b = true -> a = b.
Proof.
  destruct a, b; simpl; try discriminate; intros H; try reflexivity.
  - apply Bool.eqb_prop in H. by subst.
  - apply Z.eqb_eq in H. by subst.
  - apply String.eqb_eq in H. by subst.
Qed.

Lemma table_names_remote (remote names : list jsval) :
  table_names remote = Some names ->
  length names = length remote
  /\ forall n, n ∈ names ->
               exists t, t ∈ remote /\ get_opt t "tableName" = n.
Proof.
  unfold table_names. intros H. split.
  - symmetry. by eapply length_mapM.
  - apply mapM_Some_1 in H. induction H as [|t n remote names Ht _ IH].
    + intros n Hn. by apply elem_of_nil in Hn.
    + intros m Hm. apply elem_of_cons in Hm as [->|Hm].
      * exists t. split; [by left|]. by apply get_get_opt.
      * destruct (IH m Hm) as (t' & Hin & Hg). exists t'. split; [by right|done].
Qed.

Lemma some_named_remote (n : jsval) (remote : list jsval) :
  some_named n remote = Some true ->
  exists t, t ∈ remote /\ get_opt t "tableName" = n.
Proof.
  induction remote as [|t remote IH]; [done|]. simpl.
  destruct (get t "tableName") as [name|] eqn:E; [|done]. simpl.
  destruct (strict_eq name n) eqn:Es.
  - intros _. exists t. split; [by left|].
    apply strict_eq_eq in Es. subst. by apply get_get_opt.
  - intros H. destruct (IH H) as (t' & Hin & Hg). exists t'.
    split; [by right|done].
Qed.

Lemma filter_present_kept (names remote kept : list jsval) :
  filter_present names remote = Some kept ->
  forall n, n ∈ kept -> n ∈ names /\ some_named n remote = Some true.
Proof.
  revert kept. induction names as [|m names IH]; intros kept; simpl.
  - intros [= <-] n Hn. by apply elem_of_nil in Hn.
  - destruct (some_named m remote) as [present|] eqn:Ep; [|done]. simpl.
    destruct (filter_present names remote) as [rest|]; [|done]. simpl.
    intros [= <-] n Hn. destruct present.
    + apply elem_of_cons in Hn as [->|Hn]; [by split; [left|]|].
      destruct (IH rest eq_refl n Hn). split; [by right|done].
    + destruct (IH rest eq_refl n Hn). split; [by right|done].
Qed.

Lemma checked_names_ticked (existing names : list jsval) :
  checked_names existing = Some names ->
  forall n, n ∈ names ->
            exists t, t ∈ existing /\ truthy (get_opt t "checked") = true
                      /\ get_opt t "table_name" = n.
Proof.
  unfold checked_names. destruct (forallb _ existing); [|done].
  intros [= <-] n Hn.
  apply list_elem_of_In, in_map_iff in Hn as (t & <- & Hin).
  apply filter_In in Hin as [Hin Hc].
  exists t. split; [by apply list_elem_of_In|done].
Qed.

(** X18. Whatever [handleNext] selects exists at the source: every name it
    puts into the selection is the [tableName] of a table in the list just
    fetched.  In edit mode, when the earlier tables can be read, each
    selected name is moreover one that was ticked before; when they cannot,
    and for a new datasource, every fetched table is selected. *)
Theorem selection_exists_remotely (editing : bool) (existingRes : option jsval)
  (remote selected : list jsval) :
  handleNext_selection editing existingRes remote = Some selected ->
  (forall n, n ∈ selected ->
             exists t, t ∈ remote /\ get_opt t "tableName" = n)
  /\ (editing = true ->
      still_present existingRes remote = Some selected ->
      forall n, n ∈ selected ->
                exists res existing t,
                  existingRes = Some res
                  /\ or (get_opt res "tables") (JArr []) = JArr existing
                  /\ t ∈ existing
                  /\ truthy (get_opt t "checked") = true
                  /\ get_opt t "table_name" = n)
  /\ (editing = false \/ still_present existingRes remote = None ->
      table_names remote = Some selected
      /\ length selected = length remote).
Proof.
  intros H. split; [|split].
  - unfold handleNext_selection in H.
    assert (Hall : table_names remote = Some selected ->
                   forall n, n ∈ selected ->
                             exists t, t ∈ remote /\ get_opt t "tableName" = n)
      by (intros Ht; by apply table_names_remote).
    destruct editing; [|by apply Hall].
    destruct (still_present existingRes remote) as [sel|] eqn:E;
      [|by apply Hall].
    injection H as <-. unfold still_present in E.
    destruct existingRes as [res|]; [|done]. simpl in E.
    destruct (get res "tables") as [tables|]; [|done]. simpl in E.
    destruct (or tables (JArr [])) as [| | | | |existing|]; try done.
    destruct (checked_names existing) as [names|]; [|done]. simpl in E.
    intros n Hn. destruct (filter_present_kept _ _ _ E n Hn) as [_ Hs].
    by apply some_named_remote.
  - intros -> E n Hn. unfold still_present in E.
    destruct existingRes as [res|]; [|done]. simpl in E.
    destruct (get res "tables") as [tables|] eqn:Et; [|done]. simpl in E.
    destruct (or tables (JArr [])) as [| | | | |existing|] eqn:Eo; try done.
    destruct (checked_names existing) as [names|] eqn:Ec; [|done]. simpl in E.
    destruct (filter_present_kept _ _ _ E n Hn) as [Hin _].
    destruct (checked_names_ticked _ _ Ec n Hin) as (t & Ht & Hck & Hname).
    exists res, existing, t. rewrite (get_get_opt _ _ _ Et). done.
  - intros Hcase. unfold handleNext_selection in H.
    assert (Ht : table_names remote = Some selected).
    { destruct Hcase as [->|E]; [done|]. rewrite E in H. by destruct editing. }
    split; [done|]. by apply table_names_remote.
Qed.

(** Two tables were ticked; one of them is gone at the source, where a new
    one has appeared. *)
Lemma selection_exists_remotely_witness :
  handleNext_selection true
    (Some (JObj [("tables",
                  JArr [JObj [("table_name", JStr "orders");
                              ("checked", JBool true)];
                        JObj [("table_name", JStr "legacy");
                              ("checked", JBool true)];
                        JObj [("table_name", JStr "audit");
                              ("checked", JBool false)]])]))
    [JObj [("tableName", JStr "orders")]; JObj [("tableName", JStr "audit")];
     JObj [("tableName", JStr "products")]]
  = Some [JStr "orders"]
  /\ exists t, t ∈ [JObj [("tableName", JStr "orders")];
                    JObj [("tableName", JStr "audit")];
                    JObj [("tableName", JStr "products")]]
               /\ get_opt t "tableName" = JStr "orders".
Proof.
  split; [reflexivity|].
  destruct (selection_exists_remotely true
              (Some (JObj [("tables",
                            JArr [JObj [("table_name", JStr "orders");
                                        ("checked", JBool true)];
                                  JObj [("table_name", JStr "legacy");
                                        ("checked", JBool true)];
                                  JObj [("table_name", JStr "audit");
                                        ("checked", JBool false)]])]))
              [JObj [("tableName", JStr "orders")];
               JObj [("tableName", JStr "audit")];
               JObj [("tableName", JStr "products")]]
              [JStr "orders"] eq_refl) as [H _].
  apply (H (JStr "orders")). by left.
Defined.

(** X19. The select-all box is never shown both checked and indeterminate.
    Ticking it selects every fetched table, after which it shows checked
    (when there is a table at all) and not indeterminate; clearing it
    empties the selection, after which it shows neither. *)
Theorem select_all_box (remote selected : list jsval) :
  isAllSelected remote selected && isIndeterminate remote selected = false
  /\ (forall names : list jsval,
         toggleSelectAll true remote = Some names ->
         length names = length remote
         /\ isIndeterminate remote names = false
         /\ (remote <> [] -> isAllSelected remote names = true))
  /\ (Forall (fun t => nullish t = false) remote ->
      toggleSelectAll true remote
      = Some (map (fun t => get_opt t "tableName") remote))
  /\ toggleSelectAll false remote = Some []
  /\ isAllSelected remote [] = false
  /\ isIndeterminate remote [] = false.
Proof.
  unfold isAllSelected, isIndeterminate. split; [|split; [|split]].
  - destruct (Nat.eqb (length selected) (length remote)) eqn:E.
    + apply Nat.eqb_eq in E. rewrite E, Nat.ltb_irrefl.
      by rewrite !andb_false_r.
    + by rewrite andb_false_r.
  - intros names H. apply table_names_remote in H as [Hl _].
    rewrite Hl, Nat.ltb_irrefl, andb_false_r, Nat.eqb_refl, andb_true_r.
    split; [done|]. split; [done|].
    intros Hne. apply Nat.ltb_lt. destruct remote; [done|simpl; lia].
  - intros Hall. unfold toggleSelectAll, table_names.
    apply mapM_Some_2. induction Hall as [|t remote' Ht _ IH]; [constructor|].
    constructor; [|exact IH]. unfold get_opt. by destruct t.
  - split; [done|]. split; [by destruct remote|done].
Qed.

(** Two tables found, then ticked all at once. *)
Lemma select_all_box_witness :
  toggleSelectAll true
    [JObj [("tableName", JStr "orders")]; JObj [("tableName", JStr "audit")]]
  = Some [JStr "orders"; JStr "audit"]
  /\ isAllSelected
       [JObj [("tableName", JStr "orders")]; JObj [("tableName", JStr "audit")]]
       [JStr "orders"; JStr "audit"] = true.
Proof.
  destruct (select_all_box
              [JObj [("tableName", JStr "orders")];
               JObj [("tableName", JStr "audit")]] [])
    as (_ & Hon & Hall & _).
  split.
  - apply Hall. repeat constructor.
  - destruct (Hon [JStr "orders"; JStr "audit"] eq_refl) as (_ & _ & H).
    apply H. discriminate.
Defined.

End TableModalFacts.

(** ** Facts about the history of a session *)

Module HistoryFacts.
Import DataChat JSFacts.







End HistoryFacts.

(** ** Facts about listed columns *)

Module ColumnFacts.
Import Chart JSFacts.





End ColumnFacts.
